(** * Binary passage retrieval (haystack fork): a shallow embedding

    This development embeds two source files:

    - [haystack/nodes/retriever/binary.py]: [BinaryPassageRetriever.retrieve],
      the two-stage retrieval (binary shortlist, then re-ranking with the dense
      query against the unpacked binary passage codes);
    - [haystack/modeling/model/hash_layer.py]: [HashLayer.__init_subclass__],
      the automatic subclass registration.

    Python exceptions are values of [exn]; a computation that may raise
    returns a [result].  The retriever object is threaded explicitly (the
    method assigns [self.candidates]); what the method sends to the logger
    and to the binary index is collected in a list of [event]s.  *)

From Stdlib Require Import ZArith Lia.
From Stdlib.Strings Require Import Byte.
From stdpp Require Import base option list strings pretty gmap sorting.

(** ** Exceptions and fallible computations *)

Inductive exn : Type :=
  | ValueError
  | KeyError
  | IndexError
  | TypeError
  | AttributeError
  | AssertionError
  | RuntimeError.

Inductive result (A : Type) : Type :=
  | Ok (a : A)
  | Raise (e : exn).
Arguments Ok {A} a.
Arguments Raise {A} e.

#[global] Instance result_ret : MRet result := λ A a, Ok a.
#[global] Instance result_bind : MBind result := λ A B f m,
  match m with
  | Ok a => f a
  | Raise e => Raise e
  end.
#[global] Instance result_fmap : FMap result := λ A B f m,
  match m with
  | Ok a => Ok (f a)
  | Raise e => Raise e
  end.

Definition raises {A : Type} (r : result A) : Prop := ∃ e, r = Raise e.

(** ** Scalars

    The embeddings are [np.float32] arrays.  The retrieval code only adds,
    subtracts, multiplies, negates and compares them and converts small
    integers to them, so the scalar type is kept abstract: [FloatOps] lists
    the operations, [FloatLaws] the few facts of IEEE arithmetic the
    properties below rely on (all of them hold for binary32, NaN included). *)

Class FloatOps (F : Type) : Type := {
  f_of_Z : Z → F;
  fadd : F → F → F;
  fsub : F → F → F;
  fmul : F → F → F;
  fneg : F → F;
  fltb : F → F → bool;
}.

Class FloatLaws (F : Type) `{FloatOps F} : Prop := {
  one_times_two_minus_one : fsub (fmul (f_of_Z 1) (f_of_Z 2)) (f_of_Z 1) = f_of_Z 1;
  zero_times_two_minus_one : fsub (fmul (f_of_Z 0) (f_of_Z 2)) (f_of_Z 1) = fneg (f_of_Z 1);
  zero_lt_one : fltb (f_of_Z 0) (f_of_Z 1) = true;
  zero_lt_minus_one : fltb (f_of_Z 0) (fneg (f_of_Z 1)) = false;
  zero_lt_zero : fltb (f_of_Z 0) (f_of_Z 0) = false;
  fneg_fltb : ∀ a b, fltb (fneg a) (fneg b) = fltb b a;
}.

(** [np.argsort] with its default [kind] (quicksort, which numpy documents as
    not stable).  The routine is a parameter; [ArgsortContract] is what numpy
    promises of it: the result is a permutation of the positions, and read in
    that order the keys never decrease. *)

Class NumpySort (F : Type) : Type := {
  argsort : list F → list nat;
}.

Class ArgsortContract (F : Type) `{FloatOps F} `{NumpySort F} : Prop := {
  argsort_perm : ∀ keys : list F, argsort keys ≡ₚ seq 0 (length keys);
  argsort_sorted : ∀ (keys : list F) (i j : nat) (pi pj : nat) (a b : F),
    (i < j)%nat →
    argsort keys !! i = Some pi → argsort keys !! j = Some pj →
    keys !! pi = Some a → keys !! pj = Some b →
    fltb b a = false;
}.

(** ** The numpy and Python operations [retrieve] uses *)

Section Numpy.
Context {F : Type} `{FloatOps F}.

(** [np.where(x > 0, 1, 0)] on one row; the 0/1 integers are booleans. *)
Definition np_where_gt0 (x : list F) : list bool :=
  (λ v, fltb (f_of_Z 0) v) <$> x.

(** One byte from eight bits, the first bit being the most significant
    ([np.packbits], [bitorder='big']). *)
Definition pack8 (a b c d e f g h : bool) : byte :=
  Byte.of_bits (h, (g, (f, (e, (d, (c, (b, a))))))).

Definition unpack8 (x : byte) : list bool :=
  let '(h, (g, (f, (e, (d, (c, (b, a))))))) := Byte.to_bits x in
  [a; b; c; d; e; f; g; h].

(** [np.packbits(bits, axis=-1)]: groups of eight, the last group padded
    with zero bits. *)
Fixpoint np_packbits (bits : list bool) : list byte :=
  match bits with
  | [] => []
  | a :: b :: c :: d :: e :: f :: g :: h :: rest =>
      pack8 a b c d e f g h :: np_packbits rest
  | _ =>
      [pack8 (nth 0 bits false) (nth 1 bits false) (nth 2 bits false)
             (nth 3 bits false) (nth 4 bits false) (nth 5 bits false)
             (nth 6 bits false) false]
  end.

(** [np.unpackbits(code)]: eight bits per byte, no [count]: the result has
    [8 * len(code)] entries. *)
Definition np_unpackbits (code : list byte) : list bool :=
  code ≫= unpack8.

(** [np.vstack(rows)]: raises on an empty list and on rows of different
    lengths. *)
Definition np_vstack {A : Type} (rows : list (list A)) : result (list (list A)) :=
  match rows with
  | [] => Raise ValueError
  | r :: rs =>
      if forallb (λ r', Nat.eqb (length r') (length r)) rs
      then Ok rows
      else Raise ValueError
  end.

(** [arr.reshape(1, d1, d2)] of a two-dimensional array: the number of
    elements must agree, and the elements are regrouped in row-major
    order.  The leading axis of length one is not represented. *)
Definition np_reshape {A : Type} (arr : list (list A)) (d1 d2 : nat)
  : result (list (list A)) :=
  let flat := concat arr in
  if Nat.eqb (length flat) (d1 * d2)
  then Ok ((λ j, take d2 (drop (j * d2) flat)) <$> seq 0 d1)
  else Raise ValueError.

(** [.astype(np.float32)] of a 0/1 entry. *)
Definition astype_float32 (b : bool) : F :=
  f_of_Z (if b then 1 else 0)%Z.

(** [passage_embeddings * 2 - 1], element-wise. *)
Definition times2_minus1 (x : F) : F :=
  fsub (fmul x (f_of_Z 2)) (f_of_Z 1).

(** Line 233 on one row: threshold at zero, then pack. *)
Definition pack_code (x : list F) : list byte :=
  np_packbits (np_where_gt0 x).

(** Lines 239, 245 and 247 on one stored code: unpack, convert, map 0/1 to
    -1/+1. *)
Definition unpack_code (code : list byte) : list F :=
  map (λ b : bool, times2_minus1 (astype_float32 b)) (np_unpackbits code).

(** The two values of an unpacked code. *)
Definition plus_minus_one (b : bool) : F :=
  if b then f_of_Z 1 else fneg (f_of_Z 1).

(** Modelled from the spec: the forward direction of the hash activation
    (section 4.1), whose code is not among the sources: +1 where the input is
    greater than zero, -1 elsewhere. *)
Definition hash_forward (x : list F) : list F :=
  map (λ v, plus_minus_one (fltb (f_of_Z 0) v)) x.

(** Bit [i] of a packed code: in byte [i / 8], counting from the most
    significant bit. *)
Definition code_bit (code : list byte) (i : nat) : option bool :=
  (λ x, N.testbit (Byte.to_N x) (N.of_nat (7 - i mod 8))) <$> code !! (i / 8)%nat.

(** Zero bits that [np.packbits] appends to a row of [n] bits. *)
Definition padding (n : nat) : nat := ((8 - n mod 8) mod 8)%nat.

(** The round trip as the specification words it, for codes of [D] bits:
    packing an unpacked code and unpacking gives the code back, and
    unpacking a packed code and packing gives the bytes back. *)
Definition round_trip (D : nat) : Prop :=
  (∀ code : list F,
     length code = D →
     Forall (λ v, v = f_of_Z 1 ∨ v = fneg (f_of_Z 1)) code →
     unpack_code (pack_code code) = code) ∧
  (∀ packed : list byte,
     length packed = ((D + 7) / 8)%nat →
     pack_code (unpack_code packed) = packed).

(** The inner sum of [np.einsum("ijk,ik->ij", p, q)] for one [j]. *)
Definition dot (p q : list F) : F :=
  fold_left (λ acc pq, fadd acc (fmul pq.1 pq.2)) (zip p q) (f_of_Z 0).

Definition np_einsum_ijk_ik (p : list (list F)) (q : list F) : list F :=
  (λ row, dot row q) <$> p.

(** Python's [l[:k]]: a negative [k] counts from the end. *)
Definition py_slice_upto {A : Type} (l : list A) (k : Z) : list A :=
  if (0 <=? k)%Z then take (Z.to_nat k) l
  else take (length l - Z.to_nat (- k)) l.

(** [arr[i]] for a position produced by [argsort]. *)
Definition np_getitem {A : Type} (l : list A) (i : nat) : result A :=
  match l !! i with
  | Some x => Ok x
  | None => Raise IndexError
  end.

(** [l[i]] on a Python list: negative positions count from the end. *)
Definition py_list_getitem {A : Type} (l : list A) (i : Z) : result A :=
  let n := Z.of_nat (length l) in
  if ((0 <=? i) && (i <? n))%Z then np_getitem l (Z.to_nat i)
  else if ((- n <=? i) && (i <? 0))%Z then np_getitem l (Z.to_nat (n + i))
  else Raise IndexError.

(** [d[key]] on a dict. *)
Definition py_dict_getitem {A : Type} (d : gmap string A) (key : string) : result A :=
  match d !! key with
  | Some x => Ok x
  | None => Raise KeyError
  end.
End Numpy.

(** ** Documents, the binary index and the document store

    [Document] comes from [haystack.schema]; [retrieve] only moves documents
    around.  The raw index is the object found in
    [document_store.faiss_indexes]: of it the method calls [search] (of whose
    two results it keeps the labels) and [reconstruct].  Both are external
    and may raise. *)

Record Document : Type := {
  doc_id : string;
  content : string;
}.

Record BinaryIndex : Type := {
  search : list byte → Z → result (list Z);
  reconstruct : Z → result (list byte);
}.

Record DocumentStore : Type := {
  store_index : string;
  all_documents : list Document;
  faiss_indexes : gmap string BinaryIndex;
}.

(** What the binary index API promises of [search(x, k)]: the labels come in
    an array with [k] columns, so at most [k] labels are returned (and none
    can be for a negative [k]). *)
Definition search_within_k (ix : BinaryIndex) : Prop :=
  ∀ (x : list byte) (k : Z) (ids : list Z),
    search ix x k = Ok ids → (Z.of_nat (length ids) <= k)%Z.

(** ** The retriever *)

Section Retriever.
Context {F : Type} `{FloatOps F} `{NumpySort F}.

(** The fields of [self] that [retrieve] reads or writes.  [embed_one_query]
    stands for the method of that name applied to [[{"query": query}]],
    followed by the unpacking of its result into the dense and the binary
    query embedding (one row each, since one query is embedded); it runs the
    tokenizer and the model, which are external.  The field is what the
    method returns during one call of [retrieve], which applies it once
    (line 228); what the model returns in a later call is the matter of
    [QueryEncoder] below. *)
Record Retriever : Type := {
  document_store : option DocumentStore;
  top_k : Z;
  candidates : Z;
  embed_one_query : string → result (list F * list F);
}.

Definition set_candidates (c : Z) (self : Retriever) : Retriever :=
  {| document_store := document_store self;
     top_k := top_k self;
     candidates := c;
     embed_one_query := embed_one_query self |}.

Definition set_document_store (ds : option DocumentStore) (self : Retriever) : Retriever :=
  {| document_store := ds;
     top_k := top_k self;
     candidates := candidates self;
     embed_one_query := embed_one_query self |}.

(** What a call lets the outside observe besides its result. *)
Inductive event : Type :=
  | LoggerError (msg : string)
  | IndexSearch (index : string) (x : list byte) (k : Z).

(** State ([self]), output (events) and exceptions.  An exception keeps the
    assignments to [self] and the events that came before it. *)
Definition M (A : Type) : Type := Retriever → result A * Retriever * list event.

#[global] Instance M_ret : MRet M := λ A a self, (Ok a, self, []).
#[global] Instance M_bind : MBind M := λ A B f m self,
  match m self with
  | (Ok a, self', ev) =>
      match f a self' with
      | (r, self'', ev') => (r, self'', ev ++ ev')
      end
  | (Raise e, self', ev) => (Raise e, self', ev)
  end.

Definition get_self : M Retriever := λ self, (Ok self, self, []).
Definition assign_candidates (c : Z) : M unit := λ self, (Ok (), set_candidates c self, []).
Definition emit (e : event) : M unit := λ self, (Ok (), self, [e]).
Definition lift {A : Type} (r : result A) : M A := λ self, (r, self, []).

Definition no_document_store_message : string :=
  "Cannot perform retrieve() since DensePassageRetriever initialized with document_store=None".

Definition Filters : Type := gmap string (list string).
Definition Headers : Type := gmap string string.

(** Lines 238-247: the codes of the shortlisted ids, unpacked, stacked,
    reshaped to the shape of the query and mapped from 0/1 to -1/+1. *)
Definition passage_embeddings (raw_index : BinaryIndex) (ids_arr : list Z) (D : nat)
  : result (list (list F)) :=
  rows ← mapM (M := result) (λ id_, np_unpackbits <$> reconstruct raw_index id_) ids_arr;
  stacked ← np_vstack rows;
  reshaped ← np_reshape stacked (length stacked) D;
  Ok (map (map (λ b : bool, times2_minus1 (astype_float32 b))) reshaped).

(** The retriever after line 231. *)
Definition clamped (store : DocumentStore) (self : Retriever) : Retriever :=
  if (Z.of_nat (length (all_documents store)) <? candidates self)%Z
  then set_candidates (Z.of_nat (length (all_documents store))) self
  else self.

(** Lines 228-249: from the query to the shortlist and its scores. *)
Definition rerank (store : DocumentStore) (query : string) (index : string)
  : M (list Z * list F) :=
  self ← get_self;
  '(query_embeddings, query_emb_binary) ← lift (embed_one_query self query);
  let n := Z.of_nat (length (all_documents store)) in
  _ ← (if (n <? candidates self)%Z then assign_candidates n else mret ());
  self ← get_self;
  let bin_query_embeddings := np_packbits (np_where_gt0 query_emb_binary) in
  raw_index ← lift (py_dict_getitem (faiss_indexes store) index);
  _ ← emit (IndexSearch index bin_query_embeddings (candidates self));
  ids_arr ← lift (search raw_index bin_query_embeddings (candidates self));
  passage ← lift (passage_embeddings raw_index ids_arr (length query_embeddings));
  mret (ids_arr, np_einsum_ijk_ik passage query_embeddings).

(** Lines 250-251: order by score, cut at [top_k], fetch the documents. *)
Definition select_documents (store : DocumentStore) (ids_arr : list Z)
    (scores_arr : list F) (k : Z) : result (list Document) :=
  let sorted_indices := py_slice_upto (argsort (fneg <$> scores_arr)) k in
  mapM (M := result)
       (λ i, id_ ← np_getitem ids_arr i; py_list_getitem (all_documents store) id_)
       sorted_indices.

Definition retrieve (query : string) (filters : option Filters)
    (top_k_ : option Z) (index_ : option string) (headers : option Headers)
  : M (list Document) :=
  self ← get_self;
  let k := default (top_k self) top_k_ in
  match document_store self with
  | None =>
      _ ← emit (LoggerError no_document_store_message);
      mret []
  | Some store =>
      let index := default (store_index store) index_ in
      '(ids_arr, scores_arr) ← rerank store query index;
      lift (select_documents store ids_arr scores_arr k)
  end.

(** A later call of [retrieve], possibly after the store was replaced by a
    grown one; [run_calls] runs such calls one after the other and collects
    the events. *)
Record call : Type := {
  call_store : option DocumentStore;
  call_query : string;
  call_top_k : option Z;
  call_index : option string;
}.

Fixpoint run_calls (calls : list call) (self : Retriever) : Retriever * list event :=
  match calls with
  | [] => (self, [])
  | c :: rest =>
      match retrieve (call_query c) None (call_top_k c) (call_index c) None
              (set_document_store (call_store c) self) with
      | (_, self', ev) =>
          match run_calls rest self' with
          | (self'', ev') => (self'', ev ++ ev')
          end
      end
  end.
End Retriever.

Arguments Retriever F : clear implicits.
Arguments M F A : clear implicits.

(** ** Consecutive calls

    [embed_one_query] leaves the model in the mode it is in: its call of
    [eval()] is commented out (line 267).  A forward pass made in training
    mode goes through the dropout of the model, whose masks come from
    torch's random generator, so what the method returns for a query in one
    call of [retrieve] need not be what it returns in the next.  [G] is the
    state of the model that a pass reads and advances (the training flag,
    the generator); [retrieve] neither sees nor sets it. *)
Section ConsecutiveCalls.
Context {F : Type} `{FloatOps F} `{NumpySort F} {G : Type}.

(** The method as a function of the state of the model: the embeddings (or
    the exception) and the state after the pass. *)
Definition QueryEncoder : Type := G → string → result (list F * list F) * G.

Definition set_embed_one_query (f : string → result (list F * list F))
    (self : Retriever F) : Retriever F :=
  {| document_store := document_store self;
     top_k := top_k self;
     candidates := candidates self;
     embed_one_query := f |}.

(** One call of [retrieve] with the model in state [g].  The method is
    applied at line 228, after the test of the document store, so the model
    is left as it was when there is no store. *)
Definition retrieve_in (encoder : QueryEncoder) (query : string)
    (filters : option Filters) (top_k_ : option Z) (index_ : option string)
    (headers : option Headers) (self : Retriever F) (g : G)
  : result (list Document) * Retriever F * G * list event :=
  match retrieve query filters top_k_ index_ headers
          (set_embed_one_query (λ q, (encoder g q).1) self) with
  | (r, self', ev) =>
      (r, self',
       match document_store self with
       | Some _ => (encoder g query).2
       | None => g
       end,
       ev)
  end.
End ConsecutiveCalls.

Arguments QueryEncoder F G : clear implicits.

(** ** Concrete collaborators

    The properties below are stated for every scalar type, index and
    encoder.  To run the method on concrete inputs this section provides
    small stand-ins for the external parts. *)

(** Integer-valued scalars: every operation is exact. *)
Definition Z_float_ops : FloatOps Z :=
  {| f_of_Z := λ z, z;
     fadd := Z.add;
     fsub := Z.sub;
     fmul := Z.mul;
     fneg := Z.opp;
     fltb := Z.ltb |}.

Section Sorting.
Context {F : Type} `{FloatOps F}.

Definition key_lt (keys : list F) (i j : nat) : bool :=
  fltb (nth i keys (f_of_Z 0)) (nth j keys (f_of_Z 0)).

(** Position [i] goes before the first position whose key is not smaller:
    among equal keys the position inserted last comes first. *)
Fixpoint insert_pos (keys : list F) (i : nat) (sorted : list nat) : list nat :=
  match sorted with
  | [] => [i]
  | j :: rest =>
      if key_lt keys j i then j :: insert_pos keys i rest else i :: sorted
  end.

(** A stable argsort ([kind='stable']): positions are inserted from the last
    to the first, so equal keys stay in ascending position order.  This is
    the order the specification words "stable sort; ties broken by ascending
    shortlist-search order" describe. *)
Definition stable_argsort (keys : list F) : list nat :=
  foldr (insert_pos keys) [] (seq 0 (length keys)).
End Sorting.

(** numpy's default argsort for floating-point keys (npysort, [aquicksort]): a
    median-of-three quicksort on the array [tosort] of positions, with
    insertion sort for ranges of at most [SMALL_QUICKSORT + 1] entries.  The
    source of numpy is not part of this repository; the routine is rendered
    from its C code to run the method on concrete inputs. *)
Section Introsort.
Context {F : Type} (lt : F → F → bool) (v : list F).

Definition SMALL_QUICKSORT : nat := 16.

(** [LT] on the keys of the positions stored at [p] and [q]. *)
Definition lt_at (tosort : list nat) (p q : nat) : bool :=
  match tosort !! p ≫= (v !!.), tosort !! q ≫= (v !!.) with
  | Some a, Some b => lt a b
  | _, _ => false
  end.

(** [INTP_SWAP] of the entries at [p] and [q]. *)
Definition intp_swap (tosort : list nat) (p q : nat) : list nat :=
  match tosort !! p, tosort !! q with
  | Some a, Some b => <[p := b]> (<[q := a]> tosort)
  | _, _ => tosort
  end.

(** [do ++pi; while (key at pi < vp)], where [vp] is the key of the position
    stored at [pivot]. *)
Fixpoint scan_up (fuel : nat) (tosort : list nat) (pivot pi : nat) : nat :=
  match fuel with
  | O => S pi
  | S fuel' =>
      if lt_at tosort (S pi) pivot then scan_up fuel' tosort pivot (S pi) else S pi
  end.

(** [do --pj; while (vp < key at pj)]. *)
Fixpoint scan_down (fuel : nat) (tosort : list nat) (pivot pj : nat) : nat :=
  match fuel with
  | O => pred pj
  | S fuel' =>
      if lt_at tosort pivot (pred pj) then scan_down fuel' tosort pivot (pred pj)
      else pred pj
  end.

(** The [for (;;)] loop of the partition.  The pivot sits at [pivot] and is
    not moved by the swaps, which happen strictly below it. *)
Fixpoint partition_loop (fuel : nat) (tosort : list nat) (pivot pi pj : nat)
  : list nat * nat :=
  match fuel with
  | O => (tosort, pi)
  | S fuel' =>
      let pi' := scan_up (length tosort) tosort pivot pi in
      let pj' := scan_down (length tosort) tosort pivot pj in
      if (pj' <=? pi')%nat then (tosort, pi')
      else partition_loop fuel' (intp_swap tosort pi' pj') pivot pi' pj'
  end.

(** One pass of the body of [while ((pr - pl) > SMALL_QUICKSORT)]: the
    positions rearranged and the final place [pi] of the pivot. *)
Definition partition (tosort : list nat) (pl pr : nat) : list nat * nat :=
  let pm := (pl + (pr - pl) / 2)%nat in
  let t1 := if lt_at tosort pm pl then intp_swap tosort pm pl else tosort in
  let t2 := if lt_at t1 pr pm then intp_swap t1 pr pm else t1 in
  let t3 := if lt_at t2 pm pl then intp_swap t2 pm pl else t2 in
  let pj := (pr - 1)%nat in
  let t4 := intp_swap t3 pm pj in
  let '(t5, pi) := partition_loop (length tosort) t4 pj pl pj in
  (intp_swap t5 pi (pr - 1), pi).

(** The inner [while] of the insertion sort: shift larger keys up. *)
Fixpoint shift_up (fuel : nat) (tosort : list nat) (pl pj vi : nat) : list nat :=
  match fuel with
  | O => <[pj := vi]> tosort
  | S fuel' =>
      match tosort !! pred pj with
      | Some k =>
          if (pl <? pj)%nat &&
             match v !! vi, v !! k with
             | Some a, Some b => lt a b
             | _, _ => false
             end
          then shift_up fuel' (<[pj := k]> tosort) pl (pred pj) vi
          else <[pj := vi]> tosort
      | None => <[pj := vi]> tosort
      end
  end.

Definition insertion_sort (tosort : list nat) (pl pr : nat) : list nat :=
  foldl (λ ts pi,
           match ts !! pi with
           | Some vi => shift_up (length ts) ts pl pi vi
           | None => ts
           end)
        tosort (seq (S pl) (pr - pl)).

(** [aheapsort] on the [n] positions from [base] on, for ranges whose depth
    budget is exhausted.  The C code indexes the range from 1: its [a[k]] is
    the entry at [base + k - 1].  [sift_down] is the inner [for] loop, which
    moves [tmp] down from the hole [i]. *)
Definition heap_slot (base k : nat) : nat := (base + k - 1)%nat.

Fixpoint sift_down (fuel : nat) (tosort : list nat) (base tmp i n : nat) : list nat :=
  match fuel with
  | O => <[heap_slot base i := tmp]> tosort
  | S fuel' =>
      let j := (2 * i)%nat in
      if (n <? j)%nat then <[heap_slot base i := tmp]> tosort
      else
        let j := if (j <? n)%nat && lt_at tosort (heap_slot base j) (heap_slot base (S j))
                 then S j else j in
        match tosort !! heap_slot base j with
        | Some aj =>
            if match v !! tmp, v !! aj with
               | Some a, Some b => lt a b
               | _, _ => false
               end
            then sift_down fuel' (<[heap_slot base i := aj]> tosort) base tmp j n
            else <[heap_slot base i := tmp]> tosort
        | None => <[heap_slot base i := tmp]> tosort
        end
  end.

Definition aheapsort (tosort : list nat) (base n : nat) : list nat :=
  let built :=
    foldl (λ ts l,
             match ts !! heap_slot base l with
             | Some tmp => sift_down n ts base tmp l n
             | None => ts
             end)
          tosort (reverse (seq 1 (n / 2))) in
  foldl (λ ts m,
           match ts !! heap_slot base m, ts !! heap_slot base 1 with
           | Some tmp, Some a1 =>
               sift_down n (<[heap_slot base m := a1]> ts) base tmp 1 (m - 1)
           | _, _ => ts
           end)
        built (reverse (seq 2 (n - 1))).

(** The outer [while (1)] loop with its explicit stack of pending ranges
    and their depth budgets.  [top] tells that control is at the head of the
    outer loop, where the depth budget is checked; the inner [while]
    partitions again without that check.  Every pass either places a pivot
    or finishes a range, so [2 * num + 1] passes are enough. *)
Definition stack_pop (loop : list nat → nat → nat → Z → list (nat * nat * Z) → bool → list nat)
    (tosort : list nat) (stack : list (nat * nat * Z)) : list nat :=
  match stack with
  | [] => tosort
  | (pl, pr, cdepth) :: stack' => loop tosort pl pr cdepth stack' true
  end.

Fixpoint aquicksort_loop (fuel : nat) (tosort : list nat) (pl pr : nat)
    (cdepth : Z) (stack : list (nat * nat * Z)) (top : bool) : list nat :=
  match fuel with
  | O => tosort
  | S fuel' =>
      if top && (cdepth <? 0)%Z
      then stack_pop (aquicksort_loop fuel') (aheapsort tosort pl (pr - pl + 1)) stack
      else if (SMALL_QUICKSORT <? pr - pl)%nat then
        let '(ts, pi) := partition tosort pl pr in
        if (pi - pl <? pr - pi)%nat
        then aquicksort_loop fuel' ts pl (pi - 1) (cdepth - 1)
               ((S pi, pr, (cdepth - 1)%Z) :: stack) false
        else aquicksort_loop fuel' ts (S pi) pr (cdepth - 1)
               ((pl, (pi - 1)%nat, (cdepth - 1)%Z) :: stack) false
      else stack_pop (aquicksort_loop fuel') (insertion_sort tosort pl pr) stack
  end.
End Introsort.

Definition np_aquicksort {F : Type} (lt : F → F → bool) (v : list F) : list nat :=
  let num := length v in
  aquicksort_loop lt v (2 * num + 1) (seq 0 num) 0 (num - 1)
    (2 * Z.log2 (Z.of_nat num)) [] true.

(** Modelled from the spec: the candidate index (section 4.4), whose
    implementation is not among the sources.  Entries are pairs of an id and
    a packed code; [search] ranks all entries by ascending Hamming distance to
    the query, ties by ascending id, and returns up to [k] ids; [reconstruct]
    gives the stored code of an id and fails for an unknown id. *)
Definition hamming (a b : list byte) : nat :=
  length (List.filter (λ p : bool * bool, xorb p.1 p.2)
            (zip (np_unpackbits a) (np_unpackbits b))).

Definition entry_leb (p q : nat * Z) : bool :=
  (p.1 <? q.1)%nat || ((p.1 =? q.1)%nat && (p.2 <=? q.2)%Z).

Fixpoint insert_entry (p : nat * Z) (sorted : list (nat * Z)) : list (nat * Z) :=
  match sorted with
  | [] => [p]
  | q :: rest => if entry_leb p q then p :: sorted else q :: insert_entry p rest
  end.

Definition rank_entries (x : list byte) (entries : list (Z * list byte)) : list Z :=
  snd <$> foldr insert_entry [] ((λ e : Z * list byte, (hamming x e.2, e.1)) <$> entries).

Definition flat_index (entries : list (Z * list byte)) : BinaryIndex :=
  {| search := λ x k,
       if (k <? 0)%Z then Raise ValueError
       else Ok (take (Z.to_nat k) (rank_entries x entries));
     reconstruct := λ id_,
       match List.find (λ e : Z * list byte, (e.1 =? id_)%Z) entries with
       | Some e => Ok e.2
       | None => Raise RuntimeError
       end |}.

(** ** HashLayer: automatic subclass registration

    Classes are objects on a heap.  Of a class the model keeps its name, the
    rest of its method resolution order and its namespace; of the values in
    a namespace it tells dicts (from names to classes) and function objects
    from everything else. *)

Module HashLayerModel.

(** Class objects are named by their address. *)
Abbreviation loc := nat (only parsing).

Inductive pyval : Type :=
  | PyDict (d : gmap string loc)
  | PyFunction (qualname : string)
  | PyOther.

Record pyclass : Type := {
  cls_name : string;
  cls_mro_tail : list loc;
  cls_namespace : gmap string pyval;
}.

Abbreviation heap := (gmap nat pyclass) (only parsing).

(** Attribute lookup on a class: the first class of the resolution order
    whose namespace has the attribute, with that class. *)
Fixpoint lookup_mro (h : heap) (mro : list loc) (attr : string) : option (loc * pyval) :=
  match mro with
  | [] => None
  | c :: rest =>
      match h !! c ≫= (λ k, cls_namespace k !! attr) with
      | Some v => Some (c, v)
      | None => lookup_mro h rest attr
      end
  end.

Definition getattr (h : heap) (cls : loc) (attr : string) : result (loc * pyval) :=
  match h !! cls with
  | None => Raise RuntimeError
  | Some k =>
      match lookup_mro h (cls :: cls_mro_tail k) attr with
      | Some r => Ok r
      | None => Raise AttributeError
      end
  end.

(** [object.__init_subclass__] accepts no keyword argument. *)
Definition object_init_subclass (kwargs : list (string * pyval)) : result unit :=
  match kwargs with
  | [] => Ok ()
  | _ :: _ => Raise TypeError
  end.

(** [HashLayer.__init_subclass__] for the new class [cls] and the keyword
    arguments of the class statement.  Between [HashLayer] and
    [object] stands [nn.Module], which has no [__init_subclass__] of its own,
    so the [super()] call is [object]'s.  The item assignment changes the
    dict object where the lookup found it, in the namespace of its owner. *)
Definition HashLayer_init_subclass (h : heap) (cls : loc)
    (kwargs : list (string * pyval)) : result heap :=
  _ ← object_init_subclass kwargs;
  '(owner, subclasses) ← getattr h cls "subclasses";
  k ← match h !! cls with Some k => Ok k | None => Raise RuntimeError end;
  match subclasses with
  | PyDict d =>
      Ok (alter (λ o, {| cls_name := cls_name o;
                         cls_mro_tail := cls_mro_tail o;
                         cls_namespace :=
                           <["subclasses" := PyDict (<[cls_name k := cls]> d)]>
                             (cls_namespace o) |})
                owner h)
  | _ => Raise TypeError
  end.

Definition HashLayer_hook : string := "HashLayer.__init_subclass__".

(** The class body of [HashLayer]: it defines [__init_subclass__] and
    nothing else (the [forward] method is commented out). *)
Definition HashLayer_class (module object : loc) : pyclass :=
  {| cls_name := "HashLayer";
     cls_mro_tail := [module; object];
     cls_namespace := {[ "__init_subclass__" := PyFunction HashLayer_hook ]} |}.

(** The class statement [class name(base, keyword arguments): body] for a
    single base: the class object is created with the namespace of the body,
    then [type.__new__] calls the [__init_subclass__] found from the base on.
    Only the hook of [HashLayer] and the one of [object] are rendered; any
    other function object found there is outside the model. *)
Definition define_class (h : heap) (name : string) (base : loc)
    (kwargs : list (string * pyval)) (body : gmap string pyval)
  : result (loc * heap) :=
  match h !! base with
  | None => Raise RuntimeError
  | Some b =>
      let cls := fresh (dom h) in
      let h' := <[cls := {| cls_name := name;
                            cls_mro_tail := base :: cls_mro_tail b;
                            cls_namespace := body |}]> h in
      match lookup_mro h' (base :: cls_mro_tail b) "__init_subclass__" with
      | Some (_, PyFunction qualname) =>
          if String.eqb qualname HashLayer_hook
          then h'' ← HashLayer_init_subclass h' cls kwargs; Ok (cls, h'')
          else Raise RuntimeError
      | Some (_, _) => Raise TypeError
      | None => _ ← object_init_subclass kwargs; Ok (cls, h')
      end
  end.

(** The three classes present once [hash_layer.py] is imported: [object],
    [torch.nn.Module] (with whatever namespace torch gives it) and
    [HashLayer]. *)
Definition initial_heap (object_ns module_ns : gmap string pyval) : heap :=
  {[ 0%nat := {| cls_name := "object"; cls_mro_tail := []; cls_namespace := object_ns |};
     1%nat := {| cls_name := "Module"; cls_mro_tail := [0%nat]; cls_namespace := module_ns |};
     2%nat := HashLayer_class 1 0 ]}.

(** *** Class statements with several bases

    A class statement may name further bases beside [HashLayer], and a hook
    may call on to the next one.  The definitions below render the class
    statement in that generality; [define_class] is the case of one base. *)

(** Line 12: [cls.subclasses[cls.__name__] = cls]. *)
Definition register_subclass (h : heap) (cls : loc) : result heap :=
  '(owner, subclasses) ← getattr h cls "subclasses";
  k ← match h !! cls with Some k => Ok k | None => Raise RuntimeError end;
  match subclasses with
  | PyDict d =>
      Ok (alter (λ o, {| cls_name := cls_name o;
                         cls_mro_tail := cls_mro_tail o;
                         cls_namespace :=
                           <["subclasses" := PyDict (<[cls_name k := cls]> d)]>
                             (cls_namespace o) |})
                owner h)
  | _ => Raise TypeError
  end.

(** The call [__init_subclass__(keyword arguments)] for the new class [cls],
    looked up in the classes [mro] of its resolution order that are still
    to be searched.  The hook of [HashLayer] first calls on with [super()],
    that is from the class after its owner (line 11), and then registers
    (line 12); when no class is left the hook is [object]'s.  Any other
    function object is outside the model. *)
Fixpoint init_subclass_chain (h : heap) (cls : loc) (mro : list loc)
    (kwargs : list (string * pyval)) : result heap :=
  match mro with
  | [] => _ ← object_init_subclass kwargs; Ok h
  | c :: rest =>
      match h !! c ≫= (λ k, cls_namespace k !! "__init_subclass__") with
      | None => init_subclass_chain h cls rest kwargs
      | Some (PyFunction qualname) =>
          if String.eqb qualname HashLayer_hook
          then h' ← init_subclass_chain h cls rest kwargs; register_subclass h' cls
          else Raise RuntimeError
      | Some _ => Raise TypeError
      end
  end.

(** Python's C3 linearisation.  A head is taken when it is in the tail of
    no sequence; the first such head, in the order of the sequences, is the
    next class and leaves the front of every sequence that it heads.  There
    is no resolution order ([TypeError]) when every head is blocked. *)
Definition c3_blocked (seqs : list (list loc)) (c : loc) : bool :=
  existsb (λ s, existsb (Nat.eqb c) (tail s)) seqs.

Fixpoint c3_candidate (heads seqs : list (list loc)) : option loc :=
  match heads with
  | [] => None
  | [] :: rest => c3_candidate rest seqs
  | (c :: _) :: rest => if c3_blocked seqs c then c3_candidate rest seqs else Some c
  end.

Definition c3_drop (c : loc) (s : list loc) : list loc :=
  match s with
  | c' :: s' => if Nat.eqb c' c then s' else s
  | [] => []
  end.

Definition c3_done (seqs : list (list loc)) : bool :=
  forallb (λ s, match s with [] => true | _ :: _ => false end) seqs.

Fixpoint c3_merge (fuel : nat) (seqs : list (list loc)) : result (list loc) :=
  if c3_done seqs then Ok []
  else match fuel with
       | O => Raise RuntimeError
       | S fuel' =>
           match c3_candidate seqs seqs with
           | None => Raise TypeError
           | Some c => rest ← c3_merge fuel' (c3_drop c <$> seqs); Ok (c :: rest)
           end
       end.

Definition mro_at (h : heap) (c : loc) : result (list loc) :=
  match h !! c with
  | Some k => Ok (c :: cls_mro_tail k)
  | None => Raise RuntimeError
  end.

(** The resolution order of a new class after the class itself: the merge
    of the orders of its bases and of the list of the bases.  Every step of
    the merge removes a class, so the fuel given is enough. *)
Definition linearize (h : heap) (bases : list loc) : result (list loc) :=
  seqs ← mapM (M := result) (mro_at h) bases;
  c3_merge (length (concat seqs) + length bases) (seqs ++ [bases]).

(** The class statement [class name(bases, keyword arguments): body].  A
    statement without bases derives from [object] alone, not from
    [HashLayer], and is outside the model. *)
Definition class_statement (h : heap) (name : string) (bases : list loc)
    (kwargs : list (string * pyval)) (body : gmap string pyval)
  : result (loc * heap) :=
  match bases with
  | [] => Raise RuntimeError
  | _ :: _ =>
      mro ← linearize h bases;
      let cls := fresh (dom h) in
      let h' := <[cls := {| cls_name := name;
                            cls_mro_tail := mro;
                            cls_namespace := body |}]> h in
      h'' ← init_subclass_chain h' cls mro kwargs;
      Ok (cls, h'')
  end.


(** The heap after [class A(HashLayer): subclasses = {}] was defined and
    registered. *)
Definition registry_heap : gmap nat pyclass :=
  <[3%nat := {| cls_name := "A";
                cls_mro_tail := [2%nat; 1%nat; 0%nat];
                cls_namespace := {[ "subclasses" := PyDict {[ "A" := 3%nat ]} ]} |}]>
    (initial_heap ∅ ∅).

End HashLayerModel.

(** ** A concrete retriever

    Three documents with one-byte codes (so [D = 8]): [0xf0], [0xff] and
    [0x00], under the ids 0, 1 and 2, which are their positions in
    [all_documents].  The encoder answers every query with the same pair. *)

Definition demo_documents : list Document :=
  [ {| doc_id := "a"; content := "alpha" |};
    {| doc_id := "b"; content := "beta" |};
    {| doc_id := "c"; content := "gamma" |} ].

Definition demo_entries : list (Z * list byte) :=
  [ (0%Z, [xf0]); (1%Z, [xff]); (2%Z, [x00]) ].

Definition demo_store : DocumentStore :=
  {| store_index := "document";
     all_documents := demo_documents;
     faiss_indexes := {[ "document" := flat_index demo_entries ]} |}.

Definition demo_dense : list Z := [1; 1; 1; 1; -3; -3; -3; -3]%Z.
Definition demo_binary : list Z := [1; 1; 1; 1; 1; 1; 1; -1]%Z.

Definition demo_retriever (ds : option DocumentStore) (c : Z) : Retriever Z :=
  {| document_store := ds;
     top_k := 10;
     candidates := c;
     embed_one_query := λ _, Ok (demo_dense, demo_binary) |}.

(** The same store after two more documents were indexed. *)
Definition grown_store : DocumentStore :=
  {| store_index := "document";
     all_documents :=
       demo_documents ++
       [ {| doc_id := "d"; content := "delta" |};
         {| doc_id := "e"; content := "epsilon" |} ];
     faiss_indexes :=
       {[ "document" := flat_index (demo_entries ++ [ (3%Z, [x0f]); (4%Z, [xfe]) ]) ]} |}.

(** A retriever whose encoder raises. *)
Definition failing_retriever : Retriever Z :=
  {| document_store := Some demo_store;
     top_k := 10;
     candidates := 1000;
     embed_one_query := λ _, Raise RuntimeError |}.

(** A store whose index is out of step with its documents: the search
    returns a label that the index cannot reconstruct. *)
Definition stale_index : BinaryIndex :=
  {| search := λ _ _, Ok [0; 7]%Z;
     reconstruct := reconstruct (flat_index demo_entries) |}.

Definition stale_store : DocumentStore :=
  {| store_index := "document";
     all_documents := demo_documents;
     faiss_indexes := {[ "document" := stale_index ]} |}.

(** Stores whose searched index and document list differ in size: a second
    index of five entries beside the three documents, and five documents of
    which only three are indexed. *)
Definition archive_entries : list (Z * list byte) :=
  [ (0%Z, [xf0]); (1%Z, [xff]); (2%Z, [x00]); (3%Z, [x0f]); (4%Z, [xaa]) ].

Definition two_index_store : DocumentStore :=
  {| store_index := "document";
     all_documents := demo_documents;
     faiss_indexes := {[ "document" := flat_index demo_entries;
                         "archive" := flat_index archive_entries ]} |}.

Definition partly_indexed_store : DocumentStore :=
  {| store_index := "document";
     all_documents := demo_documents ++ [ {| doc_id := "d"; content := "delta" |};
                                          {| doc_id := "e"; content := "epsilon" |} ];
     faiss_indexes := {[ "document" := flat_index demo_entries ]} |}.

(** A model with dropout on the dense query embedding.  Its state is the
    training flag and the position of the random generator.  In eval mode a
    pass returns [demo_dense] and draws nothing; in training mode it zeroes
    the entries that the mask drawn at the generator's position drops, and
    the generator moves on.  (The rescaling of the entries that survive is
    left out: it is the same for all of them.) *)
Definition dropout (mask : list bool) (x : list Z) : list Z :=
  zip_with (λ (keep : bool) (v : Z), if keep then v else 0%Z) mask x.

Definition demo_mask (g : nat) : list bool :=
  if Nat.even g then replicate 8 true
  else [true; true; true; true; false; false; false; false].

Definition dropout_encoder : QueryEncoder Z (bool * nat) :=
  λ '(training, g) _,
    if training
    then (Ok (dropout (demo_mask g) demo_dense, demo_binary), (training, S g))
    else (Ok (demo_dense, demo_binary), (training, g)).

(** A store without documents and an index without entries. *)
Definition empty_store : DocumentStore :=
  {| store_index := "document";
     all_documents := [];
     faiss_indexes := {[ "document" := flat_index [] ]} |}.

(** Eighteen documents with the same code, and a dense query of zeros: all
    eighteen scores are equal. *)
Definition tied_documents : list Document :=
  (λ i : nat, {| doc_id := String (Ascii.ascii_of_nat (65 + i)) EmptyString;
                 content := "text" |}) <$> seq 0 18.

Definition tied_store : DocumentStore :=
  {| store_index := "document";
     all_documents := tied_documents;
     faiss_indexes :=
       {[ "document" := flat_index ((λ i : nat, (Z.of_nat i, [xff])) <$> seq 0 18) ]} |}.

Definition tied_retriever : Retriever Z :=
  {| document_store := Some tied_store;
     top_k := 10;
     candidates := 1000;
     embed_one_query := λ _, Ok ([0; 0; 0; 0; 0; 0; 0; 0]%Z, demo_binary) |}.

(** A later call, made after the store has grown. *)
Definition later_call : call :=
  {| call_store := Some grown_store;
     call_query := "again?";
     call_top_k := None;
     call_index := None |}.

(** Stage 5 as the specification words it: a stable sort. *)
Definition stable_sort_Z : NumpySort Z :=
  {| argsort := stable_argsort (H := Z_float_ops) |}.

(** Stage 5 with numpy's default sort. *)
Definition quicksort_Z : NumpySort Z :=
  {| argsort := np_aquicksort Z.ltb |}.

(** ** The embedding methods

    [embed_one_query], [_get_predictions], [embed_queries] and
    [embed_documents].  The processor, the data loader and the model are
    external: the processor turns dicts into samples (and reads its
    [num_hard_negatives]), the loader cuts the samples into consecutive
    batches of [batch_size], the model maps a batch to the triple (binary
    query, binary passage, dense query), each array or [None], and behaves
    according to its training flag.  An array is the list of its rows. *)

Module Embedding.

Record passage_dict : Type := {
  title : string;
  text : string;
  label : string;
  external_id : string;
}.

Inductive input_dict : Type :=
  | QueryDict (query : string)
  | PassagesDict (passages : list passage_dict).

(** A document with the [meta] field that [embed_documents] reads. *)
Record MetaDocument : Type := {
  document : Document;
  meta : option (gmap string string);
}.

(** The value under a key of [all_embeddings] when [_get_predictions]
    returns: the empty Python list it started with, or one array. *)
Inductive embeddings (F : Type) : Type :=
  | PyEmptyList
  | NdArray (rows : list (list F)).
Arguments PyEmptyList {F}.
Arguments NdArray {F} rows.

Record all_embeddings (F : Type) : Type := {
  emb_query : embeddings F;
  emb_passages : embeddings F;
  emb_dense_query : embeddings F;
}.
Arguments emb_query {F} _.
Arguments emb_passages {F} _.
Arguments emb_dense_query {F} _.

(** Consecutive batches of [n] samples, the last one possibly shorter. *)
Fixpoint chunks_fuel {A : Type} (fuel n : nat) (l : list A) : list (list A) :=
  match fuel with
  | O => []
  | S fuel' =>
      match l with
      | [] => []
      | _ :: _ => take n l :: chunks_fuel fuel' n (drop n l)
      end
  end.

Definition chunks {A : Type} (n : nat) (l : list A) : list (list A) :=
  chunks_fuel (length l) n l.

(** [np.concatenate(arrays)] along the first axis: the rows of all arrays,
    which must agree in width. *)
Definition np_concatenate {F : Type} (arrays : list (list (list F)))
  : result (list (list F)) :=
  match arrays with
  | [] => Raise ValueError
  | _ :: _ =>
      match concat arrays with
      | [] => Ok []
      | r :: rows =>
          if forallb (λ r', Nat.eqb (length r') (length r)) rows
          then Ok (r :: rows)
          else Raise ValueError
      end
  end.

(** [if all_embeddings[key]: all_embeddings[key] = np.concatenate(...)] *)
Definition concatenate_if_any {F : Type} (arrays : list (list (list F)))
  : result (embeddings F) :=
  match arrays with
  | [] => Ok PyEmptyList
  | _ :: _ => NdArray <$> np_concatenate arrays
  end.

(** [tensor.cpu().numpy()] on an output of the model that may be [None]. *)
Definition cpu_numpy {A : Type} (output : option A) : result A :=
  match output with
  | Some a => Ok a
  | None => Raise AttributeError
  end.

Section Encoder.
Context {F Sample : Type}.

(** The parts of [self] the methods only read. *)
Record Encoder : Type := {
  dataset_from_dicts : Z → list input_dict → result (list Sample);
  forward : bool → list Sample →
            result (option (list (list F)) * option (list (list F)) *
                    option (list (list F)));
  batch_size : Z;
  progress_bar : bool;
  devices : list string;
}.

(** The parts they assign: [self.model.training] and
    [self.processor.num_hard_negatives]. *)
Record EncoderState : Type := {
  training : bool;
  num_hard_negatives : Z;
}.

Inductive encoder_event : Type :=
  | LoggerWarning (msg : string)
  | TqdmOpen (total : Z) (disable : bool)
  | TqdmUpdate (n : Z)
  | ModelForward (mode : bool) (batch : list Sample).

Definition EM (A : Type) : Type :=
  EncoderState → result A * EncoderState * list encoder_event.

#[global] Instance EM_ret : MRet EM := λ A a st, (Ok a, st, []).
#[global] Instance EM_bind : MBind EM := λ A B f m st,
  match m st with
  | (Ok a, st', ev) =>
      match f a st' with
      | (r, st'', ev') => (r, st'', ev ++ ev')
      end
  | (Raise e, st', ev) => (Raise e, st', ev)
  end.

Definition get_state : EM EncoderState := λ st, (Ok st, st, []).
Definition put_state (st : EncoderState) : EM unit := λ _, (Ok (), st, []).
Definition emit_event (e : encoder_event) : EM unit := λ st, (Ok (), st, [e]).
Definition lift_result {A : Type} (r : result A) : EM A := λ st, (r, st, []).

(** [NamedDataLoader(dataset, sampler=SequentialSampler(dataset),
    batch_size=...)]: the loader refuses a batch size that is not positive
    and otherwise yields the samples in order. *)
Definition NamedDataLoader (dataset : list Sample) (bs : Z) : result (list (list Sample)) :=
  if (bs <=? 0)%Z then Raise ValueError else Ok (chunks (Z.to_nat bs) dataset).

(** [batch[key].to(self.devices[0])] *)
Definition to_first_device (devs : list string) : result unit :=
  match devs with
  | [] => Raise IndexError
  | _ :: _ => Ok ()
  end.

(** The batch moved to the first device and passed to [self.model.forward],
    in the mode the model is in. *)
Definition model_forward (enc : Encoder) (batch : list Sample)
  : EM (option (list (list F)) * option (list (list F)) * option (list (list F))) :=
  _ ← lift_result (to_first_device (devices enc));
  st ← get_state;
  _ ← emit_event (ModelForward (training st) batch);
  lift_result (forward enc (training st) batch).

(** The [for] loop of [embed_one_query]: it returns in its first pass. *)
Definition embed_one_query_loop (enc : Encoder) (data_loader : list (list Sample))
  : EM (option (list (list F) * list (list F))) :=
  match data_loader with
  | [] => mret None
  | batch :: _ =>
      '(binary_query, binary_passage, dense_query) ← model_forward enc batch;
      dense ← lift_result (cpu_numpy dense_query);
      binary ← lift_result (cpu_numpy binary_query);
      mret (Some (dense, binary))
  end.

Definition embed_one_query (enc : Encoder) (query : list input_dict)
  : EM (option (list (list F) * list (list F))) :=
  st ← get_state;
  dataset ← lift_result (dataset_from_dicts enc (num_hard_negatives st) query);
  data_loader ← lift_result (NamedDataLoader dataset (batch_size enc));
  embed_one_query_loop enc data_loader.

(** The three lists of [all_embeddings] while the batches are processed. *)
Record accumulators : Type := {
  acc_query : list (list (list F));
  acc_passages : list (list (list F));
  acc_dense_query : list (list (list F));
}.

Definition append_output (acc : list (list (list F))) (output : option (list (list F)))
  : list (list (list F)) :=
  match output with
  | Some a => acc ++ [a]
  | None => acc
  end.

(** The [for] loop of [_get_predictions]. *)
Fixpoint predict_batches (enc : Encoder) (data_loader : list (list Sample))
    (acc : accumulators) : EM accumulators :=
  match data_loader with
  | [] => mret acc
  | batch :: rest =>
      '(binary_query, binary_passage, dense_query) ← model_forward enc batch;
      let acc' := {| acc_query := append_output (acc_query acc) binary_query;
                     acc_passages := append_output (acc_passages acc) binary_passage;
                     acc_dense_query := append_output (acc_dense_query acc) dense_query |} in
      _ ← emit_event (TqdmUpdate (batch_size enc));
      predict_batches enc rest acc'
  end.

Definition _get_predictions (enc : Encoder) (dicts : list input_dict)
  : EM (all_embeddings F) :=
  st ← get_state;
  dataset ← lift_result (dataset_from_dicts enc (num_hard_negatives st) dicts);
  data_loader ← lift_result (NamedDataLoader dataset (batch_size enc));
  _ ← put_state {| training := false; num_hard_negatives := num_hard_negatives st |};
  let disable_tqdm :=
    if Nat.eqb (length dataset) 1 then true else negb (progress_bar enc) in
  _ ← emit_event (TqdmOpen (Z.of_nat (length data_loader) * batch_size enc) disable_tqdm);
  acc ← predict_batches enc data_loader
          {| acc_query := []; acc_passages := []; acc_dense_query := [] |};
  passages ← lift_result (concatenate_if_any (acc_passages acc));
  query ← lift_result (concatenate_if_any (acc_query acc));
  dense_query ← lift_result (concatenate_if_any (acc_dense_query acc));
  mret {| emb_query := query; emb_passages := passages; emb_dense_query := dense_query |}.

Definition embed_queries (enc : Encoder) (texts : list string)
  : EM (embeddings F * embeddings F) :=
  result ← _get_predictions enc (QueryDict <$> texts);
  mret (emb_dense_query result, emb_query result).

(** The dict [embed_documents] builds for one document. *)
Definition passage_of_document (d : MetaDocument) : input_dict :=
  let truthy := match meta d with
                | Some m => bool_decide (m ≠ ∅)
                | None => false
                end in
  let field (key default_value : string) : string :=
    match meta d with
    | Some m => if truthy then default default_value (m !! key) else default_value
    | None => default_value
    end in
  PassagesDict
    [ {| title := field "name" "";
         text := content (document d);
         label := field "label" "positive";
         external_id := doc_id (document d) |} ].

Definition hard_negatives_warning (n : Z) : string :=
  "'num_hard_negatives' is set to " +:+ pretty n +:+
  ", but inference does not require any hard negatives. Setting num_hard_negatives to 0.".

Definition embed_documents (enc : Encoder) (docs : list MetaDocument)
  : EM (embeddings F) :=
  st ← get_state;
  _ ← (if bool_decide (num_hard_negatives st ≠ 0%Z)
       then _ ← emit_event (LoggerWarning (hard_negatives_warning (num_hard_negatives st)));
            put_state {| training := training st; num_hard_negatives := 0 |}
       else mret ());
  result ← _get_predictions enc (passage_of_document <$> docs);
  mret (emb_passages result).

(** A model that computes its outputs row by row: each output is absent,
    or has one row per sample, computed from that sample alone. *)
Definition rows_of (f : option (Sample → list F)) (batch : list Sample)
  : option (list (list F)) :=
  (λ g, g <$> batch) <$> f.

Definition row_wise (enc : Encoder) (mode : bool)
    (fq fp fd : option (Sample → list F)) : Prop :=
  ∀ batch, forward enc mode batch = Ok (rows_of fq batch, rows_of fp batch, rows_of fd batch).

Definition uniform_width (f : option (Sample → list F)) (D : nat) : Prop :=
  ∀ g s, f = Some g → length (g s) = D.

(** One row per sample, in the order of the samples; the empty Python list
    when the output is absent or there is no sample. *)
Definition embedded_rows (f : option (Sample → list F)) (dataset : list Sample)
  : embeddings F :=
  match f, dataset with
  | Some g, _ :: _ => NdArray (g <$> dataset)
  | _, _ => PyEmptyList
  end.

(** The arrays one output contributes over the batches. *)
Definition arrays_of (f : option (Sample → list F)) (data_loader : list (list Sample))
  : list (list (list F)) :=
  match f with
  | Some g => (λ batch : list Sample, g <$> batch) <$> data_loader
  | None => []
  end.

(** What a run over the batches shows: one forward pass in eval mode and
    one progress update per batch. *)
Definition batch_events (enc : Encoder) (data_loader : list (list Sample))
  : list encoder_event :=
  data_loader ≫= λ batch, [ModelForward false batch; TqdmUpdate (batch_size enc)].

End Encoder.

Arguments Encoder F Sample : clear implicits.
Arguments encoder_event Sample : clear implicits.
Arguments EM Sample A : clear implicits.

(** A small encoder to run the methods on: a sample is the dict it came
    from, every sample gives the row (length of its text, 1), and a batch of
    queries gives the binary and the dense query output. *)
Definition demo_row (s : input_dict) : list Z :=
  match s with
  | QueryDict q => [Z.of_nat (String.length q); 1%Z]
  | PassagesDict ps => [Z.of_nat (length ps); 1%Z]
  end.

Definition demo_query_encoder (bs : Z) : Encoder Z input_dict :=
  {| dataset_from_dicts := λ _ dicts, Ok dicts;
     forward := λ _ batch, Ok (Some (demo_row <$> batch), None, Some (demo_row <$> batch));
     batch_size := bs;
     progress_bar := true;
     devices := ["cpu"] |}.

Definition demo_passage_encoder (bs : Z) : Encoder Z input_dict :=
  {| dataset_from_dicts := λ _ dicts, Ok dicts;
     forward := λ _ batch, Ok (None, Some (demo_row <$> batch), None);
     batch_size := bs;
     progress_bar := true;
     devices := ["cpu"] |}.

Definition demo_state (mode : bool) (nh : Z) : EncoderState :=
  {| training := mode; num_hard_negatives := nh |}.

Definition demo_meta_documents : list MetaDocument :=
  [ {| document := {| doc_id := "a"; content := "alpha" |}; meta := None |};
    {| document := {| doc_id := "b"; content := "beta" |};
       meta := Some {[ "name" := "Beta" ]} |};
    {| document := {| doc_id := "c"; content := "gamma" |}; meta := Some ∅ |} ].

End Embedding.

(** * Properties *)

(** ** Packing and unpacking *)

Arguments pack8 : simpl never.
Arguments unpack8 : simpl never.

Lemma unpack8_pack8 (a b c d e f g h : bool) :
  unpack8 (pack8 a b c d e f g h) = [a; b; c; d; e; f; g; h].
Proof. unfold unpack8, pack8. by rewrite Byte.to_bits_of_bits. Qed.

Lemma unpack8_length (x : byte) : length (unpack8 x) = 8%nat.
Proof.
  unfold unpack8.
  by destruct (Byte.to_bits x) as (h & g & f & e & d & c & b & a).
Qed.

Lemma np_packbits_unpack8 (x : byte) (rest : list bool) :
  np_packbits (unpack8 x ++ rest) = x :: np_packbits rest.
Proof.
  unfold unpack8.
  destruct (Byte.to_bits x) as (h & g & f & e & d & c & b & a) eqn:E.
  cbn [app np_packbits]. f_equal.
  unfold pack8. rewrite <- E. apply Byte.of_bits_to_bits.
Qed.

Lemma np_unpackbits_cons (x : byte) (code : list byte) :
  np_unpackbits (x :: code) = unpack8 x ++ np_unpackbits code.
Proof. reflexivity. Qed.

Lemma np_unpackbits_length (code : list byte) :
  length (np_unpackbits code) = (8 * length code)%nat.
Proof.
  induction code as [|x code IH]; [done|].
  rewrite np_unpackbits_cons, length_app, unpack8_length, IH. cbn [length]. lia.
Qed.

Lemma np_packbits_unpackbits (code : list byte) :
  np_packbits (np_unpackbits code) = code.
Proof.
  induction code as [|x code IH]; [done|].
  by rewrite np_unpackbits_cons, np_packbits_unpack8, IH.
Qed.

(** Induction on lists in steps of eight. *)
Lemma list_ind8 {A : Type} (P : list A → Prop) :
  (∀ l, (length l < 8)%nat → P l) →
  (∀ a b c d e f g h rest, P rest → P (a :: b :: c :: d :: e :: f :: g :: h :: rest)) →
  ∀ l, P l.
Proof.
  intros Hshort Hstep l.
  remember (length l) as n eqn:Hn.
  revert l Hn. induction (lt_wf n) as [n _ IH]. intros l ->.
  destruct l as [|a [|b [|c [|d [|e [|f [|g [|h rest]]]]]]]];
    try (apply Hshort; cbn; lia).
  apply Hstep, (IH (length rest)); [cbn; lia | done].
Qed.

Lemma padding_add8 (n : nat) : padding (8 + n) = padding n.
Proof.
  unfold padding. f_equal. f_equal.
  replace (8 + n)%nat with (n + 1 * 8)%nat by lia.
  by rewrite Nat.Div0.mod_add.
Qed.

Lemma np_unpackbits_packbits (bits : list bool) :
  np_unpackbits (np_packbits bits) = bits ++ replicate (padding (length bits)) false.
Proof.
  induction bits as [l Hl | a b c d e f g h rest IH] using list_ind8.
  - destruct l as [|a [|b [|c [|d [|e [|f [|g [|h rest]]]]]]]];
      [done | | | | | | | | cbn in Hl; lia];
      cbn [np_packbits nth]; rewrite np_unpackbits_cons, unpack8_pack8; reflexivity.
  - cbn [np_packbits]. rewrite np_unpackbits_cons, unpack8_pack8, IH.
    change (length (a :: b :: c :: d :: e :: f :: g :: h :: rest))
      with (8 + length rest)%nat.
    by rewrite padding_add8.
Qed.

Lemma np_packbits_length (bits : list bool) :
  length (np_packbits bits) = ((length bits + 7) / 8)%nat.
Proof.
  induction bits as [l Hl | a b c d e f g h rest IH] using list_ind8.
  - destruct l as [|a [|b [|c [|d [|e [|f [|g [|h rest]]]]]]]];
      [done | | | | | | | | cbn in Hl; lia]; reflexivity.
  - cbn [np_packbits length]. rewrite IH.
    replace (S (S (S (S (S (S (S (S (length rest)))))))) + 7)%nat
      with ((length rest + 7) + 1 * 8)%nat by lia.
    rewrite Nat.div_add by lia. lia.
Qed.

Lemma unpack8_testbit (x : byte) (j : nat) :
  (j < 8)%nat →
  unpack8 x !! j = Some (N.testbit (Byte.to_N x) (N.of_nat (7 - j))).
Proof.
  intros Hj.
  destruct j as [|[|[|[|[|[|[|[|j]]]]]]]]; [..|lia]; by destruct x.
Qed.

Lemma code_bit_unpackbits (code : list byte) (i : nat) :
  code_bit code i = np_unpackbits code !! i.
Proof.
  unfold code_bit. revert i.
  induction code as [|x code IH]; intros i; [done|].
  rewrite np_unpackbits_cons.
  destruct (decide (i < 8)%nat) as [Hlt|Hge].
  - rewrite lookup_app_l by (rewrite unpack8_length; lia).
    rewrite Nat.div_small, Nat.mod_small by lia.
    cbn [lookup list_lookup fmap option_fmap option_map].
    by rewrite unpack8_testbit.
  - rewrite lookup_app_r by (rewrite unpack8_length; lia).
    rewrite unpack8_length, <- IH.
    assert (i / 8 = S ((i - 8) / 8))%nat as ->.
    { replace i with ((i - 8) + 1 * 8)%nat at 1 by lia.
      rewrite Nat.div_add by lia. lia. }
    assert (i mod 8 = (i - 8) mod 8)%nat as ->; [|done].
    replace i with ((i - 8) + 1 * 8)%nat at 1 by lia.
    by rewrite Nat.Div0.mod_add.
Qed.

Section NumpyFacts.
Context {F : Type} `{FloatLaws F}.

Lemma times2_minus1_astype (b : bool) :
  times2_minus1 (astype_float32 b) = plus_minus_one b.
Proof.
  destruct b; unfold times2_minus1, astype_float32, plus_minus_one.
  - apply one_times_two_minus_one.
  - apply zero_times_two_minus_one.
Qed.

Lemma unpack_code_plus_minus_one (code : list byte) :
  unpack_code code = map plus_minus_one (np_unpackbits code).
Proof.
  unfold unpack_code. apply map_ext. intros b. apply times2_minus1_astype.
Qed.

Lemma where_gt0_plus_minus_one (bits : list bool) :
  np_where_gt0 (map plus_minus_one bits) = bits.
Proof.
  unfold np_where_gt0.
  induction bits as [|b bits IH]; [done|].
  cbn [map fmap list_fmap]. f_equal; [|exact IH].
  destruct b; cbn [plus_minus_one]; [apply zero_lt_one | apply zero_lt_minus_one].
Qed.

Lemma plus_minus_one_where_gt0 (code : list F) :
  Forall (λ v, v = f_of_Z 1 ∨ v = fneg (f_of_Z 1)) code →
  map plus_minus_one (np_where_gt0 code) = code.
Proof.
  unfold np_where_gt0.
  induction 1 as [|v code Hv _ IH]; [done|].
  cbn [map fmap list_fmap]. f_equal; [|exact IH].
  destruct Hv as [-> | ->].
  - by rewrite zero_lt_one.
  - by rewrite zero_lt_minus_one.
Qed.

Lemma pack_unpack_code (packed : list byte) :
  pack_code (unpack_code packed) = packed.
Proof.
  unfold pack_code.
  by rewrite unpack_code_plus_minus_one, where_gt0_plus_minus_one, np_packbits_unpackbits.
Qed.

Lemma unpack_pack_code (code : list F) :
  Forall (λ v, v = f_of_Z 1 ∨ v = fneg (f_of_Z 1)) code →
  unpack_code (pack_code code) =
    code ++ replicate (padding (length code)) (fneg (f_of_Z 1)).
Proof.
  intros Hcode. unfold pack_code.
  rewrite unpack_code_plus_minus_one, np_unpackbits_packbits, map_app.
  rewrite plus_minus_one_where_gt0 by done.
  f_equal. unfold np_where_gt0. rewrite length_fmap.
  generalize (padding (length code)). intros n.
  induction n as [|n IH]; [done|]. cbn. by rewrite IH.
Qed.

End NumpyFacts.

(** Integer scalars satisfy the laws. *)
Lemma Z_float_laws : @FloatLaws Z Z_float_ops.
Proof.
  split; try reflexivity.
  intros a b. cbn. destruct (Z.ltb_spec (- a) (- b)), (Z.ltb_spec b a); lia.
Qed.

(** ** [retrieve], stage by stage *)

Section RetrieveFacts.
Context {F : Type} `{FloatOps F} `{NumpySort F}.

Lemma candidates_clamped (store : DocumentStore) (self : Retriever F) :
  candidates (clamped store self) =
    Z.min (candidates self) (Z.of_nat (length (all_documents store))).
Proof.
  unfold clamped.
  destruct (Z.ltb_spec (Z.of_nat (length (all_documents store))) (candidates self));
    cbn; lia.
Qed.

Lemma rerank_unfold (store : DocumentStore) (query index : string) (self : Retriever F) :
  rerank store query index self =
    match embed_one_query self query with
    | Raise e => (Raise e, self, [])
    | Ok (query_embeddings, query_emb_binary) =>
        let self' := clamped store self in
        match faiss_indexes store !! index with
        | None => (Raise KeyError, self', [])
        | Some raw_index =>
            (ids_arr ← search raw_index (pack_code query_emb_binary) (candidates self');
             passage ← passage_embeddings raw_index ids_arr (length query_embeddings);
             Ok (ids_arr, np_einsum_ijk_ik passage query_embeddings),
             self',
             [IndexSearch index (pack_code query_emb_binary) (candidates self')])
        end
    end.
Proof.
  unfold rerank, clamped, mbind, M_bind, get_self, lift, emit, assign_candidates,
    py_dict_getitem, pack_code.
  destruct (embed_one_query self query) as [[query_embeddings query_emb_binary]|e];
    [|done].
  cbn -[np_packbits].
  destruct (Z.of_nat (length (all_documents store)) <? candidates self)%Z;
    cbn -[np_packbits].
  all: destruct (faiss_indexes store !! index) as [raw_index|]; cbn -[np_packbits];
    [|done].
  all: match goal with
       | |- context [search ?ix ?x ?k] => destruct (search ix x k) as [ids_arr|e]
       end; cbn -[np_packbits]; [|done].
  all: match goal with
       | |- context [passage_embeddings ?ix ?ids ?D] =>
           destruct (passage_embeddings ix ids D)
       end; done.
Qed.

Lemma retrieve_unfold (query : string) (filters : option Filters) (top_k_ : option Z)
    (index_ : option string) (headers : option Headers) (self : Retriever F) :
  retrieve query filters top_k_ index_ headers self =
    match document_store self with
    | None =>
        (Ok [], self, [LoggerError no_document_store_message])
    | Some store =>
        match rerank store query (default (store_index store) index_) self with
        | (Ok (ids_arr, scores_arr), self', ev) =>
            (select_documents store ids_arr scores_arr (default (top_k self) top_k_),
             self', ev)
        | (Raise e, self', ev) => (Raise e, self', ev)
        end
    end.
Proof.
  unfold retrieve. unfold mbind at 1. unfold M_bind, get_self.
  destruct (document_store self) as [store|]; [|done].
  unfold mbind, M_bind, lift.
  destruct (rerank store query (default (store_index store) index_) self)
    as [[[[ids_arr scores_arr]|e] self'] ev]; [|done].
  by rewrite app_nil_r.
Qed.

Lemma clamped_fields (store : DocumentStore) (self : Retriever F) :
  document_store (clamped store self) = document_store self ∧
  top_k (clamped store self) = top_k self ∧
  embed_one_query (clamped store self) = embed_one_query self.
Proof.
  unfold clamped.
  by destruct (Z.of_nat (length (all_documents store)) <? candidates self)%Z.
Qed.

Lemma clamped_clamped (store : DocumentStore) (self : Retriever F) :
  clamped store (clamped store self) = clamped store self.
Proof.
  unfold clamped at 1. rewrite candidates_clamped.
  destruct (Z.ltb_spec (Z.of_nat (length (all_documents store)))
              (Z.min (candidates self) (Z.of_nat (length (all_documents store)))));
    [lia | done].
Qed.

(** What one call does to [self] and what it emits. *)
Lemma retrieve_effects (query : string) (filters : option Filters) (top_k_ : option Z)
    (index_ : option string) (headers : option Headers) (self : Retriever F) :
  let run := retrieve query filters top_k_ index_ headers self in
  match document_store self with
  | None => run.1.2 = self ∧ run.2 = [LoggerError no_document_store_message]
  | Some store =>
      match embed_one_query self query with
      | Raise _ => run.1.2 = self ∧ run.2 = []
      | Ok (_, query_emb_binary) =>
          run.1.2 = clamped store self ∧
          match faiss_indexes store !! default (store_index store) index_ with
          | None => run.2 = []
          | Some _ =>
              run.2 = [IndexSearch (default (store_index store) index_)
                         (pack_code query_emb_binary)
                         (Z.min (candidates self)
                            (Z.of_nat (length (all_documents store))))]
          end
      end
  end.
Proof.
  cbn zeta. rewrite retrieve_unfold.
  destruct (document_store self) as [store|]; [|done].
  rewrite rerank_unfold.
  destruct (embed_one_query self query) as [[query_embeddings query_emb_binary]|e];
    [|done].
  cbn zeta.
  destruct (faiss_indexes store !! default (store_index store) index_) as [raw_index|];
    [|done].
  rewrite candidates_clamped.
  match goal with
  | |- context [mbind ?f ?m] => destruct (mbind f m) as [[ids_arr scores_arr]|e]
  end; done.
Qed.

End RetrieveFacts.

Lemma flat_index_within_k (entries : list (Z * list byte)) :
  search_within_k (flat_index entries).
Proof.
  intros x k ids. cbn.
  destruct (Z.ltb_spec k 0); [done|].
  intros [= <-]. rewrite length_take. lia.
Qed.

(** ** The claims about [retrieve] *)

Section RetrieveClaims.
Context {F : Type} `{FloatOps F} `{NumpySort F}.

(** C9: when the retriever was built with [document_store=None], [retrieve]
    logs an error and returns the empty list, whatever the query, the
    filters, [top_k], the index and the headers are; it raises nothing and
    leaves the retriever as it was. *)
Theorem retrieve_without_document_store (query : string) (filters : option Filters)
    (top_k_ : option Z) (index_ : option string) (headers : option Headers)
    (self : Retriever F) :
  document_store self = None →
  retrieve query filters top_k_ index_ headers self =
    (Ok [], self, [LoggerError no_document_store_message]).
Proof. intros Hnone. by rewrite retrieve_unfold, Hnone. Qed.

(** C1 (the code at an empty store): with a document store that holds no
    document, [retrieve] raises for every [top_k]: the candidate count is
    clamped to at most zero, so the index either rejects the search or
    returns no id, and [np.vstack] of the empty list of codes raises.  The
    claim asks for an empty result instead. *)
Theorem retrieve_empty_store_raises (query : string) (filters : option Filters)
    (top_k_ : option Z) (index_ : option string) (headers : option Headers)
    (self : Retriever F) (store : DocumentStore) :
  document_store self = Some store →
  all_documents store = [] →
  (∀ name ix, faiss_indexes store !! name = Some ix → search_within_k ix) →
  raises (retrieve query filters top_k_ index_ headers self).1.1.
Proof.
  intros Hstore Hempty Hix.
  rewrite retrieve_unfold, Hstore, rerank_unfold.
  destruct (embed_one_query self query) as [[query_embeddings query_emb_binary]|e];
    [|by eexists].
  cbn zeta.
  destruct (faiss_indexes store !! default (store_index store) index_)
    as [raw_index|] eqn:Hraw; [|by eexists].
  pose proof (candidates_clamped store self) as Hk.
  rewrite Hempty in Hk. cbn [length] in Hk.
  destruct (search raw_index (pack_code query_emb_binary) (candidates (clamped store self)))
    as [ids_arr|e] eqn:Hsearch; [|by eexists].
  apply (Hix _ _ Hraw) in Hsearch.
  destruct ids_arr; [|cbn [length] in Hsearch; lia].
  by eexists.
Qed.

(** C6: when the call reaches the index, the number of candidates it
    requests is the minimum of the candidate count stored in the retriever
    and [len(document_store.all_documents)], the number of documents of the
    store; the entry count of the index that is searched is not read. *)
Theorem retrieve_requests_min_candidates (query : string) (filters : option Filters)
    (top_k_ : option Z) (index_ : option string) (headers : option Headers)
    (self : Retriever F) (store : DocumentStore) (raw_index : BinaryIndex)
    (query_embeddings query_emb_binary : list F) :
  document_store self = Some store →
  embed_one_query self query = Ok (query_embeddings, query_emb_binary) →
  faiss_indexes store !! default (store_index store) index_ = Some raw_index →
  (retrieve query filters top_k_ index_ headers self).2 =
    [IndexSearch (default (store_index store) index_)
       (pack_code query_emb_binary)
       (Z.min (candidates self) (Z.of_nat (length (all_documents store))))].
Proof.
  intros Hstore Hembed Hraw.
  pose proof (retrieve_effects query filters top_k_ index_ headers self) as Heff.
  cbn zeta in Heff. rewrite Hstore, Hembed, Hraw in Heff. apply Heff.
Qed.

(** With the encoder held fixed, a second call with the same arguments on
    the retriever as the first call left it repeats the first call: the
    only assignment is the clamp, which is idempotent. *)
Lemma retrieve_again (query : string) (filters : option Filters)
    (top_k_ : option Z) (index_ : option string) (headers : option Headers)
    (self : Retriever F) :
  retrieve query filters top_k_ index_ headers
    (retrieve query filters top_k_ index_ headers self).1.2
  = retrieve query filters top_k_ index_ headers self.
Proof.
  pose proof (retrieve_effects query filters top_k_ index_ headers self) as Heff.
  cbn zeta in Heff.
  destruct (document_store self) as [store|] eqn:Hstore;
    [|by destruct Heff as [-> _]].
  destruct (embed_one_query self query) as [[query_embeddings query_emb_binary]|e]
    eqn:Hembed; [|by destruct Heff as [-> _]].
  destruct Heff as [-> _].
  destruct (clamped_fields store self) as (Hds & Htk & Hemb).
  rewrite !retrieve_unfold, Hds, Htk, Hstore, !rerank_unfold, Hemb, Hembed.
  cbn zeta. by rewrite clamped_clamped.
Qed.

(** [retrieve] reads the encoder at its query only: two retrievers that
    agree on the other fields and on the embeddings of the query give the
    same outcome, the same events and the same candidate count. *)
Lemma retrieve_encoder_at_query (query : string) (filters : option Filters)
    (top_k_ : option Z) (index_ : option string) (headers : option Headers)
    (self1 self2 : Retriever F) :
  document_store self1 = document_store self2 →
  top_k self1 = top_k self2 →
  candidates self1 = candidates self2 →
  embed_one_query self1 query = embed_one_query self2 query →
  let run1 := retrieve query filters top_k_ index_ headers self1 in
  let run2 := retrieve query filters top_k_ index_ headers self2 in
  run1.1.1 = run2.1.1 ∧ run1.2 = run2.2 ∧
  candidates run1.1.2 = candidates run2.1.2.
Proof.
  intros Hds Htk Hc Hemb. cbn zeta.
  rewrite !retrieve_unfold, Hds, Htk.
  destruct (document_store self2) as [store|]; [|done].
  rewrite !rerank_unfold, Hemb.
  destruct (embed_one_query self2 query) as [[query_embeddings query_emb_binary]|e];
    [|done].
  cbn zeta.
  assert (candidates (clamped store self1) = candidates (clamped store self2)) as Hcc
    by (rewrite !candidates_clamped; congruence).
  destruct (faiss_indexes store !! default (store_index store) index_) as [raw_index|];
    [|done].
  rewrite Hcc.
  destruct (search raw_index (pack_code query_emb_binary)
              (candidates (clamped store self2))) as [ids_arr|e];
    cbn [mbind result_bind]; [|done].
  destruct (passage_embeddings raw_index ids_arr (length query_embeddings))
    as [passage|e]; cbn [mbind result_bind]; done.
Qed.

(** What a call leaves of the fields it does not assign. *)
Lemma retrieve_keeps_fields (query : string) (filters : option Filters)
    (top_k_ : option Z) (index_ : option string) (headers : option Headers)
    (self : Retriever F) :
  let self' := (retrieve query filters top_k_ index_ headers self).1.2 in
  document_store self' = document_store self ∧
  top_k self' = top_k self ∧
  embed_one_query self' = embed_one_query self.
Proof.
  pose proof (retrieve_effects query filters top_k_ index_ headers self) as Heff.
  cbn zeta in *.
  destruct (document_store self) as [store|] eqn:Hstore;
    [|by destruct Heff as [-> _]].
  destruct (embed_one_query self query) as [[query_embeddings query_emb_binary]|e]
    eqn:Hembed; [|by destruct Heff as [-> _]].
  destruct Heff as [-> _].
  destruct (clamped_fields store self) as (Hds & Htk & Hemb).
  by rewrite Hds, Htk, Hemb.
Qed.

(** C7: two consecutive calls with the same query and the same [top_k], the
    second on the retriever and the model as the first call left them and
    with the store untouched, give the same outcome (the same documents in
    the same order, or the same exception), emit the same events and leave
    the same candidate count, provided the encoder returns for the query in
    the second call what it returned in the first.  [retrieve] does nothing
    to make it so. *)
Theorem retrieve_twice_same_embeddings {G : Type} (encoder : QueryEncoder F G)
    (query : string) (filters : option Filters) (top_k_ : option Z)
    (index_ : option string) (headers : option Headers)
    (self : Retriever F) (g : G) :
  let first := retrieve_in encoder query filters top_k_ index_ headers self g in
  let second := retrieve_in encoder query filters top_k_ index_ headers
                  first.1.1.2 first.1.2 in
  (encoder first.1.2 query).1 = (encoder g query).1 →
  second.1.1.1 = first.1.1.1 ∧
  second.2 = first.2 ∧
  candidates second.1.1.2 = candidates first.1.1.2.
Proof.
  cbn zeta. unfold retrieve_in.
  set (view := set_embed_one_query (λ q, (encoder g q).1) self).
  destruct (retrieve query filters top_k_ index_ headers view)
    as [[r1 self1] ev1] eqn:Hfirst.
  cbn [fst snd]. intros Hsame.
  set (g1 := match document_store self with
             | Some _ => (encoder g query).2
             | None => g
             end) in *.
  pose proof (retrieve_keeps_fields query filters top_k_ index_ headers view) as Hkeep.
  pose proof (retrieve_again query filters top_k_ index_ headers view) as Hagain.
  cbn zeta in Hkeep. rewrite Hfirst in Hkeep, Hagain. cbn [fst snd] in Hkeep, Hagain.
  destruct Hkeep as (Hds & Htk & Hemb).
  pose proof (retrieve_encoder_at_query query filters top_k_ index_ headers
                (set_embed_one_query (λ q, (encoder g1 q).1) self1) self1
                eq_refl eq_refl eq_refl) as Hext.
  cbn zeta in Hext. rewrite Hagain in Hext. cbn [fst snd] in Hext.
  destruct (retrieve query filters top_k_ index_ headers
              (set_embed_one_query (λ q, (encoder g1 q).1) self1))
    as [[r2 self2] ev2].
  cbn [fst snd] in *. apply Hext.
  rewrite Hemb. exact Hsame.
Qed.

End RetrieveClaims.

(** ** Reconstruction and scores *)

Lemma mapM_result_Ok {A B : Type} (f : A → result B) (l : list A) (ys : list B) :
  mapM (M := result) f l = Ok ys → Forall2 (λ x y, f x = Ok y) l ys.
Proof.
  revert ys. induction l as [|x l IH]; intros ys; cbn.
  - intros [= <-]. constructor.
  - destruct (f x) as [y|e] eqn:Hfx; cbn; [|done].
    destruct (mapM f l) as [ys'|e] eqn:Hl; cbn; [|done].
    intros [= <-]. constructor; [done | by apply IH].
Qed.

Lemma np_vstack_Ok {A : Type} (rows stacked : list (list A)) :
  np_vstack rows = Ok stacked →
  stacked = rows ∧ ∃ r rs, rows = r :: rs ∧ Forall (λ r', length r' = length r) rows.
Proof.
  unfold np_vstack. destruct rows as [|r rs]; [done|].
  destruct (forallb _ rs) eqn:Hall; [|done].
  intros [= <-]. split; [done|]. exists r, rs. split; [done|].
  constructor; [done|].
  apply Forall_forall. intros r' Hin.
  rewrite forallb_forall in Hall.
  apply list_elem_of_In, Hall in Hin. by apply Nat.eqb_eq in Hin.
Qed.

Lemma length_concat_uniform {A : Type} (rows : list (list A)) (d : nat) :
  Forall (λ r, length r = d) rows → length (concat rows) = (length rows * d)%nat.
Proof.
  induction 1 as [|r rows Hr _ IH]; [done|].
  cbn. rewrite length_app, IH, Hr. lia.
Qed.

Lemma regroup_uniform {A : Type} (rows : list (list A)) (d : nat) :
  Forall (λ r, length r = d) rows →
  (λ j, take d (drop (j * d) (concat rows))) <$> seq 0 (length rows) = rows.
Proof.
  induction 1 as [|r rows Hr _ IH]; [done|].
  cbn [length seq concat fmap list_fmap]. f_equal.
  - cbn. by apply take_app_length'.
  - rewrite <- fmap_S_seq, <- list_fmap_compose. rewrite <- IH at 2.
    apply list_fmap_ext. intros _ j _. cbn [compose].
    replace (S j * d)%nat with (d + j * d)%nat by lia.
    by rewrite drop_app_add'.
Qed.

Lemma np_reshape_stacked {A : Type} (rows reshaped : list (list A)) (r : list A)
    (rs : list (list A)) (D : nat) :
  rows = r :: rs →
  Forall (λ r', length r' = length r) rows →
  np_reshape rows (length rows) D = Ok reshaped →
  reshaped = rows ∧ length r = D.
Proof.
  intros Hrows Hlen. unfold np_reshape.
  destruct (Nat.eqb_spec (length (concat rows)) (length rows * D)) as [Hsize|]; [|done].
  intros [= <-].
  rewrite (length_concat_uniform rows (length r)) in Hsize by done.
  assert (length r = D) as <-.
  { rewrite Hrows in Hsize. cbn [length] in Hsize. nia. }
  split; [|done]. by apply regroup_uniform.
Qed.

Section Scores.
Context {F : Type} `{FloatLaws F} `{NumpySort F}.

Lemma passage_embeddings_Ok (raw_index : BinaryIndex) (ids_arr : list Z) (D : nat)
    (passage : list (list F)) :
  passage_embeddings raw_index ids_arr D = Ok passage →
  Forall2 (λ id_ row, ∃ code, reconstruct raw_index id_ = Ok code ∧
                              row = unpack_code code ∧ length row = D)
    ids_arr passage.
Proof.
  unfold passage_embeddings.
  destruct (mapM _ ids_arr) as [rows|e] eqn:Hrows; cbn; [|done].
  destruct (np_vstack rows) as [stacked|e] eqn:Hstack; cbn; [|done].
  apply np_vstack_Ok in Hstack as (-> & r & rs & Hcons & Huniform).
  destruct (np_reshape rows (length rows) D) as [reshaped|e] eqn:Hreshape; cbn; [|done].
  apply (np_reshape_stacked _ _ r rs) in Hreshape as [-> HD]; [|done..].
  intros [= <-].
  apply mapM_result_Ok in Hrows.
  clear Hcons. revert Huniform.
  induction Hrows as [|id_ row ids rows Hrow _ IH]; intros Huniform; [constructor|].
  apply Forall_cons in Huniform as [Hlen Huniform].
  cbn [map]. constructor; [|by apply IH].
  destruct (reconstruct raw_index id_) as [code|e] eqn:Hcode; [|done].
  cbn in Hrow. injection Hrow as <-.
  exists code. split; [done|]. split; [done|].
  rewrite length_map. congruence.
Qed.

(** C5: when stage 4 succeeds, the score of each shortlisted id is the dot
    product of its stored code, reconstructed from the index and unpacked
    with bit 1 as +1.0 and bit 0 as -1.0, with the dense query embedding
    exactly as the encoder returned it; the unpacked code has the dimension
    of the dense query. *)
Theorem rerank_scores_are_dot_products (store : DocumentStore) (query index : string)
    (self self' : Retriever F) (query_embeddings query_emb_binary : list F)
    (ids_arr : list Z) (scores_arr : list F) (ev : list event) :
  embed_one_query self query = Ok (query_embeddings, query_emb_binary) →
  rerank store query index self = (Ok (ids_arr, scores_arr), self', ev) →
  ∃ raw_index,
    faiss_indexes store !! index = Some raw_index ∧
    Forall2 (λ id_ score, ∃ code,
               reconstruct raw_index id_ = Ok code ∧
               length (np_unpackbits code) = length query_embeddings ∧
               score = dot (map plus_minus_one (np_unpackbits code)) query_embeddings)
      ids_arr scores_arr.
Proof.
  intros Hembed. rewrite rerank_unfold, Hembed. cbn zeta.
  destruct (faiss_indexes store !! index) as [raw_index|]; [|done].
  destruct (search raw_index _ _) as [ids|e]; cbn; [|done].
  destruct (passage_embeddings raw_index ids (length query_embeddings))
    as [passage|e] eqn:Hpassage; cbn; [|done].
  intros [= <- <- _ _].
  exists raw_index. split; [done|].
  apply passage_embeddings_Ok in Hpassage.
  unfold np_einsum_ijk_ik.
  induction Hpassage as [|id_ row ids passage (code & Hcode & -> & Hlen) _ IH];
    [constructor|].
  cbn [fmap list_fmap]. constructor; [|exact IH].
  exists code. split; [done|].
  rewrite unpack_code_plus_minus_one in Hlen |- *.
  rewrite length_map in Hlen. done.
Qed.

End Scores.

(** ** The candidate count across calls *)

Section Candidates.
Context {F : Type} `{FloatOps F} `{NumpySort F}.



(** C4: the code sent to the index has bit [i] set exactly when entry [i] of
    the vector being thresholded (the binary query embedding the encoder
    returned) is greater than zero; an entry equal to zero gives bit 0.  When
    that embedding is the hash activation of a continuous vector, the same
    holds of the entries of the continuous vector. *)
Theorem search_code_bits `{!FloatLaws F} (query : string) (filters : option Filters)
    (top_k_ : option Z) (index_ : option string) (headers : option Headers)
    (self : Retriever F) (store : DocumentStore) (raw_index : BinaryIndex)
    (query_embeddings query_emb_binary : list F) :
  document_store self = Some store →
  embed_one_query self query = Ok (query_embeddings, query_emb_binary) →
  faiss_indexes store !! default (store_index store) index_ = Some raw_index →
  ∃ (code : list byte) (k : Z),
    (retrieve query filters top_k_ index_ headers self).2 =
      [IndexSearch (default (store_index store) index_) code k] ∧
    length code = ((length query_emb_binary + 7) / 8)%nat ∧
    (∀ (i : nat) (v : F),
       query_emb_binary !! i = Some v →
       code_bit code i = Some (fltb (f_of_Z 0) v) ∧
       (v = f_of_Z 0 → code_bit code i = Some false)) ∧
    (∀ (x : list F) (i : nat) (v : F),
       query_emb_binary = hash_forward x →
       x !! i = Some v →
       code_bit code i = Some (fltb (f_of_Z 0) v)).
Proof.
  intros Hstore Hembed Hraw.
  pose proof (retrieve_effects query filters top_k_ index_ headers self) as Heff.
  cbn zeta in Heff. rewrite Hstore, Hembed, Hraw in Heff. destruct Heff as [_ Hev].
  eexists _, _. split; [exact Hev|].
  unfold pack_code, np_where_gt0.
  split; [by rewrite np_packbits_length, length_fmap|].
  assert (∀ (i : nat) (v : F),
            query_emb_binary !! i = Some v →
            code_bit (np_packbits ((λ v, fltb (f_of_Z 0) v) <$> query_emb_binary)) i
            = Some (fltb (f_of_Z 0) v)) as Hbit.
  { intros i v Hv. rewrite code_bit_unpackbits, np_unpackbits_packbits.
    rewrite lookup_app_l by (rewrite length_fmap; by eapply lookup_lt_Some).
    by rewrite list_lookup_fmap, Hv. }
  split.
  - intros i v Hv. split; [by apply Hbit|].
    intros ->. by rewrite (Hbit i _ Hv), zero_lt_zero.
  - intros x i v -> Hv.
    rewrite (Hbit i (plus_minus_one (fltb (f_of_Z 0) v))).
    + f_equal. destruct (fltb (f_of_Z 0) v); cbn [plus_minus_one];
        [apply zero_lt_one | apply zero_lt_minus_one].
    + unfold hash_forward. change (map ?f ?l) with (f <$> l).
      by rewrite list_lookup_fmap, Hv.
Qed.

End Candidates.

(** ** Ranking *)

Section Ranking.
Context {F : Type} {ops : FloatOps F} {laws : FloatLaws F}
        {np : NumpySort F} {contract : ArgsortContract F}.

(** C2 (amended): in stage 5 the shortlist is ordered by descending score
    (no score later in the order is greater than an earlier one; the order
    among equal scores is whatever [np.argsort] gives), the first [top_k]
    positions are kept, for a [top_k] that is not negative, and the result
    is made of the documents of the ids at these positions, in this order. *)
Theorem retrieve_ranks_by_descending_score (query : string) (filters : option Filters)
    (top_k_ : option Z) (index_ : option string) (headers : option Headers)
    (self self' : Retriever F) (store : DocumentStore)
    (ids_arr : list Z) (scores_arr : list F) (ev : list event) :
  document_store self = Some store →
  rerank store query (default (store_index store) index_) self
    = (Ok (ids_arr, scores_arr), self', ev) →
  (0 <= default (top_k self) top_k_)%Z →
  let order := argsort (fneg <$> scores_arr) in
  let chosen := take (Z.to_nat (default (top_k self) top_k_)) order in
  order ≡ₚ seq 0 (length scores_arr) ∧
  (∀ (i j pi pj : nat) (a b : F),
     (i < j)%nat → order !! i = Some pi → order !! j = Some pj →
     scores_arr !! pi = Some a → scores_arr !! pj = Some b →
     fltb a b = false) ∧
  (retrieve query filters top_k_ index_ headers self).1.1 =
    mapM (M := result)
      (λ i, id_ ← np_getitem ids_arr i; py_list_getitem (all_documents store) id_)
      chosen ∧
  ∀ docs : list Document,
    (retrieve query filters top_k_ index_ headers self).1.1 = Ok docs →
    Forall2 (λ i doc, ∃ id_, ids_arr !! i = Some id_ ∧
                             py_list_getitem (all_documents store) id_ = Ok doc)
      chosen docs.
Proof.
  intros Hstore Hrerank Hk order chosen.
  assert ((retrieve query filters top_k_ index_ headers self).1.1 =
            mapM (M := result)
              (λ i, id_ ← np_getitem ids_arr i;
                    py_list_getitem (all_documents store) id_) chosen) as Hresult.
  { rewrite retrieve_unfold, Hstore, Hrerank. cbn [fst].
    unfold select_documents, py_slice_upto.
    by destruct (Z.leb_spec 0 (default (top_k self) top_k_)); [|lia]. }
  split; [|split; [|split; [exact Hresult|]]].
  - subst order. rewrite argsort_perm. by rewrite length_fmap.
  - intros i j pi pj a b Hij Hpi Hpj Ha Hb.
    rewrite <- (fneg_fltb b a).
    apply (argsort_sorted (fneg <$> scores_arr) i j pi pj); try done.
    + by rewrite list_lookup_fmap, Ha.
    + by rewrite list_lookup_fmap, Hb.
  - intros docs Hdocs. rewrite Hresult in Hdocs.
    apply mapM_result_Ok in Hdocs.
    eapply Forall2_impl; [exact Hdocs|].
    intros i doc. cbn. unfold np_getitem at 1.
    destruct (ids_arr !! i) as [id_|]; cbn; [|done].
    intros Hdoc. by exists id_.
Qed.

End Ranking.

(** The stable argsort on integer keys meets numpy's contract. *)

Lemma insert_pos_perm {F : Type} `{FloatOps F} (keys : list F) (i : nat) (l : list nat) :
  insert_pos keys i l ≡ₚ i :: l.
Proof.
  induction l as [|j l IH]; [done|].
  cbn. destruct (key_lt keys j i); [|done].
  rewrite IH. apply Permutation_swap.
Qed.

Lemma stable_argsort_perm {F : Type} `{FloatOps F} (keys : list F) :
  stable_argsort keys ≡ₚ seq 0 (length keys).
Proof.
  unfold stable_argsort.
  induction (seq 0 (length keys)) as [|i l IH]; [done|].
  cbn. by rewrite insert_pos_perm, IH.
Qed.

Lemma StronglySorted_lookup {A : Type} (R : relation A) (l : list A) (i j : nat) (x y : A) :
  StronglySorted R l → (i < j)%nat → l !! i = Some x → l !! j = Some y → R x y.
Proof.
  intros Hsorted. revert i j.
  induction Hsorted as [|z l _ IH Hz]; intros i j Hij Hx Hy; [done|].
  destruct j as [|j]; [lia|]. cbn in Hy.
  destruct i as [|i].
  - cbn in Hx. injection Hx as ->.
    rewrite Forall_forall in Hz. apply Hz. by eapply list_elem_of_lookup_2.
  - cbn in Hx. apply (IH i j); [lia | done..].
Qed.

Lemma insert_pos_sorted_Z (keys : list Z) (i : nat) (l : list nat) :
  StronglySorted (λ p q, key_lt (H := Z_float_ops) keys q p = false) l →
  StronglySorted (λ p q, key_lt (H := Z_float_ops) keys q p = false)
    (insert_pos (H := Z_float_ops) keys i l).
Proof.
  unfold key_lt. cbn [fltb f_of_Z Z_float_ops].
  induction 1 as [|j l Hl IH Hj]; cbn [insert_pos].
  - repeat constructor.
  - unfold key_lt. cbn [fltb f_of_Z Z_float_ops].
    destruct (Z.ltb_spec (nth j keys 0%Z) (nth i keys 0%Z)) as [Hlt|Hge].
    + constructor; [exact IH|].
      rewrite (insert_pos_perm (H := Z_float_ops)). constructor; [|exact Hj].
      apply Z.ltb_ge. lia.
    + constructor; [by constructor|].
      constructor; [by apply Z.ltb_ge|].
      eapply Forall_impl; [exact Hj|].
      cbn. intros x Hx. apply Z.ltb_ge. apply Z.ltb_ge in Hx. lia.
Qed.

Lemma stable_argsort_sorted_Z (keys : list Z) :
  StronglySorted (λ p q, key_lt (H := Z_float_ops) keys q p = false)
    (stable_argsort (H := Z_float_ops) keys).
Proof.
  unfold stable_argsort.
  induction (seq 0 (length keys)) as [|i l IH]; [constructor|].
  cbn [foldr]. by apply insert_pos_sorted_Z.
Qed.

Lemma stable_sort_Z_contract : @ArgsortContract Z Z_float_ops stable_sort_Z.
Proof.
  split.
  - intros keys. apply (stable_argsort_perm (H := Z_float_ops)).
  - intros keys i j pi pj a b Hij Hpi Hpj Ha Hb.
    pose proof (StronglySorted_lookup _ _ i j pi pj
                  (stable_argsort_sorted_Z keys) Hij Hpi Hpj) as Hle.
    unfold key_lt in Hle. cbn [fltb f_of_Z Z_float_ops] in Hle |- *.
    by rewrite (nth_lookup_Some _ _ _ _ Ha), (nth_lookup_Some _ _ _ _ Hb) in Hle.
Qed.

(** ** The round trip between packed and unpacked codes *)

(** C3 (amended): unpacking any packed code to -1/+1 and packing it again
    gives the original bytes.  In the other direction a code of [D] entries
    is packed into [ceil(D/8)] bytes, and unpacking these gives the code
    followed by -1 entries up to the next multiple of eight, because the
    unpacking takes no bit count; so the round trip is exact for the
    dimensions divisible by eight, 8 and 768 among them. *)
Theorem pack_unpack_round_trip {F : Type} `{FloatLaws F} :
  (∀ packed : list byte,
     pack_code (unpack_code packed) = packed ∧
     length (unpack_code (F := F) packed) = (8 * length packed)%nat) ∧
  (∀ code : list F,
     Forall (λ v, v = f_of_Z 1 ∨ v = fneg (f_of_Z 1)) code →
     length (pack_code code) = ((length code + 7) / 8)%nat ∧
     unpack_code (pack_code code) =
       code ++ replicate (padding (length code)) (fneg (f_of_Z 1))) ∧
  (∀ D : nat, (D mod 8 = 0)%nat → round_trip (F := F) D).
Proof.
  split; [|split].
  - intros packed. split; [apply pack_unpack_code|].
    unfold unpack_code. by rewrite length_map, np_unpackbits_length.
  - intros code Hcode. split; [|by apply unpack_pack_code].
    unfold pack_code, np_where_gt0. by rewrite np_packbits_length, length_fmap.
  - intros D HD. split.
    + intros code Hlen Hcode. rewrite unpack_pack_code by done.
      unfold padding. rewrite Hlen, HD. cbn. apply app_nil_r.
    + intros packed _. apply pack_unpack_code.
Qed.

(** ** Subclass registration *)

Module HashLayerFacts.
Import HashLayerModel.

(** The resolution order is searched in the heap as it was before the
    statement: the new class is none of its own ancestors. *)
Lemma lookup_mro_fresh (h : heap) (cls : loc) (k : pyclass) (mro : list loc)
    (attr : string) :
  h !! cls = None →
  Forall (λ c, is_Some (h !! c)) mro →
  lookup_mro (<[cls := k]> h) mro attr = lookup_mro h mro attr.
Proof.
  intros Hfresh Hmro. induction Hmro as [|c mro [kc Hc] _ IH]; [done|].
  cbn [lookup_mro]. rewrite lookup_insert_ne by congruence. by rewrite IH.
Qed.


Lemma lookup_mro_app (h : heap) (before rest : list loc) (attr : string) :
  lookup_mro h before attr = None →
  lookup_mro h (before ++ rest) attr = lookup_mro h rest attr.
Proof.
  induction before as [|c before IH]; [done|]. cbn [lookup_mro app].
  destruct (h !! c ≫= λ k, cls_namespace k !! attr); [done | exact IH].
Qed.

(** Without a hook in the classes that are left the call is [object]'s. *)
Lemma init_subclass_chain_no_hook (h : heap) (cls : loc) (mro : list loc)
    (kwargs : list (string * pyval)) :
  lookup_mro h mro "__init_subclass__" = None →
  init_subclass_chain h cls mro kwargs = (_ ← object_init_subclass kwargs; Ok h).
Proof.
  induction mro as [|c mro IH]; [done|]. cbn [lookup_mro init_subclass_chain].
  destruct (h !! c ≫= λ k, cls_namespace k !! "__init_subclass__"); [done | exact IH].
Qed.





(** ** One base

    For a single base whose resolution order has at most one hook, the
    class statement is [define_class]. *)

Lemma existsb_eqb_false (c : nat) (l : list nat) :
  c ∉ l → existsb (Nat.eqb c) l = false.
Proof.
  induction l as [|x l IH]; [done|]. intros Hnot. cbn [existsb].
  apply not_elem_of_cons in Hnot as [Hne Hnot].
  rewrite IH by done. by apply Nat.eqb_neq in Hne as ->.
Qed.

Lemma c3_merge_S (fuel : nat) (seqs : list (list loc)) :
  c3_merge (S fuel) seqs =
    if c3_done seqs then Ok []
    else match c3_candidate seqs seqs with
         | None => Raise TypeError
         | Some c => rest ← c3_merge fuel (c3_drop c <$> seqs); Ok (c :: rest)
         end.
Proof. reflexivity. Qed.

(** The fuel of [linearize] is enough: the merge never stops for want of
    it. *)
Lemma c3_done_nil (seqs : list (list loc)) :
  length (concat seqs) = 0%nat → c3_done seqs = true.
Proof.
  induction seqs as [|s seqs IH]; [done|]. cbn [concat c3_done forallb].
  rewrite length_app. destruct s; [|cbn [length]; lia].
  intros Hlen. by apply IH.
Qed.

Lemma c3_candidate_head (heads seqs : list (list loc)) (c : loc) :
  c3_candidate heads seqs = Some c → ∃ s, s ∈ heads ∧ head s = Some c.
Proof.
  induction heads as [|s heads IH]; [done|]. cbn [c3_candidate].
  destruct s as [|c' s].
  - intros (s' & Hin & Hhead)%IH. exists s'. split; [by constructor | done].
  - destruct (c3_blocked seqs c').
    + intros (s' & Hin & Hhead)%IH. exists s'. split; [by constructor | done].
    + intros [= <-]. exists (c' :: s). split; [constructor | done].
Qed.

Lemma c3_drop_length (c : loc) (s : list loc) :
  (length (c3_drop c s) <= length s)%nat.
Proof.
  destruct s as [|c' s]; [done|]. cbn [c3_drop].
  destruct (Nat.eqb c' c); cbn [length]; lia.
Qed.

Lemma c3_drop_concat_le (c : loc) (seqs : list (list loc)) :
  (length (concat (c3_drop c <$> seqs)) <= length (concat seqs))%nat.
Proof.
  induction seqs as [|s seqs IH]; [done|].
  cbn [fmap list_fmap concat]. rewrite !length_app.
  pose proof (c3_drop_length c s). change (list_fmap _ _ (c3_drop c) seqs)
    with (c3_drop c <$> seqs). lia.
Qed.

Lemma c3_drop_concat_lt (c : loc) (seqs : list (list loc)) (s : list loc) :
  s ∈ seqs → head s = Some c →
  (length (concat (c3_drop c <$> seqs)) < length (concat seqs))%nat.
Proof.
  intros Hin Hhead. induction Hin as [s seqs|s s' seqs Hin IH].
  - cbn [fmap list_fmap concat]. rewrite !length_app.
    pose proof (c3_drop_concat_le c seqs).
    change (list_fmap _ _ (c3_drop c) seqs) with (c3_drop c <$> seqs).
    destruct s as [|c' s]; [done|]. injection Hhead as ->.
    cbn [c3_drop]. rewrite Nat.eqb_refl. cbn [length]. lia.
  - specialize (IH Hhead). cbn [fmap list_fmap concat]. rewrite !length_app.
    pose proof (c3_drop_length c s').
    change (list_fmap _ _ (c3_drop c) seqs) with (c3_drop c <$> seqs). lia.
Qed.

Lemma c3_merge_fuel (fuel : nat) (seqs : list (list loc)) :
  (length (concat seqs) <= fuel)%nat → c3_merge fuel seqs ≠ Raise RuntimeError.
Proof.
  revert seqs. induction fuel as [|fuel IH]; intros seqs Hfuel.
  - cbn [c3_merge]. rewrite c3_done_nil by lia. done.
  - rewrite c3_merge_S. destruct (c3_done seqs); [done|].
    destruct (c3_candidate seqs seqs) as [c|] eqn:Hc; [|done].
    apply c3_candidate_head in Hc as (s & Hin & Hhead).
    pose proof (c3_drop_concat_lt c seqs s Hin Hhead).
    specialize (IH (c3_drop c <$> seqs)).
    destruct (c3_merge fuel (c3_drop c <$> seqs)) as [rest|e]; [done|].
    cbn [mbind result_bind]. intros [= ->]. apply IH; [lia | done].
Qed.

Lemma linearize_fuel (h : heap) (bases : list loc) :
  Forall (λ c, is_Some (h !! c)) bases → linearize h bases ≠ Raise RuntimeError.
Proof.
  intros Hbases. unfold linearize.
  assert (∃ seqs, mapM (M := result) (mro_at h) bases = Ok seqs) as [seqs ->].
  { induction Hbases as [|c bases [k Hc] _ [seqs IH]]; [by eexists|].
    cbn [mapM].
    assert (mro_at h c = Ok (c :: cls_mro_tail k)) as ->
      by (unfold mro_at; by rewrite Hc).
    rewrite IH. by eexists. }
  cbn [mbind result_bind]. apply c3_merge_fuel.
  rewrite concat_app, length_app. cbn [concat]. rewrite app_nil_r. lia.
Qed.

Lemma c3_merge_single (l : list loc) (fuel : nat) :
  NoDup l → (length l <= fuel)%nat → c3_merge fuel [l; []] = Ok l.
Proof.
  revert fuel. induction l as [|c l IH]; intros fuel Hnodup Hfuel.
  - by destruct fuel.
  - destruct fuel as [|fuel]; [cbn [length] in Hfuel; lia|].
    apply NoDup_cons in Hnodup as [Hc Hnodup].
    rewrite c3_merge_S.
    cbn [c3_done forallb andb c3_candidate c3_blocked existsb tail orb].
    rewrite existsb_eqb_false by done.
    cbn [orb fmap list_fmap c3_drop]. rewrite Nat.eqb_refl.
    rewrite IH; [done | done | cbn [length] in Hfuel; lia].
Qed.

Lemma linearize_single_base (h : heap) (base : loc) (b : pyclass) :
  h !! base = Some b →
  NoDup (base :: cls_mro_tail b) →
  linearize h [base] = Ok (base :: cls_mro_tail b).
Proof.
  intros Hbase Hnodup. unfold linearize, mro_at. cbn [mapM]. rewrite Hbase.
  cbn [mbind result_bind mret result_ret fmap result_fmap app concat length].
  apply NoDup_cons in Hnodup as [Hc Hnodup].
  rewrite app_nil_r, Nat.add_1_r, c3_merge_S.
  cbn [c3_done forallb andb c3_candidate c3_blocked existsb tail orb].
  rewrite existsb_eqb_false by done.
  cbn [orb fmap list_fmap c3_drop]. rewrite Nat.eqb_refl.
  rewrite c3_merge_single; [done | done | lia].
Qed.

Lemma init_subclass_chain_first_hook (h : heap) (cls : loc) (mro : list loc)
    (kwargs : list (string * pyval)) :
  (∀ before owner after,
     mro = before ++ owner :: after →
     is_Some (h !! owner ≫= λ k, cls_namespace k !! "__init_subclass__") →
     lookup_mro h after "__init_subclass__" = None) →
  init_subclass_chain h cls mro kwargs =
    match lookup_mro h mro "__init_subclass__" with
    | Some (_, PyFunction qualname) =>
        if String.eqb qualname HashLayer_hook
        then HashLayer_init_subclass h cls kwargs
        else Raise RuntimeError
    | Some (_, _) => Raise TypeError
    | None => _ ← object_init_subclass kwargs; Ok h
    end.
Proof.
  induction mro as [|c mro IH]; intros Hone; [done|].
  cbn [init_subclass_chain lookup_mro].
  destruct (h !! c ≫= λ k, cls_namespace k !! "__init_subclass__") as [v|] eqn:Hc.
  - destruct v as [d|qualname|]; [done| |done].
    destruct (String.eqb qualname HashLayer_hook); [|done].
    rewrite init_subclass_chain_no_hook
      by (apply (Hone [] c mro); [done | by rewrite Hc]).
    by destruct kwargs.
  - apply IH. intros before owner after -> Hown.
    by apply (Hone (c :: before) owner after).
Qed.

Lemma class_statement_single_base (h : heap) (name : string) (base : loc)
    (b : pyclass) (kwargs : list (string * pyval)) (body : gmap string pyval) :
  h !! base = Some b →
  NoDup (base :: cls_mro_tail b) →
  Forall (λ c, is_Some (h !! c)) (base :: cls_mro_tail b) →
  (∀ before owner after,
     base :: cls_mro_tail b = before ++ owner :: after →
     is_Some (h !! owner ≫= λ k, cls_namespace k !! "__init_subclass__") →
     lookup_mro h after "__init_subclass__" = None) →
  class_statement h name [base] kwargs body = define_class h name base kwargs body.
Proof.
  intros Hbase Hnodup Hmro Hone.
  assert (h !! fresh (dom h) = None) as Hfresh
    by (apply not_elem_of_dom; apply is_fresh).
  unfold class_statement, define_class.
  rewrite (linearize_single_base h base b) by done. rewrite Hbase.
  cbn [mbind result_bind].
  set (cls := fresh (dom h)) in *.
  set (h' := <[cls := {| cls_name := name; cls_mro_tail := base :: cls_mro_tail b;
                         cls_namespace := body |}]> h).
  rewrite init_subclass_chain_first_hook.
  - destruct (lookup_mro h' (base :: cls_mro_tail b) "__init_subclass__")
      as [[owner [d|qualname|]]|]; [done| |done|by destruct kwargs].
    by destruct (String.eqb qualname HashLayer_hook).
  - intros before owner after Hsplit Hown.
    assert (Forall (λ c, is_Some (h !! c)) after) as Hafter.
    { rewrite Hsplit in Hmro. apply Forall_app in Hmro as [_ Hmro].
      by inversion Hmro. }
    assert (is_Some (h !! owner)) as [ko Hko].
    { rewrite Hsplit in Hmro. apply Forall_app in Hmro as [_ Hmro].
      by inversion Hmro. }
    unfold h'. rewrite lookup_mro_fresh by done.
    apply (Hone before owner after Hsplit).
    unfold h' in Hown. by rewrite lookup_insert_ne in Hown by congruence.
Qed.

End HashLayerFacts.

(** * The theorems at concrete inputs *)

Section ConcreteRuns.
#[local] Existing Instance Z_float_ops.
#[local] Existing Instance Z_float_laws.

Lemma retrieve_without_document_store_witness :
  document_store (demo_retriever None 1000) = None ∧
  retrieve (H0 := stable_sort_Z) "who?" None (Some 5%Z) None None (demo_retriever None 1000)
    = (Ok [], demo_retriever None 1000, [LoggerError no_document_store_message]).
Proof.
  split; [reflexivity|].
  apply (retrieve_without_document_store (H0 := stable_sort_Z)). reflexivity.
Defined.

Lemma empty_store_indexes_within_k :
  ∀ name ix, faiss_indexes empty_store !! name = Some ix → search_within_k ix.
Proof.
  intros name ix Hix.
  change (({[ "document" := flat_index [] ]} : gmap string BinaryIndex) !! name = Some ix)
    in Hix.
  apply lookup_singleton_Some in Hix as [_ <-].
  apply flat_index_within_k.
Qed.

Lemma retrieve_empty_store_raises_witness :
  all_documents empty_store = [] ∧
  raises (retrieve (H0 := stable_sort_Z) "who?" None (Some 5%Z) None None
            (demo_retriever (Some empty_store) 1000)).1.1.
Proof.
  split; [reflexivity|].
  apply (retrieve_empty_store_raises (H0 := stable_sort_Z) _ _ _ _ _ _ empty_store);
    [reflexivity | reflexivity | exact empty_store_indexes_within_k].
Defined.

(** The call of the "Empty index" scenario: the search is requested with
    [k = 0], then the stacking of no rows raises [ValueError]; by then the
    candidate count has been overwritten with 0. *)
Example retrieve_empty_store_run :
  let run := retrieve (H0 := stable_sort_Z) "who?" None (Some 5%Z) None None
               (demo_retriever (Some empty_store) 1000) in
  run.1.1 = Raise ValueError ∧
  candidates run.1.2 = 0%Z ∧
  run.2 = [IndexSearch "document" [xfe] 0].
Proof. vm_compute. repeat split. Qed.

Lemma retrieve_requests_min_candidates_witness :
  (retrieve (H0 := stable_sort_Z) "who?" None (Some 5%Z) None None
     (demo_retriever (Some demo_store) 1000)).2
  = [IndexSearch "document" [xfe] 3] ∧
  (retrieve (H0 := stable_sort_Z) "who?" None (Some 5%Z) None None
     (demo_retriever (Some demo_store) 2)).2
  = [IndexSearch "document" [xfe] 2].
Proof.
  split.
  - exact (retrieve_requests_min_candidates (H0 := stable_sort_Z) "who?" None (Some 5%Z)
             None None (demo_retriever (Some demo_store) 1000) demo_store
             (flat_index demo_entries) demo_dense demo_binary eq_refl eq_refl eq_refl).
  - exact (retrieve_requests_min_candidates (H0 := stable_sort_Z) "who?" None (Some 5%Z)
             None None (demo_retriever (Some demo_store) 2) demo_store
             (flat_index demo_entries) demo_dense demo_binary eq_refl eq_refl eq_refl).
Defined.

(** Two calls in a row on the demo retriever. *)
Example retrieve_twice_run :
  let first := retrieve (H0 := quicksort_Z) "who?" None (Some 2%Z) None None
                 (demo_retriever (Some demo_store) 1000) in
  let second := retrieve (H0 := quicksort_Z) "who?" None (Some 2%Z) None None first.1.2 in
  first.1.1 = Ok [ {| doc_id := "a"; content := "alpha" |};
                   {| doc_id := "c"; content := "gamma" |} ] ∧
  second.1.1 = first.1.1.
Proof. vm_compute. split; reflexivity. Qed.

Lemma retrieve_twice_same_embeddings_witness :
  let first := retrieve_in (H0 := stable_sort_Z) dropout_encoder "who?" None (Some 1%Z)
                 None None (demo_retriever (Some demo_store) 2) (false, 0%nat) in
  let second := retrieve_in (H0 := stable_sort_Z) dropout_encoder "who?" None (Some 1%Z)
                  None None first.1.1.2 first.1.2 in
  first.1.1.1 = Ok [ {| doc_id := "a"; content := "alpha" |} ] ∧
  second.1.1.1 = first.1.1.1 ∧
  second.2 = first.2.
Proof.
  pose proof (retrieve_twice_same_embeddings (H0 := stable_sort_Z) dropout_encoder "who?"
                None (Some 1%Z) None None (demo_retriever (Some demo_store) 2)
                (false, 0%nat)) as Htwice.
  cbn zeta in Htwice.
  destruct Htwice as (Hresult & Hevents & _); [by vm_compute|].
  split; [by vm_compute|]. split; [exact Hresult | exact Hevents].
Defined.

(** C7 as stated fails: the same retriever, query, [top_k] and store, with
    the model in training mode.  The first pass keeps every entry of the
    dense embedding and the document [a] comes first; the second pass
    drops the last four entries, the two candidates tie, and the document
    [b] is returned. *)
Lemma retrieve_twice_dropout_counterexample :
  let first := retrieve_in (H0 := stable_sort_Z) dropout_encoder "who?" None (Some 1%Z)
                 None None (demo_retriever (Some demo_store) 2) (true, 0%nat) in
  let second := retrieve_in (H0 := stable_sort_Z) dropout_encoder "who?" None (Some 1%Z)
                  None None first.1.1.2 first.1.2 in
  document_store first.1.1.2 = Some demo_store ∧
  first.1.1.1 = Ok [ {| doc_id := "a"; content := "alpha" |} ] ∧
  second.1.1.1 = Ok [ {| doc_id := "b"; content := "beta" |} ] ∧
  second.1.1.1 ≠ first.1.1.1.
Proof.
  vm_compute. split; [reflexivity|]. split; [reflexivity|]. split; [reflexivity|].
  discriminate.
Qed.

(** C6 as stated fails: the count requested is not read from the index.
    With three documents and an index of five entries the call asks for
    three candidates, with five documents and an index of three entries for
    five. *)
Lemma retrieve_index_size_counterexample :
  faiss_indexes two_index_store !! "archive" = Some (flat_index archive_entries) ∧
  (retrieve (H0 := stable_sort_Z) "who?" None (Some 5%Z) (Some "archive") None
     (demo_retriever (Some two_index_store) 1000)).2
    = [IndexSearch "archive" [xfe] 3] ∧
  3%Z ≠ Z.min 1000 (Z.of_nat (length archive_entries)) ∧
  faiss_indexes partly_indexed_store !! "document" = Some (flat_index demo_entries) ∧
  (retrieve (H0 := stable_sort_Z) "who?" None (Some 5%Z) None None
     (demo_retriever (Some partly_indexed_store) 1000)).2
    = [IndexSearch "document" [xfe] 5] ∧
  5%Z ≠ Z.min 1000 (Z.of_nat (length demo_entries)).
Proof.
  split; [reflexivity|]. split; [by vm_compute|]. split; [by vm_compute|].
  split; [reflexivity|]. split; [by vm_compute|]. by vm_compute.
Qed.


(** The later calls do reach the index of the grown store, and ask it for
    three candidates although it holds five entries. *)
Example later_calls_run :
  (run_calls (H0 := stable_sort_Z) [later_call]
     (retrieve (H0 := stable_sort_Z) "who?" None (Some 5%Z) None None
        (demo_retriever (Some demo_store) 1000)).1.2).2
  = [IndexSearch "document" [xfe] 3] ∧
  length (all_documents grown_store) = 5%nat.
Proof. vm_compute. split; reflexivity. Qed.

Lemma search_code_bits_witness :
  ∃ (code : list byte) (k : Z),
    (retrieve (H0 := stable_sort_Z) "who?" None (Some 5%Z) None None
       (demo_retriever (Some demo_store) 1000)).2 = [IndexSearch "document" code k] ∧
    length code = 1%nat ∧
    (∀ (i : nat) (v : Z),
       demo_binary !! i = Some v →
       code_bit code i = Some (0 <? v)%Z ∧ (v = 0%Z → code_bit code i = Some false)) ∧
    (∀ (x : list Z) (i : nat) (v : Z),
       demo_binary = hash_forward x →
       x !! i = Some v →
       code_bit code i = Some (0 <? v)%Z).
Proof.
  exact (search_code_bits (H0 := stable_sort_Z) "who?" None (Some 5%Z) None None
           (demo_retriever (Some demo_store) 1000) demo_store
           (flat_index demo_entries) demo_dense demo_binary eq_refl eq_refl eq_refl).
Defined.

(** The binary query of the demo is the hash activation of a continuous
    vector, zero included. *)
Example demo_binary_is_hashed :
  demo_binary = hash_forward [3; 2; 7; 1; 4; 9; 5; 0]%Z.
Proof. reflexivity. Qed.

(** A query vector with zeros, both signs and nine entries:
    two bytes, the zero giving bit 0. *)
Example pack_code_run :
  pack_code [5; 0; -2; 1; 0; 0; 7; -1; 3]%Z = [x92; x80].
Proof. reflexivity. Qed.

Lemma rerank_scores_are_dot_products_witness :
  ∃ raw_index,
    faiss_indexes demo_store !! "document" = Some raw_index ∧
    Forall2 (λ id_ score, ∃ code,
               reconstruct raw_index id_ = Ok code ∧
               length (np_unpackbits code) = length demo_dense ∧
               score = dot (map plus_minus_one (np_unpackbits code)) demo_dense)
      [1; 0]%Z [-8; 16]%Z.
Proof.
  exact (rerank_scores_are_dot_products demo_store "who?" "document"
           (demo_retriever (Some demo_store) 2)
           (rerank demo_store "who?" "document"
              (demo_retriever (Some demo_store) 2)).1.2
           demo_dense demo_binary [1; 0]%Z [-8; 16]%Z
           (rerank demo_store "who?" "document"
              (demo_retriever (Some demo_store) 2)).2
           eq_refl eq_refl).
Defined.

Lemma retrieve_ranks_by_descending_score_witness :
  let order := argsort (NumpySort := stable_sort_Z) (Z.opp <$> [-8; 16]%Z) in
  order ≡ₚ seq 0 2 ∧
  (retrieve (H0 := stable_sort_Z) "who?" None (Some 1%Z) None None
     (demo_retriever (Some demo_store) 2)).1.1
  = Ok [ {| doc_id := "a"; content := "alpha" |} ].
Proof.
  assert (0 <= 1)%Z as Hk by lia.
  pose proof (retrieve_ranks_by_descending_score
                (np := stable_sort_Z) (contract := stable_sort_Z_contract)
                "who?" None (Some 1%Z) None None
                (demo_retriever (Some demo_store) 2)
                (rerank demo_store "who?" "document"
                   (demo_retriever (Some demo_store) 2)).1.2
                demo_store [1; 0]%Z [-8; 16]%Z
                (rerank demo_store "who?" "document"
                   (demo_retriever (Some demo_store) 2)).2
                eq_refl eq_refl Hk) as (Hperm & _ & Hresult & _).
  split; [exact Hperm|]. rewrite Hresult. reflexivity.
Defined.

(** The scenario of the specification, with ids counted from 0: the search
    ranks the code [0xff] (distance 1) before [0xf0] (distance 2); the dense
    query agrees more with [0xf0], whose document the re-ranking puts first. *)
Example reranking_changes_the_order :
  search (flat_index demo_entries) [xfe] 2 = Ok [1; 0]%Z ∧
  (rerank demo_store "who?" "document" (demo_retriever (Some demo_store) 2)).1.1
    = Ok ([1; 0]%Z, [-8; 16]%Z) ∧
  (retrieve (H0 := quicksort_Z) "who?" None (Some 1%Z) None None
     (demo_retriever (Some demo_store) 2)).1.1
    = Ok [ {| doc_id := "a"; content := "alpha" |} ].
Proof. vm_compute. repeat split. Qed.

(** C2 as stated fails: eighteen candidates with equal scores.  A stable
    sort keeps them in shortlist order, so the first two documents would be
    those of the candidates 0 and 1; numpy's default sort moves candidate 15
    to the second place, and [retrieve] returns its document there. *)
Lemma retrieve_ties_counterexample :
  (rerank tied_store "who?" "document" tied_retriever).1.1
    = Ok (Z.of_nat <$> seq 0 18, replicate 18 0%Z) ∧
  argsort (NumpySort := quicksort_Z) (replicate 18 0%Z)
    = [0; 15; 14; 13; 12; 11; 10; 9; 8; 7; 6; 5; 4; 3; 2; 1; 16; 17]%nat ∧
  (retrieve (H0 := quicksort_Z) "who?" None (Some 2%Z) None None tied_retriever).1.1
    = Ok [ {| doc_id := "A"; content := "text" |};
           {| doc_id := "P"; content := "text" |} ] ∧
  (retrieve (H0 := stable_sort_Z) "who?" None (Some 2%Z) None None tied_retriever).1.1
    = Ok [ {| doc_id := "A"; content := "text" |};
           {| doc_id := "B"; content := "text" |} ].
Proof. vm_compute. repeat split. Qed.

Lemma pack_unpack_round_trip_witness :
  round_trip (F := Z) 8 ∧
  round_trip (F := Z) 768 ∧
  pack_code (unpack_code (F := Z) [xf0; x81]) = [xf0; x81] ∧
  unpack_code (pack_code [1; -1; 1]%Z) = [1; -1; 1; -1; -1; -1; -1; -1]%Z.
Proof.
  destruct (pack_unpack_round_trip (F := Z)) as (Hpacked & Hcode & Hdiv).
  split; [by apply Hdiv|]. split; [by apply Hdiv|].
  split; [apply Hpacked|].
  apply (Hcode [1; -1; 1]%Z).
  do 3 (constructor; [first [by left | by right]|]). constructor.
Defined.

(** C3 as stated fails at the dimensions 1 and 9: a code of one entry comes
    back from packing and unpacking with eight entries. *)
Lemma round_trip_counterexample :
  unpack_code (pack_code [1]%Z) = [1; -1; -1; -1; -1; -1; -1; -1]%Z ∧
  ¬ round_trip (F := Z) 1 ∧
  ¬ round_trip (F := Z) 9.
Proof.
  split; [reflexivity|]. split.
  - intros [Hcode _].
    assert (unpack_code (pack_code [1]%Z) = [1]%Z) as Hback; [|discriminate Hback].
    apply Hcode; [reflexivity|]. constructor; [by left | constructor].
  - intros [Hcode _].
    assert (unpack_code (pack_code (replicate 9 1%Z)) = replicate 9 1%Z) as Hback;
      [|discriminate Hback].
    apply Hcode; [reflexivity|]. by apply Forall_replicate; left.
Qed.

End ConcreteRuns.

Module HashLayerRuns.
Import HashLayerModel HashLayerFacts.



(** With a [subclasses] dict in the class body the statement succeeds and
    the class registers itself; with a keyword argument [object]'s hook
    rejects the statement before the attribute is looked up. *)
Example define_class_runs :
  (∃ h', define_class (initial_heap ∅ ∅) "MyHashLayer" 2 []
           {[ "subclasses" := PyDict ∅ ]} = Ok (3%nat, h') ∧
         (h' !! 3%nat) ≫= (λ k, cls_namespace k !! "subclasses")
           = Some (PyDict {[ "MyHashLayer" := 3%nat ]})) ∧
  define_class (initial_heap ∅ ∅) "MyHashLayer" 2 [("flag", PyOther)] ∅
    = Raise TypeError.
Proof. split; [eexists; split|]; reflexivity. Qed.

End HashLayerRuns.

(** * Further properties of [retrieve] *)

Lemma mapM_result_first_error {A B : Type} (f : A → result B)
    (before after : list A) (x : A) (e : exn) :
  Forall (λ a, ∃ b, f a = Ok b) before →
  f x = Raise e →
  mapM (M := result) f (before ++ x :: after) = Raise e.
Proof.
  intros Hbefore Hx.
  induction Hbefore as [|a before [b Ha] _ IH]; cbn.
  - by rewrite Hx.
  - rewrite Ha. cbn. by rewrite IH.
Qed.

Lemma multiple_of_eight (n : nat) : ((8 * n) mod 8 = 0)%nat.
Proof. by rewrite Nat.mul_comm, Nat.Div0.mod_mul. Qed.

Section RetrieveEdges.
Context {F : Type} `{FloatOps F} `{NumpySort F}.

(** The stacking and the reshape succeed only for a shortlist that is not
    empty and whose codes all have [D / 8] bytes. *)
Lemma passage_embeddings_shape (raw_index : BinaryIndex) (ids_arr : list Z) (D : nat)
    (passage : list (list F)) :
  passage_embeddings raw_index ids_arr D = Ok passage →
  ids_arr ≠ [] ∧
  length passage = length ids_arr ∧
  Forall (λ id_, ∃ code, reconstruct raw_index id_ = Ok code ∧
                         (8 * length code = D)%nat) ids_arr.
Proof.
  unfold passage_embeddings.
  destruct (mapM _ ids_arr) as [rows|e] eqn:Hrows; cbn; [|done].
  destruct (np_vstack rows) as [stacked|e] eqn:Hstack; cbn; [|done].
  apply np_vstack_Ok in Hstack as (-> & r & rs & Hcons & Huniform).
  destruct (np_reshape rows (length rows) D) as [reshaped|e] eqn:Hreshape; cbn; [|done].
  apply (np_reshape_stacked _ _ r rs) in Hreshape as [-> HD]; [|done..].
  intros [= <-].
  apply mapM_result_Ok in Hrows.
  split; [|split].
  - intros ->. apply Forall2_nil_inv_l in Hrows. congruence.
  - rewrite !length_map. symmetry. by eapply Forall2_length.
  - clear Hcons. revert Huniform.
    induction Hrows as [|id_ row ids rows Hrow _ IH]; intros Huniform; [constructor|].
    apply Forall_cons in Huniform as [Hlen Huniform].
    constructor; [|by apply IH].
    destruct (reconstruct raw_index id_) as [code|e] eqn:Hcode; [|done].
    cbn in Hrow. injection Hrow as <-.
    exists code. split; [done|].
    rewrite np_unpackbits_length in Hlen. lia.
Qed.

(** X1: [retrieve] reads the document store, [top_k] and the encoder but
    never assigns them, and it never raises the candidate count; without a
    store, or with a store that holds at least [candidates] documents, the
    retriever is left exactly as it was, whatever the outcome. *)
Theorem retrieve_frame (query : string) (filters : option Filters)
    (top_k_ : option Z) (index_ : option string) (headers : option Headers)
    (self : Retriever F) :
  let self' := (retrieve query filters top_k_ index_ headers self).1.2 in
  document_store self' = document_store self ∧
  top_k self' = top_k self ∧
  embed_one_query self' = embed_one_query self ∧
  (candidates self' <= candidates self)%Z ∧
  (document_store self = None → self' = self) ∧
  (∀ store, document_store self = Some store →
            (candidates self <= Z.of_nat (length (all_documents store)))%Z →
            self' = self).
Proof.
  cbn zeta.
  pose proof (retrieve_effects query filters top_k_ index_ headers self) as Heff.
  cbn zeta in Heff.
  destruct (document_store self) as [store|] eqn:Hstore.
  - destruct (embed_one_query self query) as [[qe qb]|e] eqn:Hembed.
    + destruct Heff as [-> _].
      destruct (clamped_fields store self) as (Hds & Htk & Hemb).
      rewrite Hds, Htk, Hemb, candidates_clamped.
      repeat split; try done; try lia.
      intros store' [= <-] Hle. unfold clamped.
      by destruct (Z.ltb_spec (Z.of_nat (length (all_documents store))) (candidates self));
        [lia|].
    + destruct Heff as [-> _]. repeat split; try done; lia.
  - destruct Heff as [-> _]. repeat split; try done; lia.
Qed.

(** X2: an exception of the encoder is the outcome of [retrieve]; the
    retriever is unchanged and nothing was asked of the index. *)
Theorem retrieve_encoder_error (query : string) (filters : option Filters)
    (top_k_ : option Z) (index_ : option string) (headers : option Headers)
    (self : Retriever F) (store : DocumentStore) (e : exn) :
  document_store self = Some store →
  embed_one_query self query = Raise e →
  retrieve query filters top_k_ index_ headers self = (Raise e, self, []).
Proof.
  intros Hstore Hembed. by rewrite retrieve_unfold, Hstore, rerank_unfold, Hembed.
Qed.

(** X3: an index name that the store does not know gives [KeyError] before
    any search is requested; the candidate count has been clamped by then
    and stays clamped. *)
Theorem retrieve_unknown_index (query : string) (filters : option Filters)
    (top_k_ : option Z) (index_ : option string) (headers : option Headers)
    (self : Retriever F) (store : DocumentStore) (embedded : list F * list F) :
  document_store self = Some store →
  embed_one_query self query = Ok embedded →
  faiss_indexes store !! default (store_index store) index_ = None →
  retrieve query filters top_k_ index_ headers self
    = (Raise KeyError, clamped store self, []) ∧
  candidates (clamped store self)
    = Z.min (candidates self) (Z.of_nat (length (all_documents store))).
Proof.
  intros Hstore Hembed Hindex. split; [|apply candidates_clamped].
  rewrite retrieve_unfold, Hstore, rerank_unfold, Hembed.
  destruct embedded as [qe qb]. cbn zeta. by rewrite Hindex.
Qed.

(** X4: exceptions of the index are not caught.  When [search] raises, and
    when [reconstruct] raises for a shortlisted id whose predecessors in the
    shortlist were reconstructed, that exception is the outcome. *)
Theorem retrieve_index_error (query : string) (filters : option Filters)
    (top_k_ : option Z) (index_ : option string) (headers : option Headers)
    (self : Retriever F) (store : DocumentStore) (raw_index : BinaryIndex)
    (query_embeddings query_emb_binary : list F) (e : exn) :
  document_store self = Some store →
  embed_one_query self query = Ok (query_embeddings, query_emb_binary) →
  faiss_indexes store !! default (store_index store) index_ = Some raw_index →
  let k := Z.min (candidates self) (Z.of_nat (length (all_documents store))) in
  (search raw_index (pack_code query_emb_binary) k = Raise e →
   (retrieve query filters top_k_ index_ headers self).1.1 = Raise e) ∧
  (∀ (before after : list Z) (id_ : Z),
     search raw_index (pack_code query_emb_binary) k = Ok (before ++ id_ :: after) →
     Forall (λ i, ∃ code, reconstruct raw_index i = Ok code) before →
     reconstruct raw_index id_ = Raise e →
     (retrieve query filters top_k_ index_ headers self).1.1 = Raise e).
Proof.
  intros Hstore Hembed Hindex k.
  rewrite retrieve_unfold, Hstore, rerank_unfold, Hembed. cbn zeta.
  rewrite Hindex, candidates_clamped. fold k.
  split.
  - by intros ->.
  - intros before after id_ -> Hbefore Hid. cbn.
    unfold passage_embeddings.
    rewrite (mapM_result_first_error _ before after id_ e); [done| |by rewrite Hid].
    eapply Forall_impl; [exact Hbefore|].
    cbn. intros i [code ->]. by eexists.
Qed.

(** X5: [retrieve] returns documents only after the index returned a
    shortlist that is not empty and whose stored codes all have one bit per
    dimension of the dense query, whose dimension is therefore a multiple of
    eight.  The other normal return is the empty list of the retriever
    without a store. *)
Theorem retrieve_success_shape (query : string) (filters : option Filters)
    (top_k_ : option Z) (index_ : option string) (headers : option Headers)
    (self : Retriever F) (docs : list Document) :
  (retrieve query filters top_k_ index_ headers self).1.1 = Ok docs →
  (document_store self = None ∧ docs = []) ∨
  ∃ store raw_index query_embeddings query_emb_binary ids_arr,
    document_store self = Some store ∧
    embed_one_query self query = Ok (query_embeddings, query_emb_binary) ∧
    faiss_indexes store !! default (store_index store) index_ = Some raw_index ∧
    search raw_index (pack_code query_emb_binary)
      (Z.min (candidates self) (Z.of_nat (length (all_documents store)))) = Ok ids_arr ∧
    ids_arr ≠ [] ∧
    Forall (λ id_, ∃ code, reconstruct raw_index id_ = Ok code ∧
                           (8 * length code = length query_embeddings)%nat) ids_arr ∧
    (length query_embeddings mod 8 = 0)%nat.
Proof.
  rewrite retrieve_unfold.
  destruct (document_store self) as [store|]; [|intros [= <-]; by left].
  rewrite rerank_unfold.
  destruct (embed_one_query self query) as [[qe qb]|e]; [|done].
  cbn zeta.
  destruct (faiss_indexes store !! default (store_index store) index_)
    as [raw_index|] eqn:Hraw; [|done].
  rewrite candidates_clamped.
  destruct (search raw_index (pack_code qb) _) as [ids_arr|e] eqn:Hsearch; [|done].
  cbn [mbind result_bind].
  destruct (passage_embeddings raw_index ids_arr (length qe)) as [passage|e] eqn:Hp;
    [|done].
  intros _. right.
  apply passage_embeddings_shape in Hp as (Hne & _ & Hcodes).
  exists store, raw_index, qe, qb, ids_arr.
  split; [done|]. split; [done|]. split; [done|]. split; [done|].
  split; [done|]. split; [done|].
  destruct ids_arr as [|id_ ids]; [done|].
  apply Forall_cons in Hcodes as [(code & _ & Hlen) _].
  rewrite <- Hlen. apply multiple_of_eight.
Qed.

(** X6: a candidate count that is zero or negative, be it stored in the
    retriever or the result of clamping to an empty store, makes [retrieve]
    raise on every store whose indexes return at most [k] labels. *)
Theorem retrieve_nonpositive_candidates (query : string) (filters : option Filters)
    (top_k_ : option Z) (index_ : option string) (headers : option Headers)
    (self : Retriever F) (store : DocumentStore) :
  document_store self = Some store →
  (Z.min (candidates self) (Z.of_nat (length (all_documents store))) <= 0)%Z →
  (∀ name ix, faiss_indexes store !! name = Some ix → search_within_k ix) →
  raises (retrieve query filters top_k_ index_ headers self).1.1.
Proof.
  intros Hstore Hk Hix.
  rewrite retrieve_unfold, Hstore, rerank_unfold.
  destruct (embed_one_query self query) as [[qe qb]|e]; [|by eexists].
  cbn zeta.
  destruct (faiss_indexes store !! default (store_index store) index_)
    as [raw_index|] eqn:Hraw; [|by eexists].
  rewrite candidates_clamped.
  destruct (search raw_index (pack_code qb) _) as [ids_arr|e] eqn:Hsearch;
    [|by eexists].
  apply (Hix _ _ Hraw) in Hsearch.
  destruct ids_arr; [|cbn [length] in Hsearch; lia].
  by eexists.
Qed.

(** X7: every document [retrieve] returns is one of [all_documents] of the
    store, whatever labels the index and whatever order the sort gave. *)
Theorem retrieve_returns_stored_documents (query : string) (filters : option Filters)
    (top_k_ : option Z) (index_ : option string) (headers : option Headers)
    (self : Retriever F) (store : DocumentStore) (docs : list Document) :
  document_store self = Some store →
  (retrieve query filters top_k_ index_ headers self).1.1 = Ok docs →
  Forall (λ doc, doc ∈ all_documents store) docs.
Proof.
  intros Hstore. rewrite retrieve_unfold, Hstore.
  destruct (rerank store query _ self) as [[[[ids_arr scores_arr]|e] self'] ev];
    [|done].
  cbn [fst]. unfold select_documents. intros Hdocs.
  apply mapM_result_Ok in Hdocs.
  induction Hdocs as [|i doc chosen docs Hdoc _ IH]; [constructor|].
  constructor; [|exact IH].
  destruct (np_getitem ids_arr i) as [id_|e]; [|done].
  cbn in Hdoc. unfold py_list_getitem, np_getitem in Hdoc.
  repeat case_match; try done; injection Hdoc as <-; by eapply list_elem_of_lookup_2.
Qed.

End RetrieveEdges.

Lemma Forall2_NoDup_inj {A B : Type} (R : A → B → Prop) (l : list A) (k : list B) :
  (∀ x y z, R x z → R y z → x = y) →
  Forall2 R l k → NoDup l → NoDup k.
Proof.
  intros Hinj HR. induction HR as [|x z l k Hxz HR IH]; intros Hnd; [constructor|].
  apply NoDup_cons in Hnd as [Hx Hnd].
  constructor; [|by apply IH].
  intros Hz. apply list_elem_of_lookup in Hz as [j Hj].
  destruct (Forall2_lookup_r _ _ _ _ _ HR Hj) as (y & Hy & Hyz).
  apply Hx. rewrite (Hinj x y z Hxz Hyz). by eapply list_elem_of_lookup_2.
Qed.

Lemma py_slice_upto_length {A : Type} (l : list A) (k : Z) :
  ((0 <= k)%Z → length (py_slice_upto l k) = Z.to_nat k `min` length l) ∧
  ((k < 0)%Z → length (py_slice_upto l k) = (length l - Z.to_nat (- k))%nat).
Proof.
  unfold py_slice_upto.
  destruct (Z.leb_spec 0 k); (split; [|]); intros; try lia;
    rewrite length_take; lia.
Qed.

Lemma py_slice_upto_sublist {A : Type} (l : list A) (k : Z) :
  ∃ n, py_slice_upto l k = take n l.
Proof. unfold py_slice_upto. destruct (0 <=? k)%Z; by eexists. Qed.

Section RetrieveRanking.
Context {F : Type} {ops : FloatOps F} {np : NumpySort F}
        {contract : ArgsortContract F}.

Lemma argsort_length (keys : list F) : length (argsort keys) = length keys.
Proof.
  rewrite (Permutation_length (argsort_perm keys)). apply length_seq.
Qed.

Lemma argsort_NoDup (keys : list F) : NoDup (argsort keys).
Proof. rewrite argsort_perm. apply NoDup_seq. Qed.

(** X8: the number of documents returned.  When [retrieve] returns, it
    returns [min(top_k, shortlist length)] documents for a [top_k] that is
    not negative, and the shortlist length less [|top_k|] (never below zero)
    for a negative one; with an index that returns at most [k] labels that
    is never more than the stored candidate count nor than the number of
    documents of the store. *)
Theorem retrieve_result_length (query : string) (filters : option Filters)
    (top_k_ : option Z) (index_ : option string) (headers : option Headers)
    (self : Retriever F) (store : DocumentStore) (raw_index : BinaryIndex)
    (query_embeddings query_emb_binary : list F) (ids_arr : list Z)
    (docs : list Document) :
  document_store self = Some store →
  embed_one_query self query = Ok (query_embeddings, query_emb_binary) →
  faiss_indexes store !! default (store_index store) index_ = Some raw_index →
  search raw_index (pack_code query_emb_binary)
    (Z.min (candidates self) (Z.of_nat (length (all_documents store)))) = Ok ids_arr →
  (retrieve query filters top_k_ index_ headers self).1.1 = Ok docs →
  let k := default (top_k self) top_k_ in
  ((0 <= k)%Z → length docs = Z.to_nat k `min` length ids_arr) ∧
  ((k < 0)%Z → length docs = (length ids_arr - Z.to_nat (- k))%nat) ∧
  (search_within_k raw_index →
   (Z.of_nat (length docs) <= candidates self)%Z ∧
   (length docs <= length (all_documents store))%nat).
Proof.
  intros Hstore Hembed Hraw Hsearch.
  rewrite retrieve_unfold, Hstore, rerank_unfold, Hembed. cbn zeta.
  rewrite Hraw, candidates_clamped, Hsearch. cbn [mbind result_bind].
  destruct (passage_embeddings raw_index ids_arr (length query_embeddings))
    as [passage|e] eqn:Hp; [|done].
  cbn [fst]. unfold select_documents.
  set (k := default (top_k self) top_k_). intros Hdocs.
  apply passage_embeddings_shape in Hp as (_ & Hlen & _).
  apply mapM_result_Ok, Forall2_length in Hdocs.
  assert (length (argsort (fneg <$> np_einsum_ijk_ik passage query_embeddings))
          = length ids_arr) as Horder.
  { rewrite argsort_length. unfold np_einsum_ijk_ik. by rewrite !length_fmap. }
  destruct (py_slice_upto_length
              (argsort (fneg <$> np_einsum_ijk_ik passage query_embeddings)) k)
    as [Hpos Hneg].
  rewrite Horder in Hpos, Hneg.
  split; [intros Hk; rewrite <- Hdocs; by apply Hpos|].
  split; [intros Hk; rewrite <- Hdocs; by apply Hneg|].
  intros Hwithin. apply Hwithin in Hsearch.
  destruct (Z.leb_spec 0 k) as [Hk|Hk];
    [specialize (Hpos Hk) | specialize (Hneg Hk)]; lia.
Qed.

(** X9: [retrieve] never returns a document twice when the labels of the
    shortlist are distinct positions of [all_documents] and the documents
    of the store are distinct. *)
Theorem retrieve_no_duplicates (query : string) (filters : option Filters)
    (top_k_ : option Z) (index_ : option string) (headers : option Headers)
    (self : Retriever F) (store : DocumentStore) (raw_index : BinaryIndex)
    (query_embeddings query_emb_binary : list F) (ids_arr : list Z)
    (docs : list Document) :
  document_store self = Some store →
  embed_one_query self query = Ok (query_embeddings, query_emb_binary) →
  faiss_indexes store !! default (store_index store) index_ = Some raw_index →
  search raw_index (pack_code query_emb_binary)
    (Z.min (candidates self) (Z.of_nat (length (all_documents store)))) = Ok ids_arr →
  NoDup ids_arr →
  Forall (λ id_, (0 <= id_)%Z) ids_arr →
  NoDup (all_documents store) →
  (retrieve query filters top_k_ index_ headers self).1.1 = Ok docs →
  NoDup docs.
Proof.
  intros Hstore Hembed Hraw Hsearch Hids Hnonneg Hstored.
  rewrite retrieve_unfold, Hstore, rerank_unfold, Hembed. cbn zeta.
  rewrite Hraw, candidates_clamped, Hsearch. cbn [mbind result_bind].
  destruct (passage_embeddings raw_index ids_arr (length query_embeddings))
    as [passage|e]; [|done].
  cbn [fst]. unfold select_documents. intros Hdocs.
  apply mapM_result_Ok in Hdocs.
  eapply Forall2_NoDup_inj; [|exact Hdocs|].
  - intros i j doc Hi Hj. cbn in Hi, Hj.
    unfold np_getitem at 1 in Hi. unfold np_getitem at 1 in Hj.
    destruct (ids_arr !! i) as [idi|] eqn:Hidi; [|done].
    destruct (ids_arr !! j) as [idj|] eqn:Hidj; [|done].
    cbn in Hi, Hj.
    assert (0 <= idi)%Z as Hposi
      by (rewrite Forall_forall in Hnonneg; apply Hnonneg;
          by eapply list_elem_of_lookup_2).
    assert (0 <= idj)%Z as Hposj
      by (rewrite Forall_forall in Hnonneg; apply Hnonneg;
          by eapply list_elem_of_lookup_2).
    unfold py_list_getitem, np_getitem in Hi, Hj.
    destruct (Z.leb_spec 0 idi); [|lia]. destruct (Z.leb_spec 0 idj); [|lia].
    cbn [andb] in Hi, Hj.
    destruct (Z.ltb_spec idi 0); [lia|]. destruct (Z.ltb_spec idj 0); [lia|].
    rewrite andb_false_r in Hi, Hj.
    destruct (idi <? _)%Z; [|done]. destruct (idj <? _)%Z; [|done].
    destruct (all_documents store !! Z.to_nat idi) as [di|] eqn:Hdi; [|done].
    destruct (all_documents store !! Z.to_nat idj) as [dj|] eqn:Hdj; [|done].
    injection Hi as ->. injection Hj as ->.
    assert (Z.to_nat idi = Z.to_nat idj) as Hsame
      by (eapply NoDup_lookup; [exact Hstored | exact Hdi | exact Hdj]).
    assert (idi = idj) as Hid by lia. rewrite Hid in Hidi.
    exact (NoDup_lookup _ _ _ _ Hids Hidi Hidj).
  - destruct (py_slice_upto_sublist
                (argsort (fneg <$> np_einsum_ijk_ik passage query_embeddings))
                (default (top_k self) top_k_)) as [n ->].
    eapply sublist_NoDup; [apply argsort_NoDup | apply sublist_take].
Qed.

(** X10: best first.  When [retrieve] returns for a [top_k] of at least one,
    the first document is the one of the shortlist position that [argsort]
    puts first, and no other shortlisted candidate has a greater score. *)
Theorem retrieve_first_is_best {laws : FloatLaws F} (query : string)
    (filters : option Filters) (top_k_ : option Z) (index_ : option string)
    (headers : option Headers) (self self' : Retriever F) (store : DocumentStore)
    (ids_arr : list Z) (scores_arr : list F) (ev : list event)
    (docs : list Document) :
  document_store self = Some store →
  rerank store query (default (store_index store) index_) self
    = (Ok (ids_arr, scores_arr), self', ev) →
  (1 <= default (top_k self) top_k_)%Z →
  (retrieve query filters top_k_ index_ headers self).1.1 = Ok docs →
  ∃ (p0 : nat) (s0 : F) (id0 : Z) (doc0 : Document),
    argsort (fneg <$> scores_arr) !! 0%nat = Some p0 ∧
    scores_arr !! p0 = Some s0 ∧
    ids_arr !! p0 = Some id0 ∧
    py_list_getitem (all_documents store) id0 = Ok doc0 ∧
    docs !! 0%nat = Some doc0 ∧
    ∀ (p : nat) (s : F), p ≠ p0 → scores_arr !! p = Some s → fltb s0 s = false.
Proof.
  intros Hstore Hrerank Hk.
  rewrite retrieve_unfold, Hstore, Hrerank. cbn [fst].
  unfold select_documents, py_slice_upto.
  destruct (Z.leb_spec 0 (default (top_k self) top_k_)); [|lia].
  intros Hdocs. apply mapM_result_Ok in Hdocs.
  (* the shortlist is not empty, so neither is the order *)
  assert (scores_arr ≠ []) as Hscores.
  { rewrite rerank_unfold in Hrerank.
    destruct (embed_one_query self query) as [[qe qb]|e]; [|done].
    cbn zeta in Hrerank.
    destruct (faiss_indexes store !! _) as [raw_index|]; [|done].
    destruct (search raw_index _ _) as [ids|e]; [|done].
    cbn [mbind result_bind] in Hrerank.
    destruct (passage_embeddings raw_index ids (length qe)) as [passage|e] eqn:Hp;
      [|done].
    injection Hrerank as <- <- _ _.
    apply passage_embeddings_shape in Hp as (Hne & Hlen & _).
    unfold np_einsum_ijk_ik. intros Hnil. apply fmap_nil_inv in Hnil as ->.
    destruct ids; [done | discriminate Hlen]. }
  destruct (argsort (fneg <$> scores_arr)) as [|p0 order] eqn:Horder.
  { pose proof (argsort_length (fneg <$> scores_arr)) as Hlen.
    rewrite Horder, length_fmap in Hlen. by destruct scores_arr. }
  destruct (Z.to_nat (default (top_k self) top_k_)) as [|n] eqn:Hn; [lia|].
  cbn [take] in Hdocs.
  apply Forall2_cons_inv_l in Hdocs as (doc0 & docs' & Hdoc0 & _ & ->).
  cbn in Hdoc0. unfold np_getitem at 1 in Hdoc0.
  destruct (ids_arr !! p0) as [id0|] eqn:Hid0; [|done]. cbn in Hdoc0.
  assert (p0 ∈ seq 0 (length (fneg <$> scores_arr))) as Hp0.
  { rewrite <- argsort_perm, Horder. apply list_elem_of_here. }
  apply elem_of_seq in Hp0 as [_ Hp0]. rewrite length_fmap in Hp0. cbn in Hp0.
  destruct (lookup_lt_is_Some_2 scores_arr p0 Hp0) as [s0 Hs0].
  exists p0, s0, id0, doc0. repeat split; try done.
  intros p s Hp Hs.
  assert (p ∈ argsort (fneg <$> scores_arr)) as Hin.
  { rewrite argsort_perm. apply elem_of_seq. rewrite length_fmap.
    apply lookup_lt_Some in Hs. lia. }
  apply list_elem_of_lookup in Hin as [j Hj].
  destruct j as [|j]; [rewrite Horder in Hj; cbn in Hj; congruence|].
  rewrite <- (fneg_fltb s s0).
  apply (argsort_sorted (fneg <$> scores_arr) 0 (S j) p0 p); try done; try lia.
  - by rewrite Horder.
  - by rewrite list_lookup_fmap, Hs0.
  - by rewrite list_lookup_fmap, Hs.
Qed.

End RetrieveRanking.

Section CallSequences.
Context {F : Type} `{FloatOps F} `{NumpySort F}.

(** X11: over any sequence of calls, on any stores, the candidate count
    never grows, and no search ever asks for more candidates than the count
    stored before the first call. *)
Theorem run_calls_never_raises_candidates (calls : list call) (self : Retriever F) :
  (candidates (run_calls calls self).1 <= candidates self)%Z ∧
  Forall (λ e, ∀ index x k, e = IndexSearch index x k → (k <= candidates self)%Z)
    (run_calls calls self).2.
Proof.
  revert self. induction calls as [|c calls IH]; intros self.
  { split; [cbn; lia | constructor]. }
  cbn [run_calls].
  pose proof (retrieve_effects (call_query c) None (call_top_k c) (call_index c) None
                (set_document_store (call_store c) self)) as Heff.
  cbn zeta in Heff.
  destruct (retrieve (call_query c) None (call_top_k c) (call_index c) None
              (set_document_store (call_store c) self)) as [[r self'] ev].
  cbn [fst snd] in Heff.
  assert ((candidates self' <= candidates self)%Z ∧
          Forall (λ e, ∀ index x k, e = IndexSearch index x k →
                                    (k <= candidates self)%Z) ev)
    as [Hle Hev].
  { unfold set_document_store in Heff.
    cbn [document_store embed_one_query candidates] in Heff.
    destruct (call_store c) as [store'|].
    - destruct (embed_one_query self (call_query c)) as [[qe qb]|e].
      + destruct Heff as [-> Hev]. rewrite candidates_clamped. cbn [candidates].
        split; [lia|].
        destruct (faiss_indexes store' !! _); rewrite Hev; [|constructor].
        constructor; [|constructor]. intros index x k [= _ _ <-]. lia.
      + destruct Heff as [-> ->]. split; [cbn; lia | constructor].
    - destruct Heff as [-> ->]. split; [cbn; lia|].
      constructor; [|constructor]. by intros index x k. }
  destruct (IH self') as [Hfinal Hevs].
  destruct (run_calls calls self') as [self'' ev'].
  cbn [fst snd] in *. split; [lia|].
  apply Forall_app. split; [done|].
  eapply Forall_impl; [exact Hevs|].
  cbn. intros e He index x k Heq. specialize (He index x k Heq). lia.
Qed.

(** X12: two binary query embeddings of the same length are sent to the
    index as the same code exactly when their entries are greater than zero
    at the same places: the packing loses nothing of the signs. *)
Theorem pack_code_same_signs (x y : list F) :
  length x = length y →
  pack_code x = pack_code y ↔ np_where_gt0 x = np_where_gt0 y.
Proof.
  intros Hlen. unfold pack_code. split; [|by intros ->].
  intros Hpacked. apply (f_equal np_unpackbits) in Hpacked.
  rewrite !np_unpackbits_packbits in Hpacked.
  apply app_inj_1 in Hpacked as [Hbits _]; [done|].
  unfold np_where_gt0. by rewrite !length_fmap.
Qed.

End CallSequences.

(** * Further properties of the subclass registration *)

Module HashLayerExtras.
Import HashLayerModel.


(** The class statement for a subclass of a class [a] that sits directly
    under [HashLayer], has no hook of its own and binds [subclasses] to a
    dict, when the body of the new class does not bind [subclasses]. *)
Lemma define_under_registry (h : gmap nat pyclass) (hashlayer module object a : nat)
    (ka : pyclass) (d : gmap string nat) (name : string) (body : gmap string pyval) :
  h !! hashlayer = Some (HashLayer_class module object) →
  h !! a = Some ka →
  cls_mro_tail ka = [hashlayer; module; object] →
  cls_namespace ka !! "__init_subclass__" = None →
  cls_namespace ka !! "subclasses" = Some (PyDict d) →
  body !! "subclasses" = None →
  let cls := fresh (dom h) in
  h !! cls = None ∧
  define_class h name a [] body =
    Ok (cls,
        <[a := {| cls_name := cls_name ka;
                  cls_mro_tail := cls_mro_tail ka;
                  cls_namespace :=
                    <["subclasses" := PyDict (<[name := cls]> d)]> (cls_namespace ka) |}]>
          (<[cls := {| cls_name := name;
                       cls_mro_tail := a :: cls_mro_tail ka;
                       cls_namespace := body |}]> h)).
Proof.
  intros Hhl Ha Hmro Hhook Hreg Hbody cls.
  assert (h !! cls = None) as Hfresh
    by (apply not_elem_of_dom; apply is_fresh).
  split; [done|].
  assert (cls ≠ hashlayer) as Hne1 by congruence.
  assert (cls ≠ a) as Hne2 by congruence.
  unfold define_class, HashLayer_init_subclass, getattr. rewrite Ha. fold cls.
  rewrite Hmro.
  cbn [cls_mro_tail lookup_mro].
  rewrite !lookup_insert_eq.
  cbn [cls_mro_tail lookup_mro].
  rewrite !(lookup_insert_ne h cls a) by done.
  rewrite !(lookup_insert_ne h cls hashlayer) by done.
  rewrite Ha, Hhl.
  cbn [mbind option_bind cls_namespace HashLayer_class cls_name].
  rewrite Hhook, Hbody, Hreg, lookup_singleton_eq.
  change (String.eqb HashLayer_hook HashLayer_hook) with true.
  cbn [object_init_subclass mbind result_bind].
  do 2 f_equal. apply map_eq. intros l.
  destruct (decide (l = a)) as [->|Hl].
  - rewrite lookup_alter_eq, lookup_insert_eq, lookup_insert_ne, Ha by done.
    cbn. by rewrite Hmro.
  - by rewrite lookup_alter_ne, !(lookup_insert_ne _ a l).
Qed.


(** X14: the registry is keyed by the class name alone.  When a second
    class of the same name is derived from the ancestor that holds the
    dict, its entry replaces the one of the first class, which the registry
    no longer lists. *)
Theorem registry_keeps_last_class_of_a_name (h : gmap nat pyclass)
    (hashlayer module object a : nat) (ka : pyclass) (d : gmap string nat)
    (name : string) (body1 body2 : gmap string pyval) :
  h !! hashlayer = Some (HashLayer_class module object) →
  h !! a = Some ka →
  cls_mro_tail ka = [hashlayer; module; object] →
  cls_namespace ka !! "__init_subclass__" = None →
  cls_namespace ka !! "subclasses" = Some (PyDict d) →
  body1 !! "subclasses" = None →
  body2 !! "subclasses" = None →
  ∃ cls1 h1 cls2 h2 ka2,
    define_class h name a [] body1 = Ok (cls1, h1) ∧
    define_class h1 name a [] body2 = Ok (cls2, h2) ∧
    cls1 ≠ cls2 ∧
    h2 !! a = Some ka2 ∧
    cls_namespace ka2 !! "subclasses" = Some (PyDict (<[name := cls2]> d)).
Proof.
  intros Hhl Ha Hmro Hhook Hreg Hbody1 Hbody2.
  destruct (define_under_registry h hashlayer module object a ka d name body1
              Hhl Ha Hmro Hhook Hreg Hbody1) as [Hfresh1 Hdef1].
  set (cls1 := fresh (dom h)) in *.
  assert (cls1 ≠ a) as Hne1 by congruence.
  assert (cls1 ≠ hashlayer) as Hne1' by congruence.
  match type of Hdef1 with _ = Ok (_, ?hh) => set (h1 := hh) in * end.
  assert (h1 !! a = Some {| cls_name := cls_name ka;
                            cls_mro_tail := cls_mro_tail ka;
                            cls_namespace :=
                              <["subclasses" := PyDict (<[name := cls1]> d)]>
                                (cls_namespace ka) |}) as Ha1
    by apply lookup_insert_eq.
  assert (h1 !! hashlayer = Some (HashLayer_class module object)) as Hhl1.
  { subst h1. destruct (decide (hashlayer = a)) as [->|Hne].
    - rewrite Ha in Hhl. injection Hhl as ->.
      cbn [cls_namespace HashLayer_class] in Hhook.
      by rewrite lookup_singleton_eq in Hhook.
    - by rewrite !lookup_insert_ne. }
  destruct (define_under_registry h1 hashlayer module object a _
              (<[name := cls1]> d) name body2 Hhl1 Ha1 Hmro) as [Hfresh2 Hdef2].
  { cbn. by rewrite lookup_insert_ne. }
  { cbn. by rewrite lookup_insert_eq. }
  { done. }
  exists cls1, h1, (fresh (dom h1)). eexists _, _.
  split; [exact Hdef1|]. split; [exact Hdef2|].
  split.
  - intros Heq. rewrite <- Heq in Hfresh2. subst h1.
    by rewrite lookup_insert_ne, lookup_insert_eq in Hfresh2.
  - split; [apply lookup_insert_eq|]. cbn.
    by rewrite lookup_insert_eq, insert_insert_eq.
Qed.


End HashLayerExtras.

(** * Properties of the embedding methods *)

Module EmbeddingFacts.
Import Embedding.

(** ** Batches *)

Lemma chunks_fuel_enough {A : Type} (n : nat) (l : list A) (fuel1 fuel2 : nat) :
  (0 < n)%nat → (length l <= fuel1)%nat → (length l <= fuel2)%nat →
  chunks_fuel fuel1 n l = chunks_fuel fuel2 n l.
Proof.
  intros Hn. revert l fuel2.
  induction fuel1 as [|fuel1 IH]; intros l fuel2 H1 H2.
  - destruct l; [|cbn in H1; lia]. by destruct fuel2.
  - destruct l as [|x l]; [by destruct fuel2|].
    destruct fuel2 as [|fuel2]; [cbn in H2; lia|].
    cbn [chunks_fuel]. f_equal.
    apply IH; rewrite length_drop; cbn [length] in *; lia.
Qed.

Lemma chunks_cons {A : Type} (n : nat) (x : A) (l : list A) :
  (0 < n)%nat →
  chunks n (x :: l) = take n (x :: l) :: chunks n (drop n (x :: l)).
Proof.
  intros Hn. unfold chunks. cbn [length chunks_fuel]. f_equal.
  apply chunks_fuel_enough; [done| |done].
  rewrite length_drop. cbn [length]. lia.
Qed.

Lemma chunks_nil {A : Type} (n : nat) : chunks n (@nil A) = [].
Proof. reflexivity. Qed.

Lemma chunks_app_first {A : Type} (n : nat) (first rest : list A) :
  (0 < n)%nat → length first = n →
  chunks n (first ++ rest) = first :: chunks n rest.
Proof.
  intros Hn Hlen. destruct first as [|x first]; [cbn in Hlen; lia|].
  change ((x :: first) ++ rest) with (x :: (first ++ rest)).
  rewrite chunks_cons by done.
  change (x :: (first ++ rest)) with ((x :: first) ++ rest).
  by rewrite take_app_length', drop_app_length'.
Qed.

Lemma chunks_short {A : Type} (n : nat) (l : list A) :
  l ≠ [] → (length l <= n)%nat → chunks n l = [l].
Proof.
  intros Hne Hlen. destruct l as [|x l]; [done|].
  rewrite chunks_cons by (cbn in Hlen; lia).
  rewrite take_ge, drop_ge by done. by rewrite chunks_nil.
Qed.

(** Induction over the batches of a list. *)
Lemma chunks_ind {A : Type} (n : nat) (P : list A → Prop) :
  (0 < n)%nat →
  P [] →
  (∀ x l, P (drop n (x :: l)) → P (x :: l)) →
  ∀ l, P l.
Proof.
  intros Hn Hnil Hstep l.
  remember (length l) as m eqn:Hm. revert l Hm.
  induction (lt_wf m) as [m _ IH]. intros l ->.
  destruct l as [|x l]; [done|].
  apply Hstep, (IH (length (drop n (x :: l)))); [|done].
  rewrite length_drop. cbn [length]. lia.
Qed.

Lemma concat_chunks {A : Type} (n : nat) (l : list A) :
  (0 < n)%nat → concat (chunks n l) = l.
Proof.
  intros Hn. revert l. apply (chunks_ind n _ Hn); [done|]. intros x l IH.
  rewrite chunks_cons by done. cbn [concat]. rewrite IH. apply take_drop.
Qed.

Lemma chunks_nonempty {A : Type} (n : nat) (l : list A) :
  (0 < n)%nat → Forall (λ batch, batch ≠ [] ∧ (length batch <= n)%nat) (chunks n l).
Proof.
  intros Hn. revert l. apply (chunks_ind n _ Hn); [constructor|]. intros x l IH.
  rewrite chunks_cons by done. constructor; [|exact IH].
  split; [|rewrite length_take; lia].
  destruct n; [lia|]. done.
Qed.

(** The number of batches is the number of samples divided by the batch
    size, rounded up. *)
Lemma chunks_length_bounds {A : Type} (n : nat) (l : list A) :
  (0 < n)%nat →
  (length l <= length (chunks n l) * n < length l + n)%nat.
Proof.
  intros Hn. revert l. apply (chunks_ind n _ Hn); [cbn; lia|]. intros x l IH.
  rewrite chunks_cons by done. cbn [length].
  rewrite length_drop in IH. cbn [length] in IH.
  destruct (length (chunks n (drop n (x :: l)))) as [|c]; [lia|].
  rewrite !Nat.mul_succ_l in *. lia.
Qed.

(** ** The loops *)

Section EncoderFacts.
Context {F Sample : Type}.
Implicit Types (enc : Encoder F Sample) (st : EncoderState).

Lemma model_forward_unfold enc (batch : list Sample) st :
  model_forward enc batch st =
    match devices enc with
    | [] => (Raise IndexError, st, [])
    | _ :: _ => (forward enc (training st) batch, st, [ModelForward (training st) batch])
    end.
Proof.
  unfold model_forward, mbind, EM_bind, lift_result, get_state, emit_event, to_first_device.
  destruct (devices enc); [done|]. cbn.
  by destruct (forward enc (training st) batch).
Qed.

Lemma predict_batches_cons enc (batch : list Sample) (rest : list (list Sample))
    (acc : accumulators) st :
  predict_batches enc (batch :: rest) acc st =
    match devices enc with
    | [] => (Raise IndexError, st, [])
    | _ :: _ =>
        match forward enc (training st) batch with
        | Ok (binary_query, binary_passage, dense_query) =>
            let run := predict_batches enc rest
                         {| acc_query := append_output (acc_query acc) binary_query;
                            acc_passages := append_output (acc_passages acc) binary_passage;
                            acc_dense_query := append_output (acc_dense_query acc) dense_query |}
                         st in
            (run.1.1, run.1.2,
             ModelForward (training st) batch :: TqdmUpdate (batch_size enc) :: run.2)
        | Raise e => (Raise e, st, [ModelForward (training st) batch])
        end
    end.
Proof.
  cbn [predict_batches]. unfold mbind at 1. unfold EM_bind.
  rewrite model_forward_unfold.
  destruct (devices enc); [done|].
  destruct (forward enc (training st) batch) as [[[bq bp] dq]|e]; [|done].
  unfold mbind, EM_bind, emit_event.
  by destruct (predict_batches enc rest _ st) as [[r st'] ev].
Qed.

(** A run over the batches leaves the state alone, calls the model in the
    mode it is in, and on success has passed and reported every batch. *)
Lemma predict_batches_run enc (data_loader : list (list Sample)) (acc : accumulators) st :
  let run := predict_batches enc data_loader acc st in
  run.1.2 = st ∧
  Forall (λ e, (∃ batch, e = ModelForward (training st) batch) ∨
               e = TqdmUpdate (batch_size enc)) run.2 ∧
  (∀ acc', run.1.1 = Ok acc' →
           run.2 = data_loader ≫= λ batch,
                     [ModelForward (training st) batch; TqdmUpdate (batch_size enc)]).
Proof.
  cbn zeta. revert acc. induction data_loader as [|batch rest IH]; intros acc.
  { cbn. split_and!; [done | constructor | done]. }
  rewrite predict_batches_cons.
  destruct (devices enc); [cbn; split_and!; [done | constructor | done]|].
  destruct (forward enc (training st) batch) as [[[bq bp] dq]|e].
  - cbn zeta. cbn [fst snd].
    destruct (IH {| acc_query := append_output (acc_query acc) bq;
                    acc_passages := append_output (acc_passages acc) bp;
                    acc_dense_query := append_output (acc_dense_query acc) dq |})
      as (Hst & Hev & Hok).
    split; [done|]. split.
    + constructor; [left; by eexists|]. constructor; [by right | done].
    + intros acc' Hacc. cbn. f_equal. f_equal. by eapply Hok.
  - cbn. split_and!; [done | | done]. constructor; [left; by eexists | constructor].
Qed.

Lemma predict_batches_row_wise enc (fq fp fd : option (Sample → list F))
    (data_loader : list (list Sample)) (acc : accumulators) st :
  devices enc ≠ [] →
  training st = false →
  row_wise enc false fq fp fd →
  predict_batches enc data_loader acc st =
    (Ok {| acc_query := acc_query acc ++ arrays_of fq data_loader;
           acc_passages := acc_passages acc ++ arrays_of fp data_loader;
           acc_dense_query := acc_dense_query acc ++ arrays_of fd data_loader |},
     st, batch_events enc data_loader).
Proof.
  intros Hdev Hmode Hrows. revert acc.
  induction data_loader as [|batch rest IH]; intros acc.
  { destruct acc. cbn. unfold arrays_of.
    destruct fq, fp, fd; cbn; by rewrite ?app_nil_r. }
  rewrite predict_batches_cons.
  destruct (devices enc) eqn:Hd; [done|].
  rewrite Hmode, Hrows. cbn zeta. rewrite IH. cbn [fst snd].
  f_equal. f_equal. f_equal.
  unfold append_output, rows_of, arrays_of.
  cbn [acc_query acc_passages acc_dense_query].
  destruct fq, fp, fd; cbn; by rewrite <- ?app_assoc.
Qed.

Lemma concat_fmap_fmap {A B : Type} (g : A → B) (ll : list (list A)) :
  concat ((λ l : list A, g <$> l) <$> ll) = g <$> concat ll.
Proof.
  induction ll as [|l ll IH]; [done|].
  cbn. by rewrite IH, fmap_app.
Qed.

Lemma np_concatenate_uniform (arrays : list (list (list F))) (D : nat) :
  arrays ≠ [] →
  Forall (Forall (λ r, length r = D)) arrays →
  np_concatenate arrays = Ok (concat arrays).
Proof.
  intros Hne Hwidth. unfold np_concatenate.
  destruct arrays as [|a arrays]; [done|].
  assert (Forall (λ r, length r = D) (concat (a :: arrays))) as Hrows.
  { clear Hne. induction Hwidth as [|b bs Hb _ IH]; [constructor|].
    cbn [concat]. by apply Forall_app. }
  destruct (concat (a :: arrays)) as [|r rows]; [done|].
  apply Forall_cons in Hrows as [Hr Hrows].
  replace (forallb _ rows) with true; [done|].
  symmetry. apply forallb_forall. intros r' Hr'.
  apply Nat.eqb_eq. rewrite Forall_forall in Hrows.
  apply list_elem_of_In, Hrows in Hr'. congruence.
Qed.

Lemma concatenate_if_any_uniform (arrays : list (list (list F))) (D : nat) :
  arrays ≠ [] →
  Forall (Forall (λ r, length r = D)) arrays →
  concatenate_if_any arrays = Ok (NdArray (concat arrays)).
Proof.
  intros Hne Hwidth. unfold concatenate_if_any.
  rewrite (np_concatenate_uniform arrays D) by done.
  by destruct arrays.
Qed.

Lemma concatenate_arrays_of (f : option (Sample → list F)) (D n : nat)
    (dataset : list Sample) :
  uniform_width f D → (0 < n)%nat →
  concatenate_if_any (arrays_of f (chunks n dataset)) = Ok (embedded_rows f dataset).
Proof.
  intros Hwidth Hn. unfold arrays_of, embedded_rows.
  destruct f as [g|]; [|done].
  destruct dataset as [|x dataset]; [done|].
  rewrite (concatenate_if_any_uniform _ D).
  - by rewrite concat_fmap_fmap, concat_chunks.
  - rewrite chunks_cons by done. done.
  - apply Forall_fmap, Forall_forall. intros batch _.
    apply Forall_fmap, Forall_forall. intros s _. cbn. by apply Hwidth.
Qed.

(** [_get_predictions] up to the loop. *)
Lemma get_predictions_unfold enc (dicts : list input_dict) st :
  _get_predictions enc dicts st =
    match dataset_from_dicts enc (num_hard_negatives st) dicts with
    | Raise e => (Raise e, st, [])
    | Ok dataset =>
        match NamedDataLoader dataset (batch_size enc) with
        | Raise e => (Raise e, st, [])
        | Ok data_loader =>
            let st' := {| training := false; num_hard_negatives := num_hard_negatives st |} in
            let opened :=
              TqdmOpen (Z.of_nat (length data_loader) * batch_size enc)
                (if Nat.eqb (length dataset) 1 then true else negb (progress_bar enc)) in
            let run := predict_batches enc data_loader
                         {| acc_query := []; acc_passages := []; acc_dense_query := [] |}
                         st' in
            match run.1.1 with
            | Raise e => (Raise e, run.1.2, opened :: run.2)
            | Ok acc =>
                (passages ← concatenate_if_any (acc_passages acc);
                 query ← concatenate_if_any (acc_query acc);
                 dense_query ← concatenate_if_any (acc_dense_query acc);
                 Ok {| emb_query := query;
                       emb_passages := passages;
                       emb_dense_query := dense_query |},
                 run.1.2, opened :: run.2)
            end
        end
    end.
Proof.
  unfold _get_predictions, mbind at 1, EM_bind, get_state.
  unfold mbind at 1, EM_bind, lift_result.
  destruct (dataset_from_dicts enc (num_hard_negatives st) dicts) as [dataset|e];
    [|done].
  unfold mbind at 1, EM_bind.
  destruct (NamedDataLoader dataset (batch_size enc)) as [data_loader|e]; [|done].
  unfold mbind at 1, EM_bind, put_state.
  unfold mbind at 1, EM_bind, emit_event.
  unfold mbind at 1, EM_bind. cbn zeta.
  destruct (predict_batches enc data_loader _ _) as [[[acc|e] st1] ev]; cbn [fst snd];
    [|done].
  unfold mbind, EM_bind, result_bind, mret, EM_ret.
  destruct (concatenate_if_any (acc_passages acc)); cbn; [|by rewrite ?app_nil_r].
  destruct (concatenate_if_any (acc_query acc)); cbn; [|by rewrite ?app_nil_r].
  destruct (concatenate_if_any (acc_dense_query acc)); cbn; by rewrite ?app_nil_r.
Qed.

Lemma NamedDataLoader_Ok (dataset : list Sample) (bs : Z) :
  (0 < bs)%Z → NamedDataLoader dataset bs = Ok (chunks (Z.to_nat bs) dataset).
Proof. intros Hbs. unfold NamedDataLoader. by destruct (Z.leb_spec bs 0); [lia|]. Qed.

(** The run of [_get_predictions] with a model that works row by row. *)
Lemma get_predictions_row_wise_run enc (fq fp fd : option (Sample → list F))
    (Dq Dp Dd : nat) (dicts : list input_dict) (dataset : list Sample) st :
  (0 < batch_size enc)%Z →
  devices enc ≠ [] →
  dataset_from_dicts enc (num_hard_negatives st) dicts = Ok dataset →
  row_wise enc false fq fp fd →
  uniform_width fq Dq → uniform_width fp Dp → uniform_width fd Dd →
  let data_loader := chunks (Z.to_nat (batch_size enc)) dataset in
  _get_predictions enc dicts st =
    (Ok {| emb_query := embedded_rows fq dataset;
           emb_passages := embedded_rows fp dataset;
           emb_dense_query := embedded_rows fd dataset |},
     {| training := false; num_hard_negatives := num_hard_negatives st |},
     TqdmOpen (Z.of_nat (length data_loader) * batch_size enc)
       (if Nat.eqb (length dataset) 1 then true else negb (progress_bar enc))
       :: batch_events enc data_loader).
Proof.
  intros Hbs Hdev Hdataset Hrows Hq Hp Hd data_loader.
  rewrite get_predictions_unfold, Hdataset, NamedDataLoader_Ok by done.
  cbn zeta. fold data_loader.
  rewrite (predict_batches_row_wise enc fq fp fd) by done.
  cbn [fst snd acc_query acc_passages acc_dense_query app].
  subst data_loader.
  rewrite (concatenate_arrays_of fp Dp), (concatenate_arrays_of fq Dq),
    (concatenate_arrays_of fd Dd) by (done || lia).
  done.
Qed.

(** What [_get_predictions] does whatever the model is like. *)
Lemma get_predictions_frame enc (dicts : list input_dict) st :
  let run := _get_predictions enc dicts st in
  num_hard_negatives run.1.2 = num_hard_negatives st ∧
  Forall (λ e, ∀ msg, e ≠ LoggerWarning msg) run.2 ∧
  Forall (λ e, ∀ mode batch, e = ModelForward mode batch → mode = false) run.2 ∧
  (∀ dataset data_loader,
     dataset_from_dicts enc (num_hard_negatives st) dicts = Ok dataset →
     NamedDataLoader dataset (batch_size enc) = Ok data_loader →
     training run.1.2 = false).
Proof.
  cbn zeta. rewrite get_predictions_unfold.
  destruct (dataset_from_dicts enc (num_hard_negatives st) dicts) as [dataset|e];
    [|cbn; split_and!; try first [done | by constructor]].
  destruct (NamedDataLoader dataset (batch_size enc)) as [data_loader|e] eqn:Hloader.
  2: { cbn. split_and!; try first [done | by constructor].
       intros dataset' data_loader' [= <-]. congruence. }
  cbn zeta.
  destruct (predict_batches_run enc data_loader
              {| acc_query := []; acc_passages := []; acc_dense_query := [] |}
              {| training := false; num_hard_negatives := num_hard_negatives st |})
    as (Hst & Hev & _).
  cbn zeta in Hst, Hev. cbn [training] in Hev.
  assert (Forall (λ e, ∀ msg, e ≠ LoggerWarning msg)
            (predict_batches enc data_loader
               {| acc_query := []; acc_passages := []; acc_dense_query := [] |}
               {| training := false; num_hard_negatives := num_hard_negatives st |}).2)
    as Hnowarn.
  { eapply Forall_impl; [exact Hev|]. cbn. intros e [[batch ->] | ->] msg; done. }
  assert (Forall (λ e, ∀ mode batch, e = ModelForward mode batch → mode = false)
            (predict_batches enc data_loader
               {| acc_query := []; acc_passages := []; acc_dense_query := [] |}
               {| training := false; num_hard_negatives := num_hard_negatives st |}).2)
    as Hmode.
  { eapply Forall_impl; [exact Hev|]. cbn.
    intros e [[batch ->] | ->] mode batch'; [by intros [= <- _] | done]. }
  destruct (predict_batches enc data_loader _ _) as [[[acc|e] st1] ev];
    cbn [fst snd] in *; subst st1; cbn [num_hard_negatives training].
  - split_and!; try first [done | by constructor].
  - split_and!; try first [done | by constructor].
Qed.

(** X16: with a model that computes its outputs row by row and a positive
    batch size, [_get_predictions] returns for each output of the model one
    row per sample, in the order of the samples, whatever the batch size;
    an output the model does not produce stays the empty list.  The model
    is left in eval mode. *)
Theorem get_predictions_one_row_per_sample enc (fq fp fd : option (Sample → list F))
    (Dq Dp Dd : nat) (dicts : list input_dict) (dataset : list Sample) st :
  (0 < batch_size enc)%Z →
  devices enc ≠ [] →
  dataset_from_dicts enc (num_hard_negatives st) dicts = Ok dataset →
  row_wise enc false fq fp fd →
  uniform_width fq Dq → uniform_width fp Dp → uniform_width fd Dd →
  (_get_predictions enc dicts st).1.1 =
    Ok {| emb_query := embedded_rows fq dataset;
          emb_passages := embedded_rows fp dataset;
          emb_dense_query := embedded_rows fd dataset |} ∧
  (_get_predictions enc dicts st).1.2 =
    {| training := false; num_hard_negatives := num_hard_negatives st |}.
Proof.
  intros Hbs Hdev Hdataset Hrows Hq Hp Hd.
  by rewrite (get_predictions_row_wise_run enc fq fp fd Dq Dp Dd dicts dataset).
Qed.

(** X17: [_get_predictions] puts the model in eval mode before the first
    batch and leaves it there, also when a forward pass raises: once the
    samples and the loader exist, every forward pass runs in eval mode and
    the training flag is off afterwards.  It never touches
    [num_hard_negatives] and logs no warning. *)
Theorem get_predictions_runs_in_eval_mode enc (dicts : list input_dict) st
    (dataset : list Sample) :
  dataset_from_dicts enc (num_hard_negatives st) dicts = Ok dataset →
  (0 < batch_size enc)%Z →
  let run := _get_predictions enc dicts st in
  training run.1.2 = false ∧
  num_hard_negatives run.1.2 = num_hard_negatives st ∧
  Forall (λ e, ∀ mode batch, e = ModelForward mode batch → mode = false) run.2 ∧
  Forall (λ e, ∀ msg, e ≠ LoggerWarning msg) run.2.
Proof.
  intros Hdataset Hbs.
  destruct (get_predictions_frame enc dicts st) as (Hnh & Hnowarn & Hmode & Heval).
  cbn zeta in *. split_and!; try done.
  eapply Heval; [exact Hdataset|]. by apply NamedDataLoader_Ok.
Qed.

(** X18: a batch size that is zero or negative makes the loader raise
    [ValueError] in [_get_predictions] and in [embed_one_query] alike,
    before the model is called and before its mode is changed. *)
Theorem nonpositive_batch_size_raises enc (dicts : list input_dict) st
    (dataset : list Sample) :
  dataset_from_dicts enc (num_hard_negatives st) dicts = Ok dataset →
  (batch_size enc <= 0)%Z →
  _get_predictions enc dicts st = (Raise ValueError, st, []) ∧
  embed_one_query enc dicts st = (Raise ValueError, st, []).
Proof.
  intros Hdataset Hbs.
  assert (NamedDataLoader dataset (batch_size enc) = Raise ValueError) as Hloader.
  { unfold NamedDataLoader. by destruct (Z.leb_spec (batch_size enc) 0); [|lia]. }
  split.
  - by rewrite get_predictions_unfold, Hdataset, Hloader.
  - unfold embed_one_query, mbind, EM_bind, get_state, lift_result.
    by rewrite Hdataset, Hloader.
Qed.

(** X19: without samples [_get_predictions] opens an empty progress bar,
    never calls the model, needs no device, and returns the three empty
    Python lists it started with, not arrays. *)
Theorem get_predictions_without_samples enc (dicts : list input_dict) st :
  dataset_from_dicts enc (num_hard_negatives st) dicts = Ok [] →
  (0 < batch_size enc)%Z →
  _get_predictions enc dicts st =
    (Ok {| emb_query := PyEmptyList;
           emb_passages := PyEmptyList;
           emb_dense_query := PyEmptyList |},
     {| training := false; num_hard_negatives := num_hard_negatives st |},
     [TqdmOpen 0 (negb (progress_bar enc))]).
Proof.
  intros Hdataset Hbs.
  by rewrite get_predictions_unfold, Hdataset, NamedDataLoader_Ok.
Qed.

Lemma embed_one_query_loop_unfold enc (data_loader : list (list Sample)) st :
  embed_one_query_loop enc data_loader st =
    match data_loader with
    | [] => (Ok None, st, [])
    | batch :: _ =>
        match devices enc with
        | [] => (Raise IndexError, st, [])
        | _ :: _ =>
            (match forward enc (training st) batch with
             | Ok (binary_query, binary_passage, dense_query) =>
                 dense ← cpu_numpy dense_query;
                 binary ← cpu_numpy binary_query;
                 Ok (Some (dense, binary))
             | Raise e => Raise e
             end,
             st, [ModelForward (training st) batch])
        end
    end.
Proof.
  destruct data_loader as [|batch rest]; [done|].
  cbn [embed_one_query_loop]. unfold mbind at 1. unfold EM_bind.
  rewrite model_forward_unfold.
  destruct (devices enc); [done|].
  destruct (forward enc (training st) batch) as [[[bq bp] dq]|e]; [|done].
  unfold mbind, EM_bind, lift_result, result_bind, mret, EM_ret.
  destruct (cpu_numpy dq); [|done]. by destruct (cpu_numpy bq).
Qed.

Lemma embed_one_query_unfold enc (query : list input_dict) st :
  embed_one_query enc query st =
    match dataset_from_dicts enc (num_hard_negatives st) query with
    | Raise e => (Raise e, st, [])
    | Ok dataset =>
        match NamedDataLoader dataset (batch_size enc) with
        | Raise e => (Raise e, st, [])
        | Ok data_loader => embed_one_query_loop enc data_loader st
        end
    end.
Proof.
  unfold embed_one_query, mbind, EM_bind, get_state, lift_result.
  destruct (dataset_from_dicts enc (num_hard_negatives st) query) as [dataset|e];
    [|done].
  destruct (NamedDataLoader dataset (batch_size enc)) as [data_loader|e]; [|done].
  by destruct (embed_one_query_loop enc data_loader st) as [[r st'] ev].
Qed.

Lemma embed_queries_unfold enc (texts : list string) st :
  embed_queries enc texts st =
    let run := _get_predictions enc (QueryDict <$> texts) st in
    ((λ r, (emb_dense_query r, emb_query r)) <$> run.1.1, run.1.2, run.2).
Proof.
  unfold embed_queries, mbind, EM_bind. cbn zeta.
  destruct (_get_predictions enc (QueryDict <$> texts) st) as [[[r|e] st'] ev];
    cbn; by rewrite ?app_nil_r.
Qed.

Lemma embed_documents_unfold enc (docs : list MetaDocument) st :
  embed_documents enc docs st =
    let run := _get_predictions enc (passage_of_document <$> docs)
                 {| training := training st; num_hard_negatives := 0 |} in
    (emb_passages <$> run.1.1, run.1.2,
     (if bool_decide (num_hard_negatives st ≠ 0%Z)
      then [LoggerWarning (hard_negatives_warning (num_hard_negatives st))]
      else []) ++ run.2).
Proof.
  unfold embed_documents, mbind at 1, EM_bind, get_state.
  destruct st as [mode nh]. cbn [training num_hard_negatives]. cbn zeta.
  case_bool_decide as Hnh.
  - unfold mbind, EM_bind, emit_event, put_state.
    destruct (_get_predictions enc _ _) as [[[r|e] st'] ev]; cbn; by rewrite ?app_nil_r.
  - assert (nh = 0%Z) as -> by lia.
    unfold mbind, EM_bind, mret, EM_ret.
    destruct (_get_predictions enc _ _) as [[[r|e] st'] ev]; cbn; by rewrite ?app_nil_r.
Qed.

(** X20: [embed_one_query] embeds the first batch only.  Its loop returns
    in the first pass, so the samples after the first [batch_size] ones
    never reach the model and the result is the one for the first batch
    alone; without samples the result is [None] and the model is not
    called. *)
Theorem embed_one_query_first_batch_only enc (query : list input_dict) st
    (dataset : list Sample) :
  dataset_from_dicts enc (num_hard_negatives st) query = Ok dataset →
  (0 < batch_size enc)%Z →
  (dataset = [] → embed_one_query enc query st = (Ok None, st, [])) ∧
  (∀ first rest,
     dataset = first ++ rest →
     length first = Z.to_nat (batch_size enc) →
     embed_one_query enc query st = embed_one_query_loop enc [first] st).
Proof.
  intros Hdataset Hbs.
  rewrite embed_one_query_unfold, Hdataset, NamedDataLoader_Ok by done.
  split.
  - by intros ->.
  - intros first rest -> Hlen.
    rewrite chunks_app_first by (done || lia).
    by rewrite !embed_one_query_loop_unfold.
Qed.

(** X21: [embed_one_query] changes neither the mode of the model nor the
    processor: unlike [_get_predictions] it does not call [eval()], and its
    one forward pass, if any, runs in the mode the model happens to be in. *)
Theorem embed_one_query_keeps_state enc (query : list input_dict) st :
  let run := embed_one_query enc query st in
  run.1.2 = st ∧
  (length run.2 <= 1)%nat ∧
  Forall (λ e, ∃ batch, e = ModelForward (training st) batch) run.2.
Proof.
  cbn zeta. rewrite embed_one_query_unfold.
  destruct (dataset_from_dicts enc (num_hard_negatives st) query) as [dataset|e];
    [|cbn; split_and!; try first [done | lia | by constructor]].
  destruct (NamedDataLoader dataset (batch_size enc)) as [data_loader|e];
    [|cbn; split_and!; try first [done | lia | by constructor]].
  rewrite embed_one_query_loop_unfold.
  destruct data_loader as [|batch rest];
    [cbn; split_and!; try first [done | lia | by constructor]|].
  destruct (devices enc);
    [cbn; split_and!; try first [done | lia | by constructor]|].
  cbn [fst snd length]. split_and!; [done | lia |].
  constructor; [by eexists | constructor].
Qed.

(** X22: for queries that fit in one batch and a model already in eval
    mode, [embed_one_query] and [embed_queries] return the same two arrays,
    dense first. *)
Theorem embed_one_query_agrees_with_embed_queries enc (texts : list string) st
    (dataset : list Sample) (binary_query dense_query : list (list F))
    (binary_passage : option (list (list F))) (Dq Dp Dd : nat) :
  training st = false →
  (0 < batch_size enc)%Z →
  devices enc ≠ [] →
  dataset_from_dicts enc (num_hard_negatives st) (QueryDict <$> texts) = Ok dataset →
  dataset ≠ [] →
  (length dataset <= Z.to_nat (batch_size enc))%nat →
  forward enc false dataset = Ok (Some binary_query, binary_passage, Some dense_query) →
  Forall (λ r, length r = Dq) binary_query →
  Forall (λ r, length r = Dd) dense_query →
  (∀ a, binary_passage = Some a → Forall (λ r, length r = Dp) a) →
  (embed_one_query enc (QueryDict <$> texts) st).1.1
    = Ok (Some (dense_query, binary_query)) ∧
  (embed_queries enc texts st).1.1
    = Ok (NdArray dense_query, NdArray binary_query).
Proof.
  intros Hmode Hbs Hdev Hdataset Hne Hfit Hforward Hq Hd Hp.
  destruct (devices enc) as [|dev devs] eqn:Hdevs; [done|].
  split.
  - rewrite embed_one_query_unfold, Hdataset, NamedDataLoader_Ok by done.
    rewrite chunks_short, embed_one_query_loop_unfold, Hdevs, Hmode, Hforward by done.
    done.
  - rewrite embed_queries_unfold. cbn zeta.
    rewrite get_predictions_unfold, Hdataset, NamedDataLoader_Ok by done.
    cbn zeta. rewrite chunks_short by done.
    rewrite predict_batches_cons, Hdevs. cbn [training]. rewrite Hforward.
    cbn -[concatenate_if_any].
    rewrite (concatenate_if_any_uniform [binary_query] Dq),
      (concatenate_if_any_uniform [dense_query] Dd)
      by (done || by repeat constructor).
    cbn [concat]. rewrite !app_nil_r.
    destruct binary_passage as [a|]; cbn -[concatenate_if_any].
    + rewrite (concatenate_if_any_uniform [a] Dp)
        by (done || (constructor; [by apply Hp | constructor])).
      done.
    + done.
Qed.

(** X23: a progress bar that always completes.  When [_get_predictions]
    returns, it has opened the bar with a total of (number of batches) times
    [batch_size], at least the number of samples and less than one batch
    more, and has advanced it by [batch_size] once per batch, each time
    after one forward pass in eval mode. *)
Theorem get_predictions_progress enc (dicts : list input_dict) st
    (dataset : list Sample) (result : all_embeddings F) :
  dataset_from_dicts enc (num_hard_negatives st) dicts = Ok dataset →
  (0 < batch_size enc)%Z →
  (_get_predictions enc dicts st).1.1 = Ok result →
  let data_loader := chunks (Z.to_nat (batch_size enc)) dataset in
  let total := (Z.of_nat (length data_loader) * batch_size enc)%Z in
  (_get_predictions enc dicts st).2 =
    TqdmOpen total (if Nat.eqb (length dataset) 1 then true else negb (progress_bar enc))
      :: batch_events enc data_loader ∧
  (Z.of_nat (length dataset) <= total < Z.of_nat (length dataset) + batch_size enc)%Z.
Proof.
  intros Hdataset Hbs. cbn zeta.
  rewrite get_predictions_unfold, Hdataset, NamedDataLoader_Ok by done.
  cbn zeta.
  destruct (predict_batches_run enc (chunks (Z.to_nat (batch_size enc)) dataset)
              {| acc_query := []; acc_passages := []; acc_dense_query := [] |}
              {| training := false; num_hard_negatives := num_hard_negatives st |})
    as (_ & _ & Hev).
  cbn zeta in Hev. cbn [training] in Hev.
  destruct (predict_batches enc _ _ _) as [[[acc|e] st1] ev]; cbn [fst snd] in *;
    [|done].
  intros _. split.
  - f_equal. by apply (Hev acc).
  - pose proof (chunks_length_bounds (Z.to_nat (batch_size enc)) dataset) as Hbounds.
    nia.
Qed.

(** X24: with a processor that makes one sample per dict and a model that
    works row by row, [embed_documents] returns one row per document, in the
    order of the documents, from the passage output of the model; for no
    document it returns the empty list.  It leaves the model in eval mode
    and [num_hard_negatives] at zero. *)
Theorem embed_documents_one_row_per_document enc (sample_of : input_dict → Sample)
    (fq fp fd : option (Sample → list F)) (Dq Dp Dd : nat)
    (docs : list MetaDocument) st :
  (0 < batch_size enc)%Z →
  devices enc ≠ [] →
  (∀ dicts, dataset_from_dicts enc 0 dicts = Ok (sample_of <$> dicts)) →
  row_wise enc false fq fp fd →
  uniform_width fq Dq → uniform_width fp Dp → uniform_width fd Dd →
  (embed_documents enc docs st).1.1 =
    Ok (embedded_rows fp (sample_of <$> (passage_of_document <$> docs))) ∧
  (embed_documents enc docs st).1.2 = {| training := false; num_hard_negatives := 0 |}.
Proof.
  intros Hbs Hdev Hdataset Hrows Hq Hp Hd.
  rewrite embed_documents_unfold. cbn zeta.
  by rewrite (get_predictions_row_wise_run enc fq fp fd Dq Dp Dd _
                (sample_of <$> (passage_of_document <$> docs))).
Qed.

(** X25: [embed_documents] always leaves [num_hard_negatives] at zero,
    whatever happens afterwards in the call.  It logs the warning, first of
    all, exactly when the value was not zero; so a call that follows
    another one never warns. *)
Theorem embed_documents_resets_hard_negatives enc (docs : list MetaDocument) st :
  let run := embed_documents enc docs st in
  num_hard_negatives run.1.2 = 0%Z ∧
  (num_hard_negatives st ≠ 0%Z →
   ∃ rest, run.2 = LoggerWarning (hard_negatives_warning (num_hard_negatives st)) :: rest ∧
           Forall (λ e, ∀ msg, e ≠ LoggerWarning msg) rest) ∧
  (num_hard_negatives st = 0%Z → Forall (λ e, ∀ msg, e ≠ LoggerWarning msg) run.2) ∧
  (∀ docs', Forall (λ e, ∀ msg, e ≠ LoggerWarning msg)
              (embed_documents enc docs' run.1.2).2).
Proof.
  assert (∀ docs0 st0,
            num_hard_negatives (embed_documents enc docs0 st0).1.2 = 0%Z ∧
            (num_hard_negatives st0 ≠ 0%Z →
             ∃ rest, (embed_documents enc docs0 st0).2
                     = LoggerWarning (hard_negatives_warning (num_hard_negatives st0)) :: rest ∧
                     Forall (λ e, ∀ msg, e ≠ LoggerWarning msg) rest) ∧
            (num_hard_negatives st0 = 0%Z →
             Forall (λ e, ∀ msg, e ≠ LoggerWarning msg) (embed_documents enc docs0 st0).2))
    as Hcall.
  { intros docs0 st0. rewrite embed_documents_unfold. cbn zeta. cbn [fst snd].
    destruct (get_predictions_frame enc (passage_of_document <$> docs0)
                {| training := training st0; num_hard_negatives := 0 |})
      as (Hnh & Hnowarn & _).
    cbn zeta in Hnh, Hnowarn. cbn [num_hard_negatives] in Hnh.
    split; [done|]. split.
    - intros Hne. rewrite bool_decide_eq_true_2 by done. by eexists.
    - intros Heq. by rewrite bool_decide_eq_false_2 by lia. }
  cbn zeta. destruct (Hcall docs st) as (Hzero & Hwarn & Hquiet).
  split_and!; try done.
  intros docs'. by apply Hcall.
Qed.

End EncoderFacts.

(** ** The methods on the small encoder *)

Lemma demo_query_encoder_row_wise (bs : Z) (mode : bool) :
  row_wise (demo_query_encoder bs) mode (Some demo_row) None (Some demo_row).
Proof. by intros batch. Qed.

Lemma demo_passage_encoder_row_wise (bs : Z) (mode : bool) :
  row_wise (demo_passage_encoder bs) mode None (Some demo_row) None.
Proof. by intros batch. Qed.

Lemma demo_row_width : uniform_width (Some demo_row) 2.
Proof. intros g s [= <-]. by destruct s. Qed.

Lemma no_row_width {F Sample : Type} (D : nat) :
  uniform_width (F := F) (Sample := Sample) None D.
Proof. by intros g s. Qed.

Lemma get_predictions_one_row_per_sample_witness :
  (_get_predictions (demo_query_encoder 2)
     [QueryDict "a"; QueryDict "bb"; QueryDict "ccc"] (demo_state true 0)).1.1
  = Ok {| emb_query := NdArray [[1; 1]; [2; 1]; [3; 1]]%Z;
          emb_passages := PyEmptyList;
          emb_dense_query := NdArray [[1; 1]; [2; 1]; [3; 1]]%Z |} ∧
  training (_get_predictions (demo_query_encoder 2)
     [QueryDict "a"; QueryDict "bb"; QueryDict "ccc"] (demo_state true 0)).1.2 = false.
Proof.
  destruct (get_predictions_one_row_per_sample (demo_query_encoder 2)
              (Some demo_row) None (Some demo_row) 2 0 2
              [QueryDict "a"; QueryDict "bb"; QueryDict "ccc"]
              [QueryDict "a"; QueryDict "bb"; QueryDict "ccc"] (demo_state true 0))
    as [Hresult Hstate];
    [first [done | apply demo_query_encoder_row_wise | apply demo_row_width
           | apply no_row_width] .. |].
  split; [exact Hresult | by rewrite Hstate].
Defined.

Lemma get_predictions_runs_in_eval_mode_witness :
  let run := _get_predictions (demo_query_encoder 2)
               [QueryDict "a"; QueryDict "bb"; QueryDict "ccc"] (demo_state true 3) in
  training run.1.2 = false ∧
  num_hard_negatives run.1.2 = 3%Z ∧
  Forall (λ e, ∀ mode batch, e = ModelForward mode batch → mode = false) run.2 ∧
  Forall (λ e, ∀ msg, e ≠ LoggerWarning msg) run.2.
Proof.
  apply (get_predictions_runs_in_eval_mode (demo_query_encoder 2)
           [QueryDict "a"; QueryDict "bb"; QueryDict "ccc"] (demo_state true 3)
           [QueryDict "a"; QueryDict "bb"; QueryDict "ccc"]); [reflexivity | cbn; lia].
Defined.

Lemma nonpositive_batch_size_raises_witness :
  _get_predictions (demo_query_encoder 0) [QueryDict "a"] (demo_state true 0)
    = (Raise ValueError, demo_state true 0, []) ∧
  embed_one_query (demo_query_encoder 0) [QueryDict "a"] (demo_state true 0)
    = (Raise ValueError, demo_state true 0, []).
Proof.
  apply (nonpositive_batch_size_raises (demo_query_encoder 0) [QueryDict "a"]
           (demo_state true 0) [QueryDict "a"]); [reflexivity | cbn; lia].
Defined.

Lemma get_predictions_without_samples_witness :
  _get_predictions (demo_query_encoder 16) [] (demo_state true 0)
    = (Ok {| emb_query := PyEmptyList;
             emb_passages := PyEmptyList;
             emb_dense_query := PyEmptyList |},
       demo_state false 0, [TqdmOpen 0 false]).
Proof.
  apply (get_predictions_without_samples (demo_query_encoder 16) [] (demo_state true 0));
    [reflexivity | cbn; lia].
Defined.

Lemma embed_one_query_first_batch_only_witness :
  embed_one_query (demo_query_encoder 2)
    [QueryDict "a"; QueryDict "bb"; QueryDict "ccc"] (demo_state true 0)
  = embed_one_query_loop (demo_query_encoder 2)
      [[QueryDict "a"; QueryDict "bb"]] (demo_state true 0) ∧
  (embed_one_query (demo_query_encoder 2)
     [QueryDict "a"; QueryDict "bb"; QueryDict "ccc"] (demo_state true 0)).1.1
  = Ok (Some ([[1; 1]; [2; 1]]%Z, [[1; 1]; [2; 1]]%Z)).
Proof.
  destruct (embed_one_query_first_batch_only (demo_query_encoder 2)
              [QueryDict "a"; QueryDict "bb"; QueryDict "ccc"] (demo_state true 0)
              [QueryDict "a"; QueryDict "bb"; QueryDict "ccc"] eq_refl)
    as [_ Hfirst]; [cbn; lia|].
  specialize (Hfirst [QueryDict "a"; QueryDict "bb"] [QueryDict "ccc"] eq_refl eq_refl).
  split; [exact Hfirst|]. by rewrite Hfirst.
Defined.

Lemma embed_one_query_agrees_with_embed_queries_witness :
  (embed_one_query (demo_query_encoder 16) (QueryDict <$> ["a"; "bb"])
     (demo_state false 0)).1.1
    = Ok (Some ([[1; 1]; [2; 1]]%Z, [[1; 1]; [2; 1]]%Z)) ∧
  (embed_queries (demo_query_encoder 16) ["a"; "bb"] (demo_state false 0)).1.1
    = Ok (NdArray [[1; 1]; [2; 1]]%Z, NdArray [[1; 1]; [2; 1]]%Z).
Proof.
  apply (embed_one_query_agrees_with_embed_queries (demo_query_encoder 16) ["a"; "bb"]
           (demo_state false 0) [QueryDict "a"; QueryDict "bb"]
           [[1; 1]; [2; 1]]%Z [[1; 1]; [2; 1]]%Z None 2 0 2);
    try done; try (cbn; lia); by repeat constructor.
Defined.

Lemma get_predictions_progress_witness :
  (_get_predictions (demo_query_encoder 2)
     [QueryDict "a"; QueryDict "bb"; QueryDict "ccc"] (demo_state true 0)).2
  = [ TqdmOpen 4 false;
      ModelForward false [QueryDict "a"; QueryDict "bb"]; TqdmUpdate 2;
      ModelForward false [QueryDict "ccc"]; TqdmUpdate 2 ].
Proof.
  destruct (get_predictions_progress (demo_query_encoder 2)
              [QueryDict "a"; QueryDict "bb"; QueryDict "ccc"] (demo_state true 0)
              [QueryDict "a"; QueryDict "bb"; QueryDict "ccc"]
              {| emb_query := NdArray [[1; 1]; [2; 1]; [3; 1]]%Z;
                 emb_passages := PyEmptyList;
                 emb_dense_query := NdArray [[1; 1]; [2; 1]; [3; 1]]%Z |}
              eq_refl) as [Hev _]; [cbn; lia | reflexivity |].
  exact Hev.
Defined.

Lemma embed_documents_one_row_per_document_witness :
  (embed_documents (demo_passage_encoder 2) demo_meta_documents (demo_state true 1)).1.1
    = Ok (NdArray [[1; 1]; [1; 1]; [1; 1]]%Z) ∧
  (embed_documents (demo_passage_encoder 2) demo_meta_documents (demo_state true 1)).1.2
    = demo_state false 0.
Proof.
  apply (embed_documents_one_row_per_document (demo_passage_encoder 2) (λ d, d)
           None (Some demo_row) None 0 2 0 demo_meta_documents (demo_state true 1));
    try first [done | cbn; lia | apply demo_passage_encoder_row_wise
              | apply demo_row_width | apply no_row_width].
  intros dicts. cbn. by rewrite list_fmap_id.
Defined.

Lemma embed_documents_resets_hard_negatives_witness :
  let run := embed_documents (demo_passage_encoder 2) demo_meta_documents
               (demo_state true 1) in
  num_hard_negatives run.1.2 = 0%Z ∧
  (∃ rest, run.2 = LoggerWarning (hard_negatives_warning 1) :: rest ∧
           Forall (λ e, ∀ msg, e ≠ LoggerWarning msg) rest) ∧
  Forall (λ e, ∀ msg, e ≠ LoggerWarning msg)
    (embed_documents (demo_passage_encoder 2) demo_meta_documents run.1.2).2.
Proof.
  destruct (embed_documents_resets_hard_negatives (demo_passage_encoder 2)
              demo_meta_documents (demo_state true 1))
    as (Hzero & Hwarn & _ & Hnext).
  split; [exact Hzero|]. split; [by apply Hwarn | apply Hnext].
Defined.

(** The dicts built for the three demo documents: the title is the [name]
    of the meta data when there is one. *)
Example passage_of_document_run :
  passage_of_document <$> demo_meta_documents =
    [ PassagesDict [ {| title := ""; text := "alpha"; label := "positive";
                        external_id := "a" |} ];
      PassagesDict [ {| title := "Beta"; text := "beta"; label := "positive";
                        external_id := "b" |} ];
      PassagesDict [ {| title := ""; text := "gamma"; label := "positive";
                        external_id := "c" |} ] ].
Proof. reflexivity. Qed.

Example hard_negatives_warning_run :
  hard_negatives_warning 1 =
    "'num_hard_negatives' is set to 1, but inference does not require any hard negatives. Setting num_hard_negatives to 0.".
Proof. reflexivity. Qed.

Lemma embed_one_query_keeps_state_witness :
  (embed_one_query (demo_query_encoder 2)
     [QueryDict "a"; QueryDict "bb"; QueryDict "ccc"] (demo_state true 0)).1.2
  = demo_state true 0.
Proof.
  destruct (embed_one_query_keeps_state (demo_query_encoder 2)
              [QueryDict "a"; QueryDict "bb"; QueryDict "ccc"] (demo_state true 0))
    as [Hstate _].
  exact Hstate.
Defined.

End EmbeddingFacts.

(** * The further properties at concrete inputs *)

Section ExtraRuns.
#[local] Existing Instance Z_float_ops.
#[local] Existing Instance Z_float_laws.

Lemma retrieve_frame_witness :
  (retrieve (H0 := stable_sort_Z) "who?" None (Some 5%Z) None None
     (demo_retriever (Some demo_store) 2)).1.2
  = demo_retriever (Some demo_store) 2 ∧
  (candidates (retrieve (H0 := stable_sort_Z) "who?" None (Some 5%Z) None None
                 (demo_retriever (Some demo_store) 1000)).1.2 <= 1000)%Z.
Proof.
  split.
  - destruct (retrieve_frame (H0 := stable_sort_Z) "who?" None (Some 5%Z) None None
                (demo_retriever (Some demo_store) 2)) as (_ & _ & _ & _ & _ & Hsame).
    apply (Hsame demo_store eq_refl). cbn. lia.
  - destruct (retrieve_frame (H0 := stable_sort_Z) "who?" None (Some 5%Z) None None
                (demo_retriever (Some demo_store) 1000)) as (_ & _ & _ & Hle & _).
    exact Hle.
Defined.

Lemma retrieve_encoder_error_witness :
  retrieve (H0 := stable_sort_Z) "who?" None (Some 5%Z) None None failing_retriever
  = (Raise RuntimeError, failing_retriever, []).
Proof.
  exact (retrieve_encoder_error (H0 := stable_sort_Z) "who?" None (Some 5%Z) None None
           failing_retriever demo_store RuntimeError eq_refl eq_refl).
Defined.

Lemma retrieve_unknown_index_witness :
  (retrieve (H0 := stable_sort_Z) "who?" None (Some 5%Z) (Some "label") None
     (demo_retriever (Some demo_store) 1000)).1.1 = Raise KeyError ∧
  candidates (retrieve (H0 := stable_sort_Z) "who?" None (Some 5%Z) (Some "label") None
                (demo_retriever (Some demo_store) 1000)).1.2 = 3%Z.
Proof.
  destruct (retrieve_unknown_index (H0 := stable_sort_Z) "who?" None (Some 5%Z)
              (Some "label") None (demo_retriever (Some demo_store) 1000) demo_store
              (demo_dense, demo_binary) eq_refl eq_refl eq_refl) as [Hrun Hk].
  rewrite Hrun. cbn [fst snd]. split; [done | exact Hk].
Defined.

Lemma retrieve_index_error_witness :
  (retrieve (H0 := stable_sort_Z) "who?" None (Some 5%Z) None None
     (demo_retriever (Some demo_store) (-1))).1.1 = Raise ValueError ∧
  (retrieve (H0 := stable_sort_Z) "who?" None (Some 5%Z) None None
     (demo_retriever (Some stale_store) 1000)).1.1 = Raise RuntimeError.
Proof.
  split.
  - destruct (retrieve_index_error (H0 := stable_sort_Z) "who?" None (Some 5%Z) None None
                (demo_retriever (Some demo_store) (-1)) demo_store
                (flat_index demo_entries) demo_dense demo_binary ValueError
                eq_refl eq_refl eq_refl) as [Hsearch _].
    by apply Hsearch.
  - destruct (retrieve_index_error (H0 := stable_sort_Z) "who?" None (Some 5%Z) None None
                (demo_retriever (Some stale_store) 1000) stale_store
                stale_index demo_dense demo_binary RuntimeError
                eq_refl eq_refl eq_refl) as [_ Hreconstruct].
    apply (Hreconstruct [0%Z] [] 7%Z); [done | | done].
    constructor; [by eexists | constructor].
Defined.

Lemma retrieve_success_shape_witness :
  ∃ store raw_index query_embeddings query_emb_binary ids_arr,
    document_store (demo_retriever (Some demo_store) 2) = Some store ∧
    embed_one_query (demo_retriever (Some demo_store) 2) "who?"
      = Ok (query_embeddings, query_emb_binary) ∧
    faiss_indexes store !! default (store_index store) None = Some raw_index ∧
    search raw_index (pack_code query_emb_binary)
      (Z.min (candidates (demo_retriever (Some demo_store) 2))
             (Z.of_nat (length (all_documents store)))) = Ok ids_arr ∧
    ids_arr ≠ [] ∧
    Forall (λ id_, ∃ code, reconstruct raw_index id_ = Ok code ∧
                           (8 * length code = length query_embeddings)%nat) ids_arr ∧
    (length query_embeddings mod 8 = 0)%nat.
Proof.
  assert ((retrieve (H0 := stable_sort_Z) "who?" None (Some 5%Z) None None
             (demo_retriever (Some demo_store) 2)).1.1
          = Ok [ {| doc_id := "a"; content := "alpha" |};
                 {| doc_id := "b"; content := "beta" |} ]) as Hrun
    by (vm_compute; reflexivity).
  destruct (retrieve_success_shape (H0 := stable_sort_Z) "who?" None (Some 5%Z) None None
              (demo_retriever (Some demo_store) 2) _ Hrun)
    as [[Hnone _] | Hshape]; [discriminate Hnone | exact Hshape].
Defined.

Lemma demo_store_indexes_within_k :
  ∀ name ix, faiss_indexes demo_store !! name = Some ix → search_within_k ix.
Proof.
  intros name ix Hix.
  change (({[ "document" := flat_index demo_entries ]} : gmap string BinaryIndex) !! name
          = Some ix) in Hix.
  apply lookup_singleton_Some in Hix as [_ <-]. apply flat_index_within_k.
Qed.

Lemma retrieve_nonpositive_candidates_witness :
  raises (retrieve (H0 := stable_sort_Z) "who?" None (Some 5%Z) None None
            (demo_retriever (Some demo_store) 0)).1.1.
Proof.
  apply (retrieve_nonpositive_candidates (H0 := stable_sort_Z) _ _ _ _ _ _ demo_store);
    [reflexivity | cbn; lia | exact demo_store_indexes_within_k].
Defined.

Lemma retrieve_result_length_witness :
  length [ {| doc_id := "a"; content := "alpha" |} ] = (Z.to_nat 1 `min` 2)%nat ∧
  (retrieve (H0 := stable_sort_Z) "who?" None (Some 1%Z) None None
     (demo_retriever (Some demo_store) 2)).1.1
  = Ok [ {| doc_id := "a"; content := "alpha" |} ].
Proof.
  destruct (retrieve_result_length (np := stable_sort_Z) (contract := stable_sort_Z_contract)
              "who?" None (Some 1%Z) None None (demo_retriever (Some demo_store) 2)
              demo_store (flat_index demo_entries) demo_dense demo_binary [1; 0]%Z
              [ {| doc_id := "a"; content := "alpha" |} ]
              eq_refl eq_refl eq_refl eq_refl eq_refl) as (Hpos & _ & _).
  split; [apply Hpos; cbn; lia | reflexivity].
Defined.

Lemma retrieve_result_length_negative_top_k :
  (retrieve (H0 := stable_sort_Z) "who?" None (Some (-1)%Z) None None
     (demo_retriever (Some demo_store) 1000)).1.1
  = Ok [ {| doc_id := "a"; content := "alpha" |};
         {| doc_id := "c"; content := "gamma" |} ].
Proof. reflexivity. Qed.

Lemma retrieve_returns_stored_documents_witness :
  Forall (λ doc, doc ∈ demo_documents)
    [ {| doc_id := "a"; content := "alpha" |}; {| doc_id := "b"; content := "beta" |} ].
Proof.
  exact (retrieve_returns_stored_documents (H0 := stable_sort_Z) "who?" None (Some 5%Z)
           None None (demo_retriever (Some demo_store) 2) demo_store
           [ {| doc_id := "a"; content := "alpha" |}; {| doc_id := "b"; content := "beta" |} ]
           eq_refl eq_refl).
Defined.

Lemma retrieve_no_duplicates_witness :
  NoDup [ {| doc_id := "a"; content := "alpha" |}; {| doc_id := "b"; content := "beta" |} ].
Proof.
  apply (retrieve_no_duplicates (np := stable_sort_Z) (contract := stable_sort_Z_contract)
           "who?" None (Some 5%Z) None None (demo_retriever (Some demo_store) 2)
           demo_store (flat_index demo_entries) demo_dense demo_binary [1; 0]%Z);
    try reflexivity.
  - apply NoDup_cons_2; [by intros [=]%list_elem_of_singleton | apply NoDup_singleton].
  - repeat constructor; lia.
  - apply NoDup_cons_2; [| apply NoDup_cons_2;
                             [by intros [=]%list_elem_of_singleton | apply NoDup_singleton]].
    intros [[=] | [=]%list_elem_of_singleton]%elem_of_cons.
Defined.

Lemma retrieve_first_is_best_witness :
  ∃ (p0 : nat) (s0 : Z) (id0 : Z) (doc0 : Document),
    argsort (NumpySort := stable_sort_Z) (Z.opp <$> [-8; 16]%Z) !! 0%nat = Some p0 ∧
    [-8; 16]%Z !! p0 = Some s0 ∧
    [1; 0]%Z !! p0 = Some id0 ∧
    py_list_getitem demo_documents id0 = Ok doc0 ∧
    [ {| doc_id := "a"; content := "alpha" |} ] !! 0%nat = Some doc0 ∧
    ∀ (p : nat) (s : Z), p ≠ p0 → [-8; 16]%Z !! p = Some s → (s0 <? s)%Z = false.
Proof.
  assert (1 <= 1)%Z as Hk by lia.
  exact (retrieve_first_is_best (np := stable_sort_Z) (contract := stable_sort_Z_contract)
           "who?" None (Some 1%Z) None None (demo_retriever (Some demo_store) 2)
           (rerank demo_store "who?" "document" (demo_retriever (Some demo_store) 2)).1.2
           demo_store [1; 0]%Z [-8; 16]%Z
           (rerank demo_store "who?" "document" (demo_retriever (Some demo_store) 2)).2
           [ {| doc_id := "a"; content := "alpha" |} ]
           eq_refl eq_refl Hk eq_refl).
Defined.

Lemma run_calls_never_raises_candidates_witness :
  (candidates (run_calls (H0 := stable_sort_Z) [later_call; later_call]
                 (demo_retriever (Some demo_store) 4)).1 <= 4)%Z.
Proof.
  destruct (run_calls_never_raises_candidates (H0 := stable_sort_Z)
              [later_call; later_call] (demo_retriever (Some demo_store) 4)) as [Hle _].
  exact Hle.
Defined.

Lemma pack_code_same_signs_witness :
  pack_code [3; -1; 0; 2]%Z = pack_code [1; -5; -2; 9]%Z.
Proof.
  by apply (pack_code_same_signs [3; -1; 0; 2]%Z [1; -5; -2; 9]%Z).
Defined.

End ExtraRuns.

Module HashLayerExtraRuns.
Import HashLayerModel HashLayerExtras.

Lemma registry_heap_HashLayer : registry_heap !! 2%nat = Some (HashLayer_class 1 0).
Proof. reflexivity. Qed.

Lemma registry_heap_A :
  registry_heap !! 3%nat
  = Some {| cls_name := "A";
            cls_mro_tail := [2%nat; 1%nat; 0%nat];
            cls_namespace := {[ "subclasses" := PyDict {[ "A" := 3%nat ]} ]} |}.
Proof. reflexivity. Qed.


Lemma registry_keeps_last_class_of_a_name_witness :
  ∃ cls1 h1 cls2 h2 ka2,
    define_class registry_heap "B" 3 [] ∅ = Ok (cls1, h1) ∧
    define_class h1 "B" 3 [] ∅ = Ok (cls2, h2) ∧
    cls1 ≠ cls2 ∧
    h2 !! 3%nat = Some ka2 ∧
    cls_namespace ka2 !! "subclasses"
      = Some (PyDict (<["B" := cls2]> {[ "A" := 3%nat ]})).
Proof.
  apply (registry_keeps_last_class_of_a_name registry_heap 2 1 0 3 _ _ "B" ∅ ∅
           registry_heap_HashLayer registry_heap_A eq_refl);
    [by apply lookup_singleton_ne | by apply lookup_singleton_eq
    | apply lookup_empty | apply lookup_empty].
Defined.


End HashLayerExtraRuns.
